(** * Trial result restoration: [ray.air.result.Result]

    A shallow embedding of [python/ray/air/result.py]: the [Result] dataclass,
    its [config] property, [Result.from_path] (restoration of a trial from its
    directory) and [Result.get_best_checkpoint].

    Python values are an inductive type, dictionaries are insertion-ordered
    association lists, exceptions are an explicit outcome, and the storage
    reads performed by [from_path] are recorded in a trace of events.  A
    float is the rational number it stands for. *)

From Stdlib Require Import List String Ascii ZArith NArith QArith Bool Lia Arith.
From Stdlib Require Import Sorting.Sorted Sorting.Permutation.
From Stdlib Require Import Structures.OrdersEx RelationClasses.
From Stdlib Require Import Floats.SpecFloat.
Import ListNotations.
Local Close Scope Q_scope.
Local Open Scope string_scope.
Local Open Scope list_scope.

(** ** Exceptions and outcomes *)

(** The exceptions this module raises itself ([RuntimeError], [ValueError]),
    the ones the interpreter or pandas raise on its behalf ([KeyError],
    [TypeError], [AttributeError]), and [ExternalError] for a failure inside a
    collaborator (storage, decoders), which is only propagated. *)
Inductive exn : Type :=
| RuntimeError (msg : string)
| ValueError (msg : string)
| KeyError (key : string)
| TypeError
| AttributeError
| IndexError
| ExternalError (what : string).

Inductive outcome (A : Type) : Type :=
| Returns (a : A)
| Raises (e : exn).
Arguments Returns {A} a.
Arguments Raises {A} e.

Definition obind {A B : Type} (m : outcome A) (k : A -> outcome B) : outcome B :=
  match m with
  | Returns a => k a
  | Raises e => Raises e
  end.

Declare Scope outcome_scope.
Delimit Scope outcome_scope with outcome.
Notation "x <- m ;; k" := (obind m (fun x => k))
  (at level 61, m at next level, right associativity) : outcome_scope.

(** ** Python values *)

Local Set Warnings "-register-all".

(** The values a metrics dictionary holds.  A finite float is the rational it
    stands for; [VNaN] is the float pandas puts in a cell that has no
    value. *)
Inductive value : Type :=
| VNone
| VNaN
| VBool (b : bool)
| VInt (z : Z)
| VFloat (q : Q)
| VStr (s : string)
| VDict (items : list (string * value)).

(** [Dict[str, Any]]: an insertion-ordered association list. *)
Definition dict : Type := list (string * value).

(** [key in d] *)
Definition dict_contains (key : string) (d : dict) : bool :=
  existsb (fun kv => String.eqb (fst kv) key) d.

(** [d.get(key, None)] *)
Fixpoint dict_get (d : dict) (key : string) : value :=
  match d with
  | [] => VNone
  | (k, v) :: d' => if String.eqb k key then v else dict_get d' key
  end.

(** [d[key]] *)
Fixpoint dict_getitem (d : dict) (key : string) : outcome value :=
  match d with
  | [] => Raises (KeyError key)
  | (k, v) :: d' => if String.eqb k key then Returns v else dict_getitem d' key
  end.

(** [d.keys()] *)
Definition dict_keys (d : dict) : list string := map fst d.

(** [d[key] = v]: replaces the value in place, or appends a new key. *)
Fixpoint dict_set (d : dict) (key : string) (v : value) : dict :=
  match d with
  | [] => [(key, v)]
  | (k, w) :: d' =>
      if String.eqb k key then (k, v) :: d' else (k, w) :: dict_set d' key v
  end.

(** The number a Python number stands for ([True] is 1, [False] is 0). *)
Definition py_num (v : value) : option Q :=
  match v with
  | VBool b => Some (inject_Z (Z.b2z b))
  | VInt z => Some (inject_Z z)
  | VFloat q => Some q
  | _ => None
  end.

(** [a < b].  Numbers compare by value, NaN compares false with every number,
    strings compare by code point, anything else is a [TypeError]. *)
Definition py_lt (a b : value) : outcome bool :=
  match a, b with
  | VStr s, VStr t => Returns (String.ltb s t)
  | (VNaN | VBool _ | VInt _ | VFloat _), (VNaN | VBool _ | VInt _ | VFloat _) =>
      match py_num a, py_num b with
      | Some x, Some y => Returns (negb (Qle_bool y x))
      | _, _ => Returns false
      end
  | _, _ => Raises TypeError
  end.

(** [a > b] *)
Definition py_gt (a b : value) : outcome bool := py_lt b a.

(** ** The builtins [max] and [min] with a [key] *)

Section MinMax.
Context {A : Type}.
(** [better v w]: [v > w] for [max], [v < w] for [min]. *)
Variable better : value -> value -> outcome bool.
Variable key : A -> outcome value.

(** The loop of the builtin: the running best item is replaced only by an
    item whose key is strictly better. *)
Fixpoint min_max_loop (best : A) (bestval : value) (rest : list A)
  : outcome A :=
  match rest with
  | [] => Returns best
  | item :: rest' =>
      (val <- key item ;;
       c <- better val bestval ;;
       if c : bool then min_max_loop item val rest'
       else min_max_loop best bestval rest')%outcome
  end.

Definition min_max (items : list A) : outcome A :=
  match items with
  | [] => Raises (ValueError "arg is an empty sequence")
  | item :: rest => (val <- key item ;; min_max_loop item val rest)%outcome
  end.
End MinMax.

Definition py_max {A : Type} := @min_max A py_gt.
Definition py_min {A : Type} := @min_max A py_lt.

(** ** Storage: the consumed filesystem capability *)

Inductive FileType : Type := NotFound | Unknown | File | Directory.

Definition FileType_eqb (a b : FileType) : bool :=
  match a, b with
  | NotFound, NotFound | Unknown, Unknown | File, File
  | Directory, Directory => true
  | _, _ => false
  end.

(** One entry of a directory listing ([pyarrow.fs.FileInfo]). *)
Record FileInfo : Type := { base_name : string; type : FileType }.

(** A [pyarrow.fs.FileSystem], by the operations [from_path] uses.  A failing
    operation gives [inl] with a description of the failure. *)
Record FileSystem : Type := {
  exists_at : string -> bool;
  open_input_stream : string -> string + string;
  get_file_info : string -> string + list FileInfo;
  is_local : bool
}.

(** [ray.train.Checkpoint(path, filesystem)] *)
Record Checkpoint : Type := { ckpt_path : string; ckpt_filesystem : FileSystem }.

(** ** A pandas data frame, as far as [from_path] looks at one *)

(** The types of the columns that [json_normalize] and [read_csv] infer:
    [numpy.int64], [numpy.float64], [numpy.bool_] and [numpy.object_] (texts,
    [None], and columns of mixed content). *)
Inductive dtype : Type := int64 | float64 | bool_ | object_.

Definition dtype_eqb (a b : dtype) : bool :=
  match a, b with
  | int64, int64 | float64, float64 | bool_, bool_ | object_, object_ => true
  | _, _ => false
  end.

Definition is_numeric (t : dtype) : bool :=
  match t with int64 | float64 => true | _ => false end.

(** A table: the names and the types of its columns, and its rows. *)
Record DataFrame : Type := {
  columns : list string;
  dtypes : list dtype;
  rows : list (list value)
}.

(** [df.empty]: some axis has length zero. *)
Definition df_empty (df : DataFrame) : bool :=
  match columns df, rows df with
  | [], _ => true
  | _, [] => true
  | _, _ => false
  end.

Fixpoint column_index (cols : list string) (name : string) : option nat :=
  match cols with
  | [] => None
  | c :: cs =>
      if String.eqb c name then Some 0
      else option_map S (column_index cs name)
  end.

(** The cell of a row in column [i]; a cell the row lacks is NaN. *)
Definition cell (i : nat) (row : list value) : value := nth i row VNaN.

(** [df[name]]: the column as a series, [KeyError] when there is no such
    column. *)
Definition df_getitem (df : DataFrame) (name : string) : outcome (list value) :=
  match column_index (columns df) name with
  | None => Raises (KeyError name)
  | Some i => Returns (map (cell i) (rows df))
  end.

(** [v == s] for a string [s], element of [series == s]. *)
Definition py_eq_str (v : value) (s : string) : bool :=
  match v with
  | VStr t => String.eqb t s
  | _ => false
  end.

Definition series_eq (series : list value) (s : string) : list bool :=
  map (fun v => py_eq_str v s) series.

Fixpoint mask_rows (rs : list (list value)) (mask : list bool)
  : list (list value) :=
  match rs, mask with
  | r :: rs', b :: mask' =>
      if b then r :: mask_rows rs' mask' else mask_rows rs' mask'
  | _, _ => []
  end.

(** [df[mask]]: the rows the boolean mask selects, in order. *)
Definition df_mask (df : DataFrame) (mask : list bool) : DataFrame :=
  {| columns := columns df; dtypes := dtypes df;
     rows := mask_rows (rows df) mask |}.

(** [numpy.float64(z)] for an integer [z] of 64 bits: the nearest number
    with a mantissa of 53 bits, ties going to the even mantissa. *)
Definition float64_of_int (z : Z) : Q :=
  match binary_normalize 53 1024 z 0 false with
  | S754_finite s m e =>
      let signed := if s then Z.neg m else Z.pos m in
      if (0 <=? e)%Z then inject_Z (signed * 2 ^ e)
      else Qred (Qmake signed (Z.to_pos (2 ^ (- e))))
  | _ => inject_Z 0
  end.

(** The type of the series that holds one row of a table, pandas'
    [find_common_type] over the types of the columns: their type when they
    all have the same, [float64] when integers and floats meet, [object_] as
    soon as a column of booleans or of objects meets another type.  A table
    without columns gives an empty series of [float64]. *)
Definition find_common_type (types : list dtype) : dtype :=
  match types with
  | [] => float64
  | t :: ts =>
      if forallb (dtype_eqb t) ts then t
      else if forallb is_numeric types then float64
      else object_
  end.

(** A cell stored in a series of type [t]: in a series of [float64] an
    integer becomes a float; every other cell is kept as it is. *)
Definition astype (t : dtype) (v : value) : value :=
  match t, v with
  | float64, VInt z => VFloat (float64_of_int z)
  | _, _ => v
  end.

(** The series of a row of [df]: its cells, in the common type of the
    columns. *)
Definition row_series (df : DataFrame) (row : list value) : list value :=
  map (astype (find_common_type (dtypes df))) row.

(** [df.iloc[-1]] *)
Definition df_iloc_last (df : DataFrame) : outcome (list value) :=
  match rows df with
  | [] => Raises IndexError
  | r :: rs => Returns (row_series df (last rs r))
  end.

Fixpoint row_items (cols : list string) (row : list value)
  : list (string * value) :=
  match cols with
  | [] => []
  | c :: cs => (c, hd VNaN row) :: row_items cs (tl row)
  end.

(** [series.to_dict()] of a row: one entry per column, also for the cells
    that hold NaN. *)
Definition to_dict (cols : list string) (row : list value) : dict :=
  fold_left (fun d kv => dict_set d (fst kv) (snd kv)) (row_items cols row) [].

(** ** The [Result] dataclass *)

Record Result : Type := {
  metrics : option dict;
  checkpoint : option Checkpoint;
  error : option exn;
  metrics_dataframe : option DataFrame;
  best_checkpoints : option (list (Checkpoint * dict));
  _local_path : option string;
  _remote_path : option string;
  _storage_filesystem : option FileSystem
}.

(** Truth value of an optional dictionary or list: [None] and the empty
    container are false. *)
Definition truthy {A : Type} (o : option (list A)) : bool :=
  match o with
  | None | Some [] => false
  | Some (_ :: _) => true
  end.

(** A method called on [self.metrics]: [AttributeError] on [None]. *)
Definition metrics_method {A : Type} (self : Result) (f : dict -> A)
  : outcome A :=
  match metrics self with
  | None => Raises AttributeError
  | Some d => Returns (f d)
  end.

(** The [config] property. *)
Definition config (self : Result) : outcome value :=
  if negb (truthy (metrics self)) then Returns VNone
  else metrics_method self (fun d => dict_get d "config").

(** ** Storage reads leave a trace *)

Inductive event : Type :=
| EvExists (path : string)
| EvOpen (path : string)
| EvList (path : string)
| EvWarning (msg : string).

(** A computation of [from_path]: the events it performed, in order, and how
    it ended. *)
Definition M (A : Type) : Type := (list event * outcome A)%type.

Definition ret {A : Type} (a : A) : M A := ([], Returns a).
Definition raise {A : Type} (e : exn) : M A := ([], Raises e).

Definition bind {A B : Type} (m : M A) (k : A -> M B) : M B :=
  match m with
  | (t, Returns a) => let (t', o) := k a in (t ++ t', o)
  | (t, Raises e) => (t, Raises e)
  end.

Declare Scope trace_scope.
Delimit Scope trace_scope with trace.
Notation "x <- m ;; k" := (bind m (fun x => k))
  (at level 61, m at next level, right associativity) : trace_scope.
Notation "' pat <- m ;; k" := (bind m (fun x => match x with pat => k end))
  (at level 61, pat pattern, m at next level, right associativity) : trace_scope.

Definition trace_of {A : Type} (m : M A) : list event := fst m.
Definition outcome_of {A : Type} (m : M A) : outcome A := snd m.

(** The result of a collaborator: its failure becomes an [ExternalError]. *)
Definition external {A : Type} (r : string + A) : M A :=
  match r with
  | inl what => raise (ExternalError what)
  | inr a => ret a
  end.

Definition lift {A : Type} (o : outcome A) : M A := ([], o).

Fixpoint for_each {A B : Type} (f : A -> M B) (l : list A) : M (list B) :=
  match l with
  | [] => ret []
  | a :: l' => (b <- f a ;; bs <- for_each f l' ;; ret (b :: bs))%trace
  end.

(** [_exists_at_fs_path(fs, path)] *)
Definition _exists_at_fs_path (fs : FileSystem) (path : string) : M bool :=
  ([EvExists path], Returns (exists_at fs path)).

(** [fs.open_input_stream(path)] followed by [readall()] *)
Definition read_all (fs : FileSystem) (path : string) : M string :=
  bind ([EvOpen path], Returns tt) (fun _ => external (open_input_stream fs path)).

(** [fs.get_file_info(pyarrow.fs.FileSelector(path))] *)
Definition list_dir (fs : FileSystem) (path : string) : M (list FileInfo) :=
  bind ([EvList path], Returns tt) (fun _ => external (get_file_info fs path)).

(** [logger.warning(msg)] *)
Definition logger_warning (msg : string) : M unit :=
  ([EvWarning msg], Returns tt).

(** ** Paths, lines and sorting *)

Definition sep : ascii := ascii_of_nat 47.
Definition newline : ascii := ascii_of_nat 10.
Definition dquote : string := String (ascii_of_nat 34) "".

Fixpoint endswith_sep (s : string) : bool :=
  match s with
  | "" => false
  | String c "" => Ascii.eqb c sep
  | String _ s' => endswith_sep s'
  end.

(** [os.path.join(a, b)] on a POSIX system. *)
Definition path_join (a b : string) : string :=
  if String.prefix "/" b then b
  else if String.eqb a "" || endswith_sep a then a ++ b
  else a ++ "/" ++ b.

(** [text.split("\n")] *)
Fixpoint split_lines (text : string) : list string :=
  match text with
  | "" => [""]
  | String c text' =>
      if Ascii.eqb c newline then "" :: split_lines text'
      else match split_lines text' with
           | [] => [String c ""]
           | l :: ls => String c l :: ls
           end
  end.

Definition nonempty (line : string) : bool := negb (String.eqb line "").

Fixpoint insert_sorted (x : string) (l : list string) : list string :=
  match l with
  | [] => [x]
  | y :: l' => if String.leb x y then x :: l else y :: insert_sorted x l'
  end.

(** [sorted(names)] on strings: ascending in the order of [str], which
    compares code point by code point. *)
Definition sorted (names : list string) : list string :=
  fold_right insert_sorted [] names.

(** ** Collaborators outside this module *)

(** What [result.py] imports and calls but does not define: the path
    resolution of [ray.train._internal.storage], the decoders ([bytes.decode],
    [json.loads], [pandas.json_normalize] with separator [/],
    [pandas.read_csv], [ray.cloudpickle.load]), the [repr] of a string, and
    the file and column names of [ray.air.constants] and
    [ray.train.constants]. *)
Class Collaborators : Type := {
  json : Type;
  get_fs_and_path : string -> option FileSystem -> string + (FileSystem * string);
  utf8_decode : string -> string + string;
  json_loads : string -> string + json;
  json_normalize : list json -> string + DataFrame;
  read_csv : string -> string + DataFrame;
  cloudpickle_load : string -> string + exn;
  repr_str : string -> string;
  EXPR_RESULT_FILE : string;
  EXPR_PROGRESS_FILE : string;
  EXPR_ERROR_PICKLE_FILE : string;
  CHECKPOINT_DIR_NAME : string
}.

Section Restoration.
Context {C : Collaborators}.

(** [repr(d.keys())], as an f-string prints it. *)
Definition repr_dict_keys (keys : list string) : string :=
  "dict_keys([" ++ String.concat ", " (map repr_str keys) ++ "])".

(** *** [Result.get_best_checkpoint] *)

Definition no_checkpoint_msg : string :=
  "No checkpoint exists in the trial directory!".

Definition unsupported_mode_msg (mode : string) : string :=
  "Unsupported mode: " ++ mode ++ ". Please choose from ["
    ++ dquote ++ "min" ++ dquote ++ ", " ++ dquote ++ "max" ++ dquote ++ "]!".

Definition invalid_metric_msg (metric : string) (keys : string) : string :=
  "Invalid metric name " ++ metric
    ++ "! You may choose from the following metrics: " ++ keys ++ ".".

Definition get_best_checkpoint (self : Result) (metric mode : string)
  : outcome Checkpoint :=
  if negb (truthy (best_checkpoints self)) then
    Raises (RuntimeError no_checkpoint_msg)
  else if negb (existsb (String.eqb mode) ["max"; "min"]) then
    Raises (ValueError (unsupported_mode_msg mode))
  else
    let op := if String.eqb mode "max" then py_max else py_min in
    let valid_checkpoints :=
      filter (fun ckpt_info => dict_contains metric (snd ckpt_info))
             (match best_checkpoints self with Some l => l | None => [] end) in
    match valid_checkpoints with
    | [] =>
        (keys <- metrics_method self dict_keys ;;
         Raises (RuntimeError (invalid_metric_msg metric (repr_dict_keys keys))))%outcome
    | _ :: _ =>
        (best <- op (fun x => dict_getitem (snd x) metric) valid_checkpoints ;;
         Returns (fst best))%outcome
    end.

(** *** [Result._validate_trial_dir] *)

Definition trial_folder_msg (trial_dir : string) : string :=
  "Trial folder " ++ trial_dir ++ " doesn't exist!".

Definition _validate_trial_dir (trial_dir : string)
    (storage_filesystem : FileSystem) : M unit :=
  (found <- _exists_at_fs_path storage_filesystem trial_dir ;;
   if negb found then raise (RuntimeError (trial_folder_msg trial_dir))
   else ret tt)%trace.

(** *** [Result.from_path] *)

Definition missing_log_msg : string :=
  "Failed to restore the Result object: Neither " ++ EXPR_RESULT_FILE
    ++ " nor " ++ EXPR_PROGRESS_FILE ++ " exists in the trial folder!".

(** Lines 161-177: the metrics from [result.json], else from
    [progress.csv]. *)
Definition restore_metrics (fs : FileSystem) (fs_path : string) : M DataFrame :=
  let result_json_file := path_join fs_path EXPR_RESULT_FILE in
  let progress_csv_file := path_join fs_path EXPR_PROGRESS_FILE in
  (has_json <- _exists_at_fs_path fs result_json_file ;;
   if has_json : bool then
     content <- read_all fs result_json_file ;;
     text <- external (utf8_decode content) ;;
     let lines := split_lines text in
     json_list <- for_each (fun line => external (json_loads line))
                           (filter nonempty lines) ;;
     external (json_normalize json_list)
   else
     has_csv <- _exists_at_fs_path fs progress_csv_file ;;
     if has_csv : bool then
       content <- read_all fs progress_csv_file ;;
       text <- external (utf8_decode content) ;;
       external (read_csv text)
     else raise (RuntimeError missing_log_msg))%trace.

(** Line 179. *)
Definition latest_row (metrics_df : DataFrame) : M dict :=
  if negb (df_empty metrics_df) then
    (row <- lift (df_iloc_last metrics_df) ;;
     ret (to_dict (columns metrics_df) row))%trace
  else ret [].

(** Lines 182-189: the names of the checkpoint folders. *)
Definition is_checkpoint_dir (item : FileInfo) : bool :=
  FileType_eqb (type item) Directory && String.prefix "checkpoint_" (base_name item).

Definition scan_checkpoint_dirs (items : list FileInfo) : list string :=
  sorted (map base_name (filter is_checkpoint_dir items)).

Definition no_metrics_msg (checkpoint_dir : string) : string :=
  "Could not find metrics corresponding to " ++ checkpoint_dir
    ++ ". These will default to an empty dict.".

(** Lines 199-211: the body of the loop over the checkpoint folders. *)
Definition metrics_of_checkpoint (metrics_df : DataFrame)
    (checkpoint_dir : string) : M dict :=
  (series <- lift (df_getitem metrics_df CHECKPOINT_DIR_NAME) ;;
   let metrics_corresponding_to_checkpoint :=
     df_mask metrics_df (series_eq series checkpoint_dir) in
   _ <- (if df_empty metrics_corresponding_to_checkpoint
         then logger_warning (no_metrics_msg checkpoint_dir)
         else ret tt) ;;
   if df_empty metrics_corresponding_to_checkpoint then ret []
   else
     row <- lift (df_iloc_last metrics_corresponding_to_checkpoint) ;;
     ret (to_dict (columns metrics_corresponding_to_checkpoint) row))%trace.

(** Lines 191-218. *)
Definition restore_checkpoints (fs : FileSystem) (fs_path : string)
    (metrics_df : DataFrame) (checkpoint_dirs : list string)
  : M (option (list (Checkpoint * dict)) * option Checkpoint) :=
  match checkpoint_dirs with
  | _ :: _ =>
      let checkpoints :=
        map (fun checkpoint_dir =>
               {| ckpt_path := path_join fs_path checkpoint_dir;
                  ckpt_filesystem := fs |}) checkpoint_dirs in
      (metrics <- for_each (metrics_of_checkpoint metrics_df) checkpoint_dirs ;;
       let latest_checkpoint := last (map Some checkpoints) None in
       let best_checkpoints := combine checkpoints metrics in
       ret (Some best_checkpoints, latest_checkpoint))%trace
  | [] => ret (None, None)
  end.

(** Lines 220-225: the error of the trial, when it left one. *)
Definition restore_error (fs : FileSystem) (fs_path : string) : M (option exn) :=
  let error_file_path := path_join fs_path EXPR_ERROR_PICKLE_FILE in
  (has_error <- _exists_at_fs_path fs error_file_path ;;
   if has_error : bool then
     content <- read_all fs error_file_path ;;
     err <- external (cloudpickle_load content) ;;
     ret (Some err)
   else ret None)%trace.

Definition from_path (path : string) (storage_filesystem : option FileSystem)
  : M Result :=
  ('(fs, fs_path) <- external (get_fs_and_path path storage_filesystem) ;;
   _ <- _validate_trial_dir fs_path fs ;;
   metrics_df <- restore_metrics fs fs_path ;;
   latest_metrics <- latest_row metrics_df ;;
   items <- list_dir fs fs_path ;;
   let checkpoint_dirs := scan_checkpoint_dirs items in
   '(best_checkpoints, latest_checkpoint) <-
      restore_checkpoints fs fs_path metrics_df checkpoint_dirs ;;
   err <- restore_error fs fs_path ;;
   ret {| metrics := Some latest_metrics;
          checkpoint := latest_checkpoint;
          error := err;
          metrics_dataframe := Some metrics_df;
          best_checkpoints := best_checkpoints;
          _local_path := if is_local fs then Some path else None;
          _remote_path := Some fs_path;
          _storage_filesystem := Some fs |})%trace.
End Restoration.

(** ** The naming convention of checkpoint folders *)

Definition checkpoint_prefix : string := "checkpoint_".

Definition is_digit (c : ascii) : bool :=
  (48 <=? N_of_ascii c)%N && (N_of_ascii c <=? 57)%N.

Fixpoint all_digits (s : string) : bool :=
  match s with
  | "" => true
  | String c s' => is_digit c && all_digits s'
  end.

(** The suffix of a folder name after the prefix. *)
Definition index_text (name : string) : string :=
  substring (String.length checkpoint_prefix)
            (String.length name - String.length checkpoint_prefix) name.

(** A name of the convention: the prefix, then [width] decimal digits. *)
Definition matches_convention (width : nat) (name : string) : bool :=
  String.prefix checkpoint_prefix name
  && (String.length (index_text name) =? width)%nat
  && all_digits (index_text name).

Definition digit_value (c : ascii) : N := (N_of_ascii c - 48)%N.

Fixpoint decimal (acc : N) (s : string) : N :=
  match s with
  | "" => acc
  | String c s' => decimal (10 * acc + digit_value c)%N s'
  end.

(** The checkpoint index a folder name carries. *)
Definition checkpoint_index (name : string) : N := decimal 0 (index_text name).

(** ** The order in which [max] and [min] are read *)

(** [a <= b] on the values that have an order: numbers among themselves,
    strings among themselves. *)
Definition value_leb (a b : value) : bool :=
  match a, b with
  | VStr s, VStr t => String.leb s t
  | _, _ =>
      match py_num a, py_num b with
      | Some x, Some y => Qle_bool x y
      | _, _ => false
      end
  end.

Definition is_number (v : value) : bool :=
  match py_num v with Some _ => true | None => false end.

Definition is_string (v : value) : bool :=
  match v with VStr _ => true | _ => false end.

(** [b] is at least as good as [a] for the mode. *)
Definition no_better (mode : string) (a b : value) : bool :=
  if String.eqb mode "max" then value_leb a b else value_leb b a.

(** The records [get_best_checkpoint] chooses among. *)
Definition candidates (self : Result) (metric : string) : list (Checkpoint * dict) :=
  filter (fun ckpt_info => dict_contains metric (snd ckpt_info))
         (match best_checkpoints self with Some l => l | None => [] end).

(** The values of the metric mix no numbers with strings and hold no NaN. *)
Definition comparable (metric : string) (records : list (Checkpoint * dict)) : Prop :=
  Forall (fun r => is_number (dict_get (snd r) metric) = true) records
  \/ Forall (fun r => is_string (dict_get (snd r) metric) = true) records.

(** What a call returns: the checkpoint of the first candidate whose value no
    other candidate beats. *)
Definition selects_first_extremal {C : Collaborators}
    (self : Result) (metric mode : string) : Prop :=
  exists before best after,
    candidates self metric = before ++ best :: after
    /\ get_best_checkpoint self metric mode = Returns (fst best)
    /\ Forall (fun r => no_better mode (dict_get (snd r) metric)
                                       (dict_get (snd best) metric) = true)
              (candidates self metric)
    /\ Forall (fun r => no_better mode (dict_get (snd best) metric)
                                       (dict_get (snd r) metric) = false)
              before.

(** ** Reading the restored result *)

(** The latest metrics of a table: its last row, or the empty dictionary. *)
Definition latest_metrics_of (df : DataFrame) : dict :=
  if df_empty df then []
  else to_dict (columns df) (row_series df (last (rows df) [])).

(** The rows whose cell in column [i] is the name of the folder. *)
Definition rows_of_checkpoint (i : nat) (df : DataFrame) (checkpoint_dir : string)
  : list (list value) :=
  filter (fun row => py_eq_str (cell i row) checkpoint_dir) (rows df).

(** [row] is the last row of the table that names the folder in column [i]. *)
Definition last_matching (i : nat) (df : DataFrame) (checkpoint_dir : string)
    (row : list value) : Prop :=
  exists earlier later,
    rows df = earlier ++ row :: later
    /\ py_eq_str (cell i row) checkpoint_dir = true
    /\ Forall (fun r => py_eq_str (cell i r) checkpoint_dir = false) later.

(** The dictionary a folder is paired with, when the table has the
    correlation column at index [i]: the last row that names the folder, or
    the empty dictionary when no row does. *)
Definition snapshot_of (i : nat) (df : DataFrame) (checkpoint_dir : string) : dict :=
  match rows_of_checkpoint i df checkpoint_dir with
  | [] => []
  | r :: rs => to_dict (columns df) (row_series df (last rs r))
  end.

(** The order of [str]. *)
Definition lex_le (a b : string) : Prop := String.leb a b = true.

Definition index_le (a b : string) : Prop :=
  (checkpoint_index a <= checkpoint_index b)%N.

Section Conditions.
Context {C : Collaborators}.

Definition result_json_file (fs_path : string) : string :=
  path_join fs_path EXPR_RESULT_FILE.
Definition progress_csv_file (fs_path : string) : string :=
  path_join fs_path EXPR_PROGRESS_FILE.
Definition error_file_path (fs_path : string) : string :=
  path_join fs_path EXPR_ERROR_PICKLE_FILE.

(** The log a call reads, when there is one. *)
Definition consulted_log (fs : FileSystem) (fs_path : string) : string :=
  if exists_at fs (result_json_file fs_path) then result_json_file fs_path
  else progress_csv_file fs_path.

(** The conditions under which a restoration must not produce a result:
    the folder is missing, neither log exists, or a read fails (of the log,
    of the folder listing, or of the error file). *)
Definition fatal (fs : FileSystem) (fs_path : string) : Prop :=
  exists_at fs fs_path = false
  \/ (exists_at fs (result_json_file fs_path) = false
      /\ exists_at fs (progress_csv_file fs_path) = false)
  \/ (exists what, open_input_stream fs (consulted_log fs fs_path) = inl what)
  \/ (exists what, get_file_info fs fs_path = inl what)
  \/ (exists_at fs (error_file_path fs_path) = true
      /\ exists what, open_input_stream fs (error_file_path fs_path) = inl what).

(** The warnings of the correlation step: one for each folder that no row
    names. *)
Definition warnings_for (i : nat) (df : DataFrame) (checkpoint_dirs : list string)
  : list event :=
  flat_map (fun d => match rows_of_checkpoint i df d with
                     | [] => [EvWarning (no_metrics_msg d)]
                     | _ :: _ => []
                     end) checkpoint_dirs.

Definition checkpoint_at (fs : FileSystem) (fs_path checkpoint_dir : string)
  : Checkpoint :=
  {| ckpt_path := path_join fs_path checkpoint_dir; ckpt_filesystem := fs |}.

(** The record [from_path] builds once every step has succeeded. *)
Definition assembled (path : string) (fs : FileSystem) (fs_path : string)
    (metrics_df : DataFrame)
    (best : option (list (Checkpoint * dict))) (latest : option Checkpoint)
    (err : option exn) : Result :=
  {| metrics := Some (latest_metrics_of metrics_df);
     checkpoint := latest;
     error := err;
     metrics_dataframe := Some metrics_df;
     best_checkpoints := best;
     _local_path := if is_local fs then Some path else None;
     _remote_path := Some fs_path;
     _storage_filesystem := Some fs |}.

(** Every step of a restoration completed. *)
Definition steps_succeed (path : string) (storage_filesystem : option FileSystem)
    (fs : FileSystem) (fs_path : string) (metrics_df : DataFrame)
    (items : list FileInfo)
    (best : option (list (Checkpoint * dict))) (latest : option Checkpoint)
    (err : option exn) : Prop :=
  get_fs_and_path path storage_filesystem = inr (fs, fs_path)
  /\ exists_at fs fs_path = true
  /\ outcome_of (restore_metrics fs fs_path) = Returns metrics_df
  /\ get_file_info fs fs_path = inr items
  /\ outcome_of (restore_checkpoints fs fs_path metrics_df
                                     (scan_checkpoint_dirs items))
     = Returns (best, latest)
  /\ outcome_of (restore_error fs fs_path) = Returns err.
End Conditions.

(** ** The [path] and [filesystem] properties, [_repr] and [__repr__] *)

(** The [path] property: [self._remote_path or self._local_path], where
    [None] and the empty string count as false. *)
Definition path (self : Result) : option string :=
  match _remote_path self with
  | Some (String c s) => Some (String c s)
  | _ => _local_path self
  end.

(** What [_repr] needs from outside this module: the constructor
    [pyarrow.fs.LocalFileSystem()], the [type_name] of a filesystem, the name
    of a class ([type(e).__name__]), the [repr] of a value, of a checkpoint,
    of an exception and of a filesystem, and the key lists [AUTO_RESULT_KEYS]
    of [ray.tune.result] and [BLACKLISTED_KEYS] of
    [ray.tune.experimental.output]. *)
Class Presentation : Type := {
  LocalFileSystem : FileSystem;
  type_name : FileSystem -> string;
  class_name : exn -> string;
  repr_value : value -> string;
  repr_checkpoint : Checkpoint -> string;
  repr_exn : exn -> string;
  repr_filesystem : FileSystem -> string;
  AUTO_RESULT_KEYS : list string;
  BLACKLISTED_KEYS : list string
}.

(** A value of the dictionary [shown_attributes]. *)
Inductive attribute : Type :=
| AError (e : option exn)
| AMetrics (m : option dict)
| APath (p : option string)
| AFilesystem (fs : FileSystem)
| ACheckpoint (c : option Checkpoint)
| AStr (s : string).

Definition attributes : Type := list (string * attribute).

(** [d[key] = v] *)
Fixpoint attributes_set (d : attributes) (key : string) (v : attribute) : attributes :=
  match d with
  | [] => [(key, v)]
  | (k, w) :: d' =>
      if String.eqb k key then (k, v) :: d' else (k, w) :: attributes_set d' key v
  end.

(** [d.pop(key)], for the dictionary that is left. *)
Fixpoint attributes_pop (d : attributes) (key : string) : outcome attributes :=
  match d with
  | [] => Raises (KeyError key)
  | (k, w) :: d' =>
      if String.eqb k key then Returns d'
      else (rest <- attributes_pop d' key ;; Returns ((k, w) :: rest))%outcome
  end.

(** [d[key]] *)
Fixpoint attributes_getitem (d : attributes) (key : string) : outcome attribute :=
  match d with
  | [] => Raises (KeyError key)
  | (k, w) :: d' => if String.eqb k key then Returns w else attributes_getitem d' key
  end.

Fixpoint omap {A B : Type} (f : A -> outcome B) (l : list A) : outcome (list B) :=
  match l with
  | [] => Returns []
  | a :: l' => (b <- f a ;; bs <- omap f l' ;; Returns (b :: bs))%outcome
  end.

(** [" " * n] *)
Definition spaces (n : Z) : string :=
  String.concat "" (repeat " " (Z.to_nat n)).

Definition _items_to_repr : list string :=
  ["error"; "metrics"; "path"; "filesystem"; "checkpoint"].

(** The metrics [_repr] shows: the entries whose key is in neither list. *)
Definition visible_metrics {P : Presentation} (m : dict) : dict :=
  filter (fun kv => negb (existsb (String.eqb (fst kv))
                                  (AUTO_RESULT_KEYS ++ BLACKLISTED_KEYS))) m.

(** The entries of [kept] are entries of [m], in the order of [m]. *)
Inductive Subsequence {A : Type} : list A -> list A -> Prop :=
| Subsequence_nil : Subsequence [] []
| Subsequence_keep (x : A) (kept m : list A) :
    Subsequence kept m -> Subsequence (x :: kept) (x :: m)
| Subsequence_drop (x : A) (kept m : list A) :
    Subsequence kept m -> Subsequence kept (x :: m).

Section Representation.
Context {C : Collaborators} {P : Presentation}.

(** The [filesystem] property: [self._storage_filesystem or
    pyarrow.fs.LocalFileSystem()]. *)
Definition filesystem (self : Result) : FileSystem :=
  match _storage_filesystem self with
  | Some fs => fs
  | None => LocalFileSystem
  end.

(** [getattr(self, k)] for the names [_repr] asks for. *)
Definition getattr (self : Result) (k : string) : outcome attribute :=
  if String.eqb k "error" then Returns (AError (error self))
  else if String.eqb k "metrics" then Returns (AMetrics (metrics self))
  else if String.eqb k "path" then Returns (APath (path self))
  else if String.eqb k "filesystem" then Returns (AFilesystem (filesystem self))
  else if String.eqb k "checkpoint" then Returns (ACheckpoint (checkpoint self))
  else Raises AttributeError.

(** [repr(d)] of a dictionary. *)
Definition repr_dict (d : dict) : string :=
  "{" ++ String.concat ", " (map (fun kv => (repr_str (fst kv) ++ ": "
                                             ++ repr_value (snd kv))%string) d)
      ++ "}".

Definition repr_option {A : Type} (f : A -> string) (o : option A) : string :=
  match o with
  | None => "None"
  | Some a => f a
  end.

(** [{value!r}] *)
Definition repr_attribute (a : attribute) : string :=
  match a with
  | AError e => repr_option repr_exn e
  | AMetrics m => repr_option repr_dict m
  | APath p => repr_option repr_str p
  | AFilesystem fs => repr_filesystem fs
  | ACheckpoint c => repr_option repr_checkpoint c
  | AStr s => repr_str s
  end.

(** [a.type_name] *)
Definition attribute_type_name (a : attribute) : outcome string :=
  match a with
  | AFilesystem fs => Returns (type_name fs)
  | _ => Raises AttributeError
  end.

(** Lines 96-109 of [_repr]: the attributes to show. *)
Definition shown_attributes (self : Result) : outcome attributes :=
  (values <- omap (fun k => v <- getattr self k ;; Returns (k, v)) _items_to_repr ;;
   let shown_attributes :=
     fold_left (fun d kv => attributes_set d (fst kv) (snd kv)) values [] in
   shown_attributes <-
     match error self with
     | Some e => Returns (attributes_set shown_attributes "error" (AStr (class_name e)))
     | None => attributes_pop shown_attributes "error"
     end ;;
   fs <- attributes_getitem shown_attributes "filesystem" ;;
   name <- attribute_type_name fs ;;
   let shown_attributes := attributes_set shown_attributes "filesystem" (AStr name) in
   Returns (if truthy (metrics self)
            then attributes_set shown_attributes "metrics"
                   (AMetrics (option_map visible_metrics (metrics self)))
            else shown_attributes))%outcome.

(** [_repr(self, indent)] *)
Definition _repr (self : Result) (indent : Z) : outcome string :=
  (shown_attributes <- shown_attributes self ;;
   let cls_indent := spaces indent in
   let kws_indent := spaces (indent + 2) in
   let kws :=
     map (fun kv => (kws_indent ++ fst kv ++ "=" ++ repr_attribute (snd kv))%string)
         shown_attributes in
   let kws_repr := String.concat ("," ++ String newline "")%string kws in
   Returns (cls_indent ++ "Result" ++ "(" ++ String newline ""
              ++ kws_repr ++ String newline "" ++ cls_indent ++ ")")%string)%outcome.

Definition __repr__ (self : Result) : outcome string := _repr self 0.
End Representation.

(** [op = max if mode == "max" else min] *)
Definition selector (mode : string)
  : (Checkpoint * dict -> outcome value) -> list (Checkpoint * dict)
    -> outcome (Checkpoint * dict) :=
  if String.eqb mode "max" then py_max else py_min.

(** ** A result with other metrics *)

Definition with_metrics (self : Result) (m : option dict) : Result :=
  {| metrics := m; checkpoint := checkpoint self; error := error self;
     metrics_dataframe := metrics_dataframe self;
     best_checkpoints := best_checkpoints self;
     _local_path := _local_path self; _remote_path := _remote_path self;
     _storage_filesystem := _storage_filesystem self |}.

(** ** What a restoration may touch *)

Definition is_warning (ev : event) : bool :=
  match ev with EvWarning _ => true | _ => false end.

Definition is_open (ev : event) : bool :=
  match ev with EvOpen _ => true | _ => false end.

Definition is_list (ev : event) : bool :=
  match ev with EvList _ => true | _ => false end.

(** The events of a restoration of the folder [fs_path]: checks and reads of
    the folder and of its three files, the listing of the folder, and
    warnings. *)
Definition within_trial {C : Collaborators} (fs_path : string) (ev : event) : Prop :=
  match ev with
  | EvExists p =>
      p = fs_path \/ p = result_json_file fs_path
      \/ p = progress_csv_file fs_path \/ p = error_file_path fs_path
  | EvOpen p =>
      p = result_json_file fs_path
      \/ p = progress_csv_file fs_path \/ p = error_file_path fs_path
  | EvList p => p = fs_path
  | EvWarning _ => True
  end.

(** The text of a file whose lines all end in a newline. *)
Definition file_of_lines (lines : list string) : string :=
  String.concat "" (map (fun line => (line ++ String newline "")%string) lines).

Fixpoint has_newline (line : string) : bool :=
  match line with
  | "" => false
  | String c line' => Ascii.eqb c newline || has_newline line'
  end.

(** ** A concrete trial, used to exercise the statements *)

Module Demo.

(** Stand-ins for the decoders: a line or a file decodes to what the tables
    below say, and to a failure otherwise. *)
Definition lookup {A : Type} (table : list (string * A)) (text : string)
  : string + A :=
  match find (fun entry => String.eqb (fst entry) text) table with
  | Some entry => inr (snd entry)
  | None => inl ("cannot decode " ++ text)%string
  end.

Definition report (iteration : Z) (a b : Z) (dir : value) : dict :=
  [("training_iteration", VInt iteration); ("metric_a", VInt a);
   ("metric_b", VInt b); ("checkpoint_dir_name", dir)].

Definition objects : list (string * dict) :=
  [("{iteration 0}", report 0 0 0 VNone);
   ("{iteration 1}", report 1 1 (-1) VNone);
   ("{iteration 2}", report 2 2 (-2) (VStr "checkpoint_000002"));
   ("{iteration 3}", report 3 3 (-3) (VStr "checkpoint_000003"));
   ("{iteration 4}", report 4 4 (-4) (VStr "checkpoint_000004"));
   ("{iteration 3 again}", report 5 30 (-30) (VStr "checkpoint_000003"));
   ("{step 1}", [("step", VInt 1); ("loss", VFloat (1 # 2))]);
   ("{step 2}", [("step", VInt 2); ("loss", VFloat (1 # 4))]);
   ("{loss 7}", [("loss", VInt 7)])].

Definition add_keys (cols : list string) (o : dict) : list string :=
  fold_left (fun cs k => if existsb (String.eqb k) cs then cs else cs ++ [k])
            (dict_keys o) cols.

Definition is_int (v : value) : bool :=
  match v with VInt _ => true | _ => false end.

Definition is_float (v : value) : bool :=
  match v with VInt _ | VFloat _ | VNaN | VNone => true | _ => false end.

Definition is_given (v : value) : bool :=
  match v with VNone => false | _ => true end.

Definition is_bool (v : value) : bool :=
  match v with VBool _ => true | _ => false end.

(** The type pandas infers for a column from its cells: integers, numbers
    with missing ones among them, booleans, or objects. *)
Definition infer (cells : list value) : dtype :=
  if forallb is_int cells then int64
  else if forallb is_float cells && existsb is_given cells then float64
  else if forallb is_bool cells then bool_
  else object_.

(** A cell as a column of type [t] stores it: in a column of floats an
    integer is a float and [None] is a missing number. *)
Definition stored (t : dtype) (v : value) : value :=
  match t, v with
  | float64, VNone => VNaN
  | _, _ => astype t v
  end.

(** A table from its cells, with the types of the columns inferred. *)
Definition table (cols : list string) (cells : list (list value)) : DataFrame :=
  let types := map (fun i => infer (map (cell i) cells)) (seq 0 (List.length cols)) in
  {| columns := cols;
     dtypes := types;
     rows := map (fun row => map (fun i => stored (nth i types object_) (cell i row))
                                 (seq 0 (List.length cols)))
                 cells |}.

(** Flat records become one row each; a key a record lacks is NaN. *)
Definition normalize (objs : list dict) : DataFrame :=
  let cols := fold_left add_keys objs [] in
  table cols (map (fun o => map (fun c => if dict_contains c o
                                          then dict_get o c else VNaN) cols)
                  objs).

Definition lines (l : list string) : string :=
  (String.concat (String newline "") l ++ String newline "")%string.

(** *** The two log formats, as the spec describes them *)

Fixpoint split_on (separator : ascii) (text : string) : list string :=
  match text with
  | "" => [""]
  | String c text' =>
      if Ascii.eqb c separator then "" :: split_on separator text'
      else match split_on separator text' with
           | [] => [String c ""]
           | l :: ls => String c l :: ls
           end
  end.

(** The number a text spells, when it spells one: digits after an optional
    minus sign, with an optional fraction. *)
Definition number_of (s : string) : option value :=
  let negative := String.prefix "-" s in
  let body := if negative then substring 1 (String.length s - 1) s else s in
  let sign (z : Z) := if negative then (- z)%Z else z in
  match split_on "." body with
  | [whole] =>
      if nonempty whole && all_digits whole
      then Some (VInt (sign (Z.of_N (decimal 0 whole))))
      else None
  | [whole; fraction] =>
      if nonempty whole && all_digits whole
         && nonempty fraction && all_digits fraction
      then Some (VFloat
                   (Qred (Qmake (sign (Z.of_N (decimal 0 (whole ++ fraction))))
                                (Pos.pow 10 (Pos.of_nat (String.length fraction))))))
      else None
  | _ => None
  end.

Definition parse_cell (s : string) : value :=
  if String.eqb s "" then VNaN
  else match number_of s with
       | Some v => v
       | None => VStr s
       end.

(** Modelled from the spec: the fallback metrics log, a tabular file with a
    header row of column names and one data row per iteration, whose values
    are numeric if parseable, else left as text (sections 4.1 and 6).  An
    empty cell is a missing value.  The source reads this format with
    [pandas.read_csv]. *)
Definition read_table (text : string) : string + DataFrame :=
  match filter nonempty (split_lines text) with
  | [] => inl "no columns to parse"
  | header :: data =>
      inr (table (split_on "," header)
                 (map (fun line => map parse_cell (split_on "," line)) data))
  end.

Definition quote : ascii := ascii_of_nat 34.

Fixpoint skip_spaces (s : string) : string :=
  match s with
  | "" => ""
  | String c s' => if Ascii.eqb c " " then skip_spaces s' else s
  end.

(** The text up to the closing quote, and what follows the quote. *)
Fixpoint read_text (s : string) : option (string * string) :=
  match s with
  | "" => None
  | String c s' =>
      if Ascii.eqb c quote then Some ("", s')
      else match read_text s' with
           | Some (t, rest) => Some (String c t, rest)
           | None => None
           end
  end.

(** The text up to a comma, a closing brace or a space. *)
Fixpoint read_token (s : string) : string * string :=
  match s with
  | "" => ("", "")
  | String c s' =>
      if Ascii.eqb c "," || Ascii.eqb c "}" || Ascii.eqb c " " then ("", s)
      else let (t, rest) := read_token s' in (String c t, rest)
  end.

(** A value of a record: a text between quotes, a number, [true], [false],
    [null], or a record between braces. *)
Fixpoint parse_value (fuel : nat) (s : string) : option (value * string) :=
  match fuel with
  | O => None
  | S fuel' =>
      match skip_spaces s with
      | "" => None
      | String c s' =>
          if Ascii.eqb c quote then
            match read_text s' with
            | Some (t, rest) => Some (VStr t, rest)
            | None => None
            end
          else if Ascii.eqb c "{" then
            match skip_spaces s' with
            | "" => None
            | String c' s'' =>
                if Ascii.eqb c' "}" then Some (VDict [], s'')
                else match parse_members fuel' (String c' s'') with
                     | Some (items, rest) => Some (VDict items, rest)
                     | None => None
                     end
            end
          else
            let (token, rest) := read_token (String c s') in
            if String.eqb token "true" then Some (VBool true, rest)
            else if String.eqb token "false" then Some (VBool false, rest)
            else if String.eqb token "null" then Some (VNone, rest)
            else match number_of token with
                 | Some v => Some (v, rest)
                 | None => None
                 end
      end
  end
with parse_members (fuel : nat) (s : string)
  : option (list (string * value) * string) :=
  match fuel with
  | O => None
  | S fuel' =>
      match s with
      | "" => None
      | String c s' =>
          if negb (Ascii.eqb c quote) then None
          else
            match read_text s' with
            | None => None
            | Some (key, rest) =>
                match skip_spaces rest with
                | "" => None
                | String colon rest' =>
                    if negb (Ascii.eqb colon ":") then None
                    else
                      match parse_value fuel' rest' with
                      | None => None
                      | Some (v, rest'') =>
                          match skip_spaces rest'' with
                          | "" => None
                          | String d rest3 =>
                              if Ascii.eqb d "}" then Some ([(key, v)], rest3)
                              else if Ascii.eqb d "," then
                                match parse_members fuel' (skip_spaces rest3) with
                                | Some (items, rest4) =>
                                    Some ((key, v) :: items, rest4)
                                | None => None
                                end
                              else None
                          end
                      end
                end
            end
      end
  end.

(** Modelled from the spec: a line of the primary metrics log, an
    independently parseable structured record (sections 4.1 and 6).  The
    records are written as JSON objects; the source reads a line with
    [json.loads]. *)
Definition read_record (line : string) : string + value :=
  match parse_value (2 * String.length line + 2) line with
  | Some (VDict items, rest) =>
      if String.eqb (skip_spaces rest) "" then inr (VDict items)
      else inl ("extra data in " ++ line)%string
  | _ => inl ("cannot decode " ++ line)%string
  end.

(** The fields of a nested record, under the path of the record. *)
Fixpoint flatten (prefix : string) (record : value) : dict :=
  match record with
  | VDict items =>
      (fix over (l : list (string * value)) : dict :=
         match l with
         | [] => []
         | (k, w) :: l' =>
             (match w with
              | VDict _ => flatten (prefix ++ k ++ "/") w
              | _ => [((prefix ++ k)%string, w)]
              end) ++ over l'
         end) items
  | _ => []
  end.

Definition is_record (v : value) : bool :=
  match v with VDict _ => true | _ => false end.

(** Modelled from the spec: the nested fields of a record, flattened with
    a / path separator into the keys of one snapshot (sections 4.1 and 6).
    The source does this with [pandas.json_normalize], which puts the plain
    fields of a record before the fields of its nested records. *)
Definition flatten_record (record : value) : dict :=
  match record with
  | VDict items =>
      filter (fun kv => negb (is_record (snd kv))) items
      ++ flat_map (fun kv => if is_record (snd kv)
                             then flatten (fst kv ++ "/") (snd kv)
                             else []) items
  | _ => []
  end.

Definition normalize_records (records : list value) : string + DataFrame :=
  inr (normalize (map flatten_record records)).

Definition result_json : string :=
  lines ["{iteration 0}"; "{iteration 1}"; "{iteration 2}"; "{iteration 3}";
         "{iteration 4}"].

(** The table [result_json] decodes to. *)
Definition history : DataFrame :=
  normalize [report 0 0 0 VNone; report 1 1 (-1) VNone;
             report 2 2 (-2) (VStr "checkpoint_000002");
             report 3 3 (-3) (VStr "checkpoint_000003");
             report 4 4 (-4) (VStr "checkpoint_000004")].

Definition progress_csv : string := "iteration table".

(** The table [progress_csv] decodes to: an empty cell is NaN. *)
Definition progress : DataFrame :=
  normalize [report 0 0 0 VNaN; report 1 1 (-1) VNaN;
             report 2 2 (-2) (VStr "checkpoint_000002");
             report 3 3 (-3) (VStr "checkpoint_000003");
             report 4 4 (-4) (VStr "checkpoint_000004")].

Definition tables : list (string * DataFrame) := [(progress_csv, progress)].

(** The table of a log whose single report is [{loss 7}]. *)
Definition losses : DataFrame := normalize [[("loss", VInt 7)]].

Definition pickles : list (string * exn) :=
  [("pickled error", RuntimeError "")].

Definition collaborators : Collaborators :=
  {| json := dict;
     get_fs_and_path := fun path storage_filesystem =>
       match storage_filesystem with
       | Some fs => inr (fs, path)
       | None => inl ("cannot resolve " ++ path)%string
       end;
     utf8_decode := inr;
     json_loads := lookup objects;
     json_normalize := fun objs => inr (normalize objs);
     read_csv := lookup tables;
     cloudpickle_load := lookup pickles;
     repr_str := fun s => ("'" ++ s ++ "'")%string;
     EXPR_RESULT_FILE := "result.json";
     EXPR_PROGRESS_FILE := "progress.csv";
     EXPR_ERROR_PICKLE_FILE := "error.pkl";
     CHECKPOINT_DIR_NAME := "checkpoint_dir_name" |}.

(** The decoders of the two formats, in the place of the libraries. *)
Definition formats : Collaborators :=
  {| json := value;
     get_fs_and_path := get_fs_and_path (Collaborators := collaborators);
     utf8_decode := inr;
     json_loads := read_record;
     json_normalize := normalize_records;
     read_csv := read_table;
     cloudpickle_load := lookup pickles;
     repr_str := fun s => ("'" ++ s ++ "'")%string;
     EXPR_RESULT_FILE := "result.json";
     EXPR_PROGRESS_FILE := "progress.csv";
     EXPR_ERROR_PICKLE_FILE := "error.pkl";
     CHECKPOINT_DIR_NAME := "checkpoint_dir_name" |}.

(** A filesystem with the given files and one listed folder. *)
Definition storage (files : list (string * string)) (root : string)
    (items : list FileInfo) : FileSystem :=
  {| exists_at := fun path =>
       String.eqb path root || existsb (fun f => String.eqb (fst f) path) files;
     open_input_stream := lookup files;
     get_file_info := fun path =>
       if String.eqb path root then inr items else inl ("cannot list " ++ path)%string;
     is_local := true |}.

Definition dir (name : string) : FileInfo :=
  {| base_name := name; type := Directory |}.
Definition file (name : string) : FileInfo :=
  {| base_name := name; type := File |}.

Definition checkpoint_items : list FileInfo :=
  [dir "checkpoint_000004"; file "result.json"; dir "checkpoint_000002";
   file "progress.csv"; file "error.pkl"; dir "checkpoint_000003"].

(** The trial of the test: five reports, the last three with a checkpoint,
    and the error of the run. *)
Definition trial : FileSystem :=
  storage [("/trial/result.json", result_json);
           ("/trial/progress.csv", progress_csv);
           ("/trial/error.pkl", "pickled error")]
          "/trial" checkpoint_items.

(** The same trial after [result.json] was deleted. *)
Definition trial_csv_only : FileSystem :=
  storage [("/trial/progress.csv", progress_csv);
           ("/trial/error.pkl", "pickled error")]
          "/trial" checkpoint_items.

(** A trial that saved no checkpoint. *)
Definition trial_without_checkpoints : FileSystem :=
  storage [("/trial/result.json", result_json)] "/trial" [file "result.json"].

(** A trial whose reports never name a checkpoint folder. *)
Definition trial_without_correlation : FileSystem :=
  storage [("/trial/result.json", lines ["{loss 7}"])] "/trial"
          [file "result.json"; dir "checkpoint_000000"].

(** A trial that went on past its millionth checkpoint: the index no longer
    fits the six digits it is padded to. *)
Definition trial_past_a_million : FileSystem :=
  storage [("/trial/result.json", result_json)] "/trial"
          [file "result.json"; dir "checkpoint_999999"; dir "checkpoint_1000000"].

(** A trial whose log is empty. *)
Definition trial_with_empty_log : FileSystem :=
  storage [("/trial/result.json", "")] "/trial"
          [file "result.json"; dir "checkpoint_000000"].

(** A folder with neither log. *)
Definition trial_without_log : FileSystem :=
  storage [] "/trial" [dir "checkpoint_000000"].

Definition ckpt (name : string) : Checkpoint :=
  {| ckpt_path := name; ckpt_filesystem := trial |}.

Definition result_of (records : list (Checkpoint * dict)) : Result :=
  {| metrics := Some [("metric_a", VInt 4)];
     checkpoint := None; error := None; metrics_dataframe := None;
     best_checkpoints := Some records;
     _local_path := None; _remote_path := None; _storage_filesystem := None |}.

(** Two checkpoints tie for the best value. *)
Definition tied : Result :=
  result_of [(ckpt "c0", [("m", VInt 1)]); (ckpt "c1", [("m", VInt 3)]);
             (ckpt "c2", [("other", VInt 9)]); (ckpt "c3", [("m", VInt 3)])].

(** A text and a number under the same metric. *)
Definition mixed : Result :=
  result_of [(ckpt "c0", [("m", VStr "a")]); (ckpt "c1", [("m", VInt 1)])].

(** A checkpoint whose report had no value for the metric. *)
Definition with_nan : Result :=
  result_of [(ckpt "c0", [("m", VNaN)]); (ckpt "c1", [("m", VInt 1)]);
             (ckpt "c2", [("m", VInt 2)])].

Definition restore := @from_path collaborators.
Definition best := @get_best_checkpoint collaborators.

(** The records and the result that restoring the trial from storage [fs]
    gives, when its log decodes to [df]. *)
Definition records_of (fs : FileSystem) (df : DataFrame)
  : list (Checkpoint * dict) :=
  map (fun x => (checkpoint_at fs "/trial" x, snapshot_of 3 df x))
      ["checkpoint_000002"; "checkpoint_000003"; "checkpoint_000004"].

Definition restored (fs : FileSystem) (df : DataFrame) : Result :=
  assembled "/trial" fs "/trial" df (Some (records_of fs df))
            (Some (checkpoint_at fs "/trial" "checkpoint_000004"))
            (Some (RuntimeError "")).

(** A trial that reported its second checkpoint twice, the second time
    with other metrics, before it went on. *)
Definition result_json_twice : string :=
  lines ["{iteration 0}"; "{iteration 1}"; "{iteration 2}"; "{iteration 3}";
         "{iteration 3 again}"; "{iteration 4}"].

Definition history_twice : DataFrame :=
  normalize [report 0 0 0 VNone; report 1 1 (-1) VNone;
             report 2 2 (-2) (VStr "checkpoint_000002");
             report 3 3 (-3) (VStr "checkpoint_000003");
             report 5 30 (-30) (VStr "checkpoint_000003");
             report 4 4 (-4) (VStr "checkpoint_000004")].

Definition trial_reported_twice : FileSystem :=
  storage [("/trial/result.json", result_json_twice)] "/trial" checkpoint_items.

(** A trial that reported numbers only, a float among them: the row of
    its last report is a series of floats. *)
Definition numbers : DataFrame :=
  normalize [[("step", VInt 1); ("loss", VFloat (1 # 2))];
             [("step", VInt 2); ("loss", VFloat (1 # 4))]].

Definition trial_of_numbers : FileSystem :=
  storage [("/trial/result.json", lines ["{step 1}"; "{step 2}"])] "/trial"
          [file "result.json"].

Definition restored_numbers : Result :=
  assembled "/trial" trial_of_numbers "/trial" numbers None None None.









(** One report without a checkpoint, in the two formats. *)
Definition plain_report_json : string :=
  ("{" ++ String quote "metric_a" ++ String quote ": 1, "
       ++ String quote "checkpoint_dir_name" ++ String quote ": null}")%string.

Definition plain_report_csv : list string := ["metric_a,checkpoint_dir_name"; "1,"].

Definition plain_trial_in_json : FileSystem :=
  storage [("/trial/result.json", lines [plain_report_json])] "/trial"
          [file "result.json"].

Definition plain_trial_in_csv : FileSystem :=
  storage [("/trial/progress.csv", lines plain_report_csv)] "/trial"
          [file "progress.csv"].

(** A trial whose second report was cut off while it was written. *)
Definition trial_with_bad_line : FileSystem :=
  storage [("/trial/result.json", lines ["{iteration 0}"; "{iterat"]);
           ("/trial/progress.csv", progress_csv)]
          "/trial" checkpoint_items.

(** A trial with a checkpoint folder that no report names. *)
Definition trial_with_unreported_checkpoint : FileSystem :=
  storage [("/trial/result.json", result_json)] "/trial"
          [dir "checkpoint_000004"; dir "checkpoint_000005"; file "result.json"].

(** What restoring that trial gives. *)
Definition restored_with_unreported_checkpoint : Result :=
  assembled "/trial" trial_with_unreported_checkpoint "/trial" history
            (Some (map (fun x => (checkpoint_at trial_with_unreported_checkpoint
                                                "/trial" x,
                                  snapshot_of 3 history x))
                       ["checkpoint_000004"; "checkpoint_000005"]))
            (Some (checkpoint_at trial_with_unreported_checkpoint "/trial"
                                 "checkpoint_000005"))
            None.

(** Stand-ins for what [_repr] prints. *)
Definition presentation : Presentation :=
  {| LocalFileSystem := storage [] "/" [];
     type_name := fun fs => if is_local fs then "local" else "remote";
     class_name := fun e =>
       match e with
       | RuntimeError _ => "RuntimeError"
       | ValueError _ => "ValueError"
       | KeyError _ => "KeyError"
       | TypeError => "TypeError"
       | AttributeError => "AttributeError"
       | IndexError => "IndexError"
       | ExternalError _ => "Exception"
       end;
     repr_value := fun v =>
       match v with
       | VStr s => ("'" ++ s ++ "'")%string
       | VNone => "None"
       | VNaN => "nan"
       | _ => "<value>"
       end;
     repr_checkpoint := fun c => ("Checkpoint(path=" ++ ckpt_path c ++ ")")%string;
     repr_exn := fun _ => "<exception>";
     repr_filesystem := fun _ => "<filesystem>";
     AUTO_RESULT_KEYS := ["training_iteration"; "done"];
     BLACKLISTED_KEYS := ["config"; "checkpoint_dir_name"] |}.

End Demo.

(** * Properties *)

(** ** Outcomes and traces *)

Lemma bind_returns {A B : Type} (t : list event) (a : A) (k : A -> M B) :
  bind (t, Returns a) k = (t ++ fst (k a), snd (k a)).
Proof. unfold bind. destruct (k a); reflexivity. Qed.

Lemma bind_raises {A B : Type} (t : list event) (e : exn) (k : A -> M B) :
  bind (t, Raises e) k = (t, Raises e).
Proof. reflexivity. Qed.

Lemma outcome_of_bind {A B : Type} (m : M A) (k : A -> M B) :
  outcome_of (bind m k) =
  match outcome_of m with
  | Returns a => outcome_of (k a)
  | Raises e => Raises e
  end.
Proof.
  destruct m as [t [a | e]]; simpl; [| reflexivity].
  unfold outcome_of. destruct (k a); reflexivity.
Qed.

Lemma trace_of_bind {A B : Type} (m : M A) (k : A -> M B) :
  trace_of (bind m k) =
  match outcome_of m with
  | Returns a => trace_of m ++ trace_of (k a)
  | Raises e => trace_of m
  end.
Proof.
  destruct m as [t [a | e]]; simpl; [| reflexivity].
  unfold trace_of. destruct (k a); reflexivity.
Qed.

(** ** Dictionaries *)

Lemma dict_getitem_contains (d : dict) (key : string) :
  dict_contains key d = true -> dict_getitem d key = Returns (dict_get d key).
Proof.
  induction d as [| [k v] d IH]; simpl; [discriminate |].
  destruct (String.eqb k key); simpl; auto.
Qed.

Lemma dict_get_absent (d : dict) (key : string) :
  dict_contains key d = false -> dict_get d key = VNone.
Proof.
  induction d as [| [k v] d IH]; simpl; [reflexivity |].
  destruct (String.eqb k key); simpl; [discriminate | auto].
Qed.

(** ** The [config] property *)

(** C10: [config] never raises.  It is [None] when the metrics are absent or
    empty; otherwise it is the value stored under the key [config], and
    [None] when the dictionary has no such key. *)
Theorem config_total_C10 (self : Result) :
  exists v,
    config self = Returns v
    /\ (metrics self = None \/ metrics self = Some [] -> v = VNone)
    /\ (forall d, metrics self = Some d -> d <> [] ->
          (dict_contains "config" d = true -> dict_getitem d "config" = Returns v)
          /\ (dict_contains "config" d = false -> v = VNone)).
Proof.
  unfold config, metrics_method.
  destruct (metrics self) as [[| kv d] |]; simpl.
  - exists VNone. split; [reflexivity |]. split; [reflexivity |].
    intros d Hd Hne. inversion Hd; subst. contradiction.
  - exists (dict_get (kv :: d) "config"). split; [reflexivity |]. split.
    + intros [H | H]; discriminate.
    + intros d' Hd _. inversion Hd; subst d'. split.
      * intros H. symmetry. rewrite (dict_getitem_contains _ _ H). reflexivity.
      * apply dict_get_absent.
  - exists VNone. split; [reflexivity |]. split; [reflexivity |].
    intros d Hd. discriminate.
Qed.

(** ** The order of strings *)

Lemma string_compare_OT (s t : string) :
  String.compare s t = OrdersEx.String_as_OT.compare s t.
Proof.
  revert t. induction s as [| c s IH]; destruct t as [| c' t]; reflexivity.
Qed.

Lemma string_compare_trans_lt (s t u : string) :
  String.compare s t = Lt -> String.compare t u = Lt -> String.compare s u = Lt.
Proof.
  rewrite !string_compare_OT.
  exact (@StrictOrder_Transitive _ _ OrdersEx.String_as_OT.lt_strorder s t u).
Qed.

Lemma string_leb_trans (s t u : string) :
  String.leb s t = true -> String.leb t u = true -> String.leb s u = true.
Proof.
  unfold String.leb.
  destruct (String.compare s t) eqn:Hst; try discriminate;
    destruct (String.compare t u) eqn:Htu; try discriminate; intros _ _.
  - apply String.compare_eq_iff in Hst. subst. now rewrite Htu.
  - apply String.compare_eq_iff in Hst. subst. now rewrite Htu.
  - apply String.compare_eq_iff in Htu. subst. now rewrite Hst.
  - now rewrite (string_compare_trans_lt _ _ _ Hst Htu).
Qed.

Lemma string_ltb_leb (s t : string) : String.ltb s t = negb (String.leb t s).
Proof.
  unfold String.ltb, String.leb. rewrite (String.compare_antisym s t).
  destruct (String.compare t s); reflexivity.
Qed.

Lemma string_app_assoc (s t u : string) :
  ((s ++ t) ++ u)%string = (s ++ t ++ u)%string.
Proof. induction s as [| c s IH]; simpl; [reflexivity | now rewrite IH]. Qed.

Lemma string_app_nil_r (s : string) : (s ++ "")%string = s.
Proof. induction s as [| c s IH]; simpl; [reflexivity | now rewrite IH]. Qed.

(** ** [max] and [min] over items whose keys have a total order *)

Section MinMaxOrder.
Context {A : Type}.
Variable better : value -> value -> outcome bool.
Variable key : A -> outcome value.
Variable val : A -> value.
(** [le x y]: the key of [y] is at least as good as the key of [x]. *)
Variable le : A -> A -> bool.
Variable items : list A.

Hypothesis key_val : forall x, In x items -> key x = Returns (val x).
Hypothesis better_le : forall x y, In x items -> In y items ->
  better (val x) (val y) = Returns (negb (le x y)).
Hypothesis le_total : forall x y, In x items -> In y items ->
  le x y = true \/ le y x = true.
Hypothesis le_trans : forall x y z, In x items -> In y items -> In z items ->
  le x y = true -> le y z = true -> le x z = true.

(** The invariant of the loop: the running best strictly beats everything
    before it and is not beaten by anything seen after it. *)
Lemma min_max_loop_first rest : forall before best seen,
  items = before ++ best :: seen ++ rest ->
  Forall (fun x => le best x = false) before ->
  Forall (fun x => le x best = true) seen ->
  exists before' best' after',
    items = before' ++ best' :: after'
    /\ min_max_loop better key best (val best) rest = Returns best'
    /\ Forall (fun x => le best' x = false) before'
    /\ Forall (fun x => le x best' = true) after'.
Proof.
  induction rest as [| item rest IH]; intros before best seen Hitems Hbefore Hseen.
  - exists before, best, seen. rewrite app_nil_r in Hitems. simpl. auto.
  - assert (Hin : forall x, In x (before ++ best :: seen ++ [item]) -> In x items).
    { intros x Hx. rewrite Hitems. rewrite !in_app_iff in *. simpl in *.
      rewrite in_app_iff in Hx. simpl in Hx. rewrite in_app_iff. simpl. tauto. }
    assert (Hbest : In best items) by (apply Hin, in_elt).
    assert (Hitem : In item items).
    { apply Hin. rewrite in_app_iff. right. right. rewrite in_app_iff. right. left. reflexivity. }
    simpl. rewrite (key_val item Hitem). simpl.
    rewrite (better_le item best Hitem Hbest). simpl.
    destruct (le item best) eqn:Hle; simpl.
    + apply (IH before best (seen ++ [item])).
      * rewrite Hitems, <- app_assoc. reflexivity.
      * exact Hbefore.
      * apply Forall_app. split; [exact Hseen | constructor; [exact Hle | constructor]].
    + apply (IH (before ++ best :: seen) item []).
      * rewrite Hitems, <- app_assoc. reflexivity.
      * apply Forall_forall. intros x Hx.
        assert (Hxin : In x items).
        { apply Hin. rewrite in_app_iff in *. simpl in *. rewrite in_app_iff. tauto. }
        destruct (le item x) eqn:Hix; [| reflexivity].
        assert (Hxb : le x best = true).
        { rewrite in_app_iff in Hx. destruct Hx as [Hx | [Hx | Hx]].
          - rewrite Forall_forall in Hbefore. specialize (Hbefore x Hx).
            destruct (le_total x best Hxin Hbest) as [H | H]; [exact H | congruence].
          - subst x. destruct (le_total best best Hbest Hbest); assumption.
          - rewrite Forall_forall in Hseen. apply Hseen, Hx. }
        rewrite (le_trans item x best Hitem Hxin Hbest Hix Hxb) in Hle. discriminate.
      * constructor.
Qed.

(** The builtin returns the first item that no other item beats. *)
Lemma min_max_first : items <> [] ->
  exists before best after,
    items = before ++ best :: after
    /\ min_max better key items = Returns best
    /\ Forall (fun x => le x best = true) items
    /\ Forall (fun x => le best x = false) before.
Proof.
  intros Hne.
  assert (Hex : exists first rest, items = first :: rest).
  { clear - Hne. destruct items; [contradiction | eauto]. }
  destruct Hex as (first & rest & Hitems).
  destruct (min_max_loop_first rest [] first []) as
    (before & best & after & Hsplit & Hloop & Hbefore & Hafter).
  { rewrite Hitems. reflexivity. }
  { constructor. }
  { constructor. }
  exists before, best, after. split; [exact Hsplit |]. split.
  - rewrite Hitems at 1. simpl. rewrite key_val by (rewrite Hitems; left; reflexivity).
    simpl. exact Hloop.
  - split; [| exact Hbefore].
    assert (Hbest : In best items) by (rewrite Hsplit; apply in_elt).
    apply Forall_forall. intros x Hx.
    assert (Hx' := Hx). rewrite Hsplit in Hx'. apply in_app_or in Hx'.
    destruct Hx' as [Hx' | [Hx' | Hx']].
    + rewrite Forall_forall in Hbefore. specialize (Hbefore x Hx').
      destruct (le_total x best Hx Hbest) as [H | H]; [exact H | congruence].
    + subst x. destruct (le_total best best Hbest Hbest); assumption.
    + rewrite Forall_forall in Hafter. apply Hafter, Hx'.
Qed.
End MinMaxOrder.

(** ** The order of comparable values *)

Lemma value_leb_total_numbers (a b : value) :
  is_number a = true -> is_number b = true ->
  value_leb a b = true \/ value_leb b a = true.
Proof.
  unfold is_number, value_leb.
  destruct a, b; simpl; try discriminate; intros _ _;
    rewrite !Qle_bool_iff;
    match goal with
    | |- (?x <= ?y)%Q \/ _ =>
        destruct (Qlt_le_dec x y); [left; apply Qlt_le_weak |]; auto
    end.
Qed.

Lemma value_leb_trans_numbers (a b c : value) :
  is_number a = true -> is_number b = true -> is_number c = true ->
  value_leb a b = true -> value_leb b c = true -> value_leb a c = true.
Proof.
  unfold is_number, value_leb.
  destruct a, b, c; simpl; try discriminate; intros _ _ _;
    rewrite !Qle_bool_iff; apply Qle_trans.
Qed.

Lemma py_lt_numbers (a b : value) :
  is_number a = true -> is_number b = true ->
  py_lt a b = Returns (negb (value_leb b a)).
Proof.
  unfold is_number, value_leb, py_lt.
  destruct a, b; simpl; try discriminate; reflexivity.
Qed.

Lemma value_leb_total_strings (a b : value) :
  is_string a = true -> is_string b = true ->
  value_leb a b = true \/ value_leb b a = true.
Proof.
  destruct a, b; simpl; try discriminate; intros _ _. apply String.leb_total.
Qed.

Lemma value_leb_trans_strings (a b c : value) :
  is_string a = true -> is_string b = true -> is_string c = true ->
  value_leb a b = true -> value_leb b c = true -> value_leb a c = true.
Proof.
  destruct a, b, c; simpl; try discriminate; intros _ _ _. apply string_leb_trans.
Qed.

Lemma py_lt_strings (a b : value) :
  is_string a = true -> is_string b = true ->
  py_lt a b = Returns (negb (value_leb b a)).
Proof.
  destruct a, b; simpl; try discriminate; intros _ _.
  rewrite string_ltb_leb. reflexivity.
Qed.

(** ** [get_best_checkpoint] *)

Section Selection.
Context {C : Collaborators}.

Lemma candidates_contain (self : Result) (metric : string) (r : Checkpoint * dict) :
  In r (candidates self metric) -> dict_contains metric (snd r) = true.
Proof. unfold candidates. intros H. apply filter_In in H. apply H. Qed.

Lemma get_best_checkpoint_candidates (self : Result) (metric mode : string) :
  mode = "max" \/ mode = "min" ->
  candidates self metric <> [] ->
  get_best_checkpoint self metric mode =
  (best <- (if String.eqb mode "max" then py_max else py_min)
             (fun x => dict_getitem (snd x) metric) (candidates self metric) ;;
   Returns (fst best))%outcome.
Proof.
  intros Hmode Hne. unfold get_best_checkpoint, candidates in *.
  destruct (best_checkpoints self) as [[| r l] |]; simpl in *; try contradiction.
  replace (String.eqb mode "max" || (String.eqb mode "min" || false)) with true
    by (destruct Hmode; subst; reflexivity).
  simpl.
  destruct (if dict_contains metric (snd r)
            then r :: filter (fun i => dict_contains metric (snd i)) l
            else filter (fun i => dict_contains metric (snd i)) l);
    [contradiction | reflexivity].
Qed.

(** C1, as the code has it: when the values of the metric in the candidate
    records are numbers (no NaN), or are all strings, the call returns the
    checkpoint of the candidate with the largest value for [max] and the
    smallest for [min], and of the earliest such candidate when several tie. *)
Theorem get_best_checkpoint_first_extremal_C1 (self : Result) (metric mode : string) :
  mode = "max" \/ mode = "min" ->
  candidates self metric <> [] ->
  comparable metric (candidates self metric) ->
  selects_first_extremal self metric mode.
Proof.
  intros Hmode Hne Hcmp. unfold selects_first_extremal.
  rewrite (get_best_checkpoint_candidates self metric mode Hmode Hne).
  set (val := fun r : Checkpoint * dict => dict_get (snd r) metric).
  set (le := fun x y : Checkpoint * dict => no_better mode (val x) (val y)).
  assert (Hkey : forall x, In x (candidates self metric) ->
                   dict_getitem (snd x) metric = Returns (val x)).
  { intros x Hx. apply dict_getitem_contains, (candidates_contain self), Hx. }
  assert (Hfirst : exists before best after,
    candidates self metric = before ++ best :: after
    /\ (if String.eqb mode "max" then py_max else py_min)
         (fun x => dict_getitem (snd x) metric) (candidates self metric) = Returns best
    /\ Forall (fun x => le x best = true) (candidates self metric)
    /\ Forall (fun x => le best x = false) before).
  { destruct Hcmp as [Hnum | Hstr]; rewrite Forall_forall in *.
    - destruct Hmode; subst mode; simpl;
        apply (min_max_first _ _ val le (candidates self metric) Hkey);
        try exact Hne; unfold le, no_better, py_gt; simpl; intros;
        first [ apply py_lt_numbers
              | apply value_leb_total_numbers
              | eapply value_leb_trans_numbers; [ | | | eassumption | eassumption ] ];
        apply Hnum; assumption.
    - destruct Hmode; subst mode; simpl;
        apply (min_max_first _ _ val le (candidates self metric) Hkey);
        try exact Hne; unfold le, no_better, py_gt; simpl; intros;
        first [ apply py_lt_strings
              | apply value_leb_total_strings
              | eapply value_leb_trans_strings; [ | | | eassumption | eassumption ] ];
        apply Hstr; assumption. }
  destruct Hfirst as (before & best & after & Hsplit & Hop & Hall & Hbefore).
  exists before, best, after. rewrite Hop. simpl. auto.
Qed.

Lemma concat_mentions (separator : string) (l : list string) (x : string) :
  In x l -> exists pre post, String.concat separator l = (pre ++ x ++ post)%string.
Proof.
  induction l as [| y l IH]; intros Hin; [contradiction |].
  destruct Hin as [-> | Hin].
  - exists "". destruct l as [| z l]; simpl.
    + exists "". now rewrite string_app_nil_r.
    + eexists. reflexivity.
  - destruct (IH Hin) as (pre & post & Heq).
    destruct l as [| z l]; [contradiction |].
    exists (y ++ separator ++ pre)%string, post.
    change (String.concat separator (y :: z :: l))
      with (y ++ separator ++ String.concat separator (z :: l))%string.
    rewrite Heq, !string_app_assoc. reflexivity.
Qed.

(** C8: with at least one checkpoint, a mode of [min] or [max] and a metric
    that no checkpoint's dictionary contains, the call raises the
    [RuntimeError] for an invalid metric name, and the message lists the
    representation of every key of the latest metrics of the result. *)
Theorem get_best_checkpoint_unknown_metric_C8
    (self : Result) (metric mode : string)
    (records : list (Checkpoint * dict)) (latest : dict) :
  best_checkpoints self = Some records ->
  records <> [] ->
  mode = "max" \/ mode = "min" ->
  Forall (fun r => dict_contains metric (snd r) = false) records ->
  metrics self = Some latest ->
  get_best_checkpoint self metric mode =
    Raises (RuntimeError
              (invalid_metric_msg metric (repr_dict_keys (dict_keys latest))))
  /\ forall k, In k (dict_keys latest) ->
       exists pre post,
         invalid_metric_msg metric (repr_dict_keys (dict_keys latest))
         = (pre ++ repr_str k ++ post)%string.
Proof.
  intros Hrecords Hne Hmode Habsent Hlatest. split.
  - unfold get_best_checkpoint, metrics_method. rewrite Hrecords, Hlatest.
    destruct records as [| r l]; [contradiction |]. simpl.
    replace (String.eqb mode "max" || (String.eqb mode "min" || false)) with true
      by (destruct Hmode; subst; reflexivity).
    simpl.
    assert (Hfilter : filter (fun i => dict_contains metric (snd i)) (r :: l) = []).
    { clear - Habsent. induction Habsent as [| x xs Hx _ IH]; simpl; [reflexivity |].
      rewrite Hx. exact IH. }
    simpl in Hfilter. rewrite Hfilter. reflexivity.
  - intros k Hk. unfold invalid_metric_msg, repr_dict_keys.
    destruct (concat_mentions ", " (map repr_str (dict_keys latest)) (repr_str k))
      as (pre & post & Heq); [apply in_map, Hk |].
    rewrite Heq.
    exists ("Invalid metric name " ++ metric
            ++ "! You may choose from the following metrics: "
            ++ "dict_keys([" ++ pre)%string, (post ++ "])" ++ ".")%string.
    rewrite !string_app_assoc. reflexivity.
Qed.
End Selection.

(** ** The steps of [from_path] *)

Lemma last_cons_default {A : Type} (x : A) (l : list A) (d : A) :
  last (x :: l) d = last l x.
Proof.
  revert x d. induction l as [| y l IH]; intros x d; [reflexivity |].
  change (last (x :: y :: l) d) with (last (y :: l) d). rewrite IH.
  symmetry. apply IH.
Qed.

Lemma mask_rows_filter (i : nat) (rs : list (list value)) (s : string) :
  mask_rows rs (series_eq (map (cell i) rs) s)
  = filter (fun row => py_eq_str (cell i row) s) rs.
Proof.
  induction rs as [| r rs IH]; simpl; [reflexivity |].
  rewrite IH. reflexivity.
Qed.

Lemma column_index_columns (cols : list string) (name : string) (i : nat) :
  column_index cols name = Some i -> cols <> [].
Proof. destruct cols; [discriminate | discriminate]. Qed.

Lemma filter_last_matching {A : Type} (f : A -> bool) (l : list A) (x : A) (xs : list A) :
  filter f l = x :: xs ->
  exists earlier later,
    l = earlier ++ last xs x :: later
    /\ f (last xs x) = true
    /\ Forall (fun y => f y = false) later.
Proof.
  revert x xs. induction l as [| y l IH]; intros x xs Hf; [discriminate |].
  simpl in Hf. destruct (f y) eqn:Hy.
  - injection Hf as Hyx Hxs. subst y. destruct xs as [| x' xs'].
    + exists [], l. simpl. split; [reflexivity |]. split; [exact Hy |].
      apply Forall_forall. intros z Hz.
      destruct (f z) eqn:Hfz; [| reflexivity].
      assert (Hin : In z (filter f l)) by (apply filter_In; auto).
      rewrite Hxs in Hin. contradiction.
    + destruct (IH x' xs' Hxs) as (earlier & later & Hl & Hlast & Hlater).
      exists (x :: earlier), later. rewrite last_cons_default.
      split; [simpl; congruence | auto].
  - destruct (IH x xs Hf) as (earlier & later & Hl & Hlast & Hlater).
    exists (y :: earlier), later. split; [simpl; congruence | auto].
Qed.

Section Steps.
Context {C : Collaborators}.

Lemma external_trace {A : Type} (r : string + A) : trace_of (external r) = [].
Proof. destruct r; reflexivity. Qed.

Lemma for_each_external {A B : Type} (f : A -> string + B) (l : list A) :
  trace_of (for_each (fun a => external (f a)) l) = []
  /\ forall msg, outcome_of (for_each (fun a => external (f a)) l)
                 <> Raises (RuntimeError msg).
Proof.
  induction l as [| a l [IHt IHo]]; simpl; [split; [reflexivity | discriminate] |].
  destruct (f a) as [what | b]; simpl; [split; [reflexivity | discriminate] |].
  destruct (for_each (fun a => external (f a)) l) as [t [bs | e]]; simpl in *.
  - subst t. split; [reflexivity | discriminate].
  - subst t. split; [reflexivity | exact IHo].
Qed.

Lemma latest_row_total (metrics_df : DataFrame) :
  latest_row metrics_df = ([], Returns (latest_metrics_of metrics_df)).
Proof.
  unfold latest_row, latest_metrics_of, df_empty, df_iloc_last.
  destruct (columns metrics_df) as [| c cs]; [reflexivity |].
  destruct (rows metrics_df) as [| r rs]; [reflexivity |].
  simpl negb. cbv iota. rewrite last_cons_default. reflexivity.
Qed.

(** The log step reads [result.json] when it exists. *)
Lemma restore_metrics_primary (fs : FileSystem) (fs_path : string) :
  exists_at fs (result_json_file fs_path) = true ->
  trace_of (restore_metrics fs fs_path)
  = [EvExists (result_json_file fs_path); EvOpen (result_json_file fs_path)]
  /\ forall msg, outcome_of (restore_metrics fs fs_path) <> Raises (RuntimeError msg).
Proof.
  intros Hjson. unfold restore_metrics, _exists_at_fs_path, read_all.
  fold (result_json_file fs_path). rewrite bind_returns, Hjson.
  destruct (open_input_stream fs (result_json_file fs_path)) as [what | content];
    simpl; [split; [reflexivity | discriminate] |].
  destruct (utf8_decode content) as [what | text];
    simpl; [split; [reflexivity | discriminate] |].
  destruct (for_each_external json_loads (filter nonempty (split_lines text)))
    as [Ht Ho].
  destruct (for_each (fun line => external (json_loads line))
                     (filter nonempty (split_lines text))) as [t [objs | e]];
    simpl in *; subst t.
  - destruct (json_normalize objs); simpl; split; (reflexivity || discriminate).
  - split; [reflexivity |].
    intros msg H. injection H as He. subst e. exact (Ho msg eq_refl).
Qed.

(** Without [result.json], the log step reads [progress.csv] when it
    exists. *)
Lemma restore_metrics_fallback (fs : FileSystem) (fs_path : string) :
  exists_at fs (result_json_file fs_path) = false ->
  exists_at fs (progress_csv_file fs_path) = true ->
  trace_of (restore_metrics fs fs_path)
  = [EvExists (result_json_file fs_path); EvExists (progress_csv_file fs_path);
     EvOpen (progress_csv_file fs_path)]
  /\ forall msg, outcome_of (restore_metrics fs fs_path) <> Raises (RuntimeError msg).
Proof.
  intros Hjson Hcsv. unfold restore_metrics, _exists_at_fs_path, read_all.
  fold (result_json_file fs_path). fold (progress_csv_file fs_path).
  rewrite bind_returns, Hjson. cbv iota. rewrite bind_returns, Hcsv.
  destruct (open_input_stream fs (progress_csv_file fs_path)) as [what | content];
    simpl; [split; [reflexivity | discriminate] |].
  destruct (utf8_decode content) as [what | text];
    simpl; [split; [reflexivity | discriminate] |].
  destruct (read_csv text); simpl; split; (reflexivity || discriminate).
Qed.

(** With neither log, the step raises and opens nothing. *)
Lemma restore_metrics_missing (fs : FileSystem) (fs_path : string) :
  exists_at fs (result_json_file fs_path) = false ->
  exists_at fs (progress_csv_file fs_path) = false ->
  restore_metrics fs fs_path
  = ([EvExists (result_json_file fs_path); EvExists (progress_csv_file fs_path)],
     Raises (RuntimeError missing_log_msg)).
Proof.
  intros Hjson Hcsv. unfold restore_metrics, _exists_at_fs_path.
  fold (result_json_file fs_path). fold (progress_csv_file fs_path).
  rewrite bind_returns, Hjson. cbv iota. rewrite bind_returns, Hcsv. reflexivity.
Qed.
End Steps.

Section Correlation.
Context {C : Collaborators}.

Lemma bind_ret {A B : Type} (a : A) (k : A -> M B) : bind (ret a) k = k a.
Proof. unfold bind, ret. destruct (k a); reflexivity. Qed.

Lemma metrics_of_checkpoint_column (df : DataFrame) (i : nat) (d : string) :
  column_index (columns df) CHECKPOINT_DIR_NAME = Some i ->
  metrics_of_checkpoint df d = (warnings_for i df [d], Returns (snapshot_of i df d)).
Proof.
  intros Hi. unfold metrics_of_checkpoint, df_getitem, lift. rewrite Hi.
  rewrite bind_returns. cbv beta.
  unfold warnings_for, snapshot_of, rows_of_checkpoint, df_mask, df_empty, df_iloc_last.
  simpl columns. simpl rows. rewrite mask_rows_filter.
  cbn [flat_map]. rewrite app_nil_r.
  destruct (columns df) as [| c cs] eqn:Hcols; [discriminate |].
  destruct (filter (fun row => py_eq_str (cell i row) d) (rows df)) as [| r rs];
    unfold logger_warning, bind, ret; simpl; reflexivity.
Qed.

Lemma metrics_of_checkpoint_no_column (df : DataFrame) (d : string) :
  column_index (columns df) CHECKPOINT_DIR_NAME = None ->
  metrics_of_checkpoint df d = ([], Raises (KeyError CHECKPOINT_DIR_NAME)).
Proof.
  intros Hi. unfold metrics_of_checkpoint, df_getitem, lift. rewrite Hi. reflexivity.
Qed.

Lemma for_each_metrics (df : DataFrame) (i : nat) (dirs : list string) :
  column_index (columns df) CHECKPOINT_DIR_NAME = Some i ->
  for_each (metrics_of_checkpoint df) dirs
  = (warnings_for i df dirs, Returns (map (snapshot_of i df) dirs)).
Proof.
  intros Hi. induction dirs as [| d dirs IH]; [reflexivity |].
  simpl for_each. rewrite (metrics_of_checkpoint_column df i d Hi), IH.
  unfold warnings_for. simpl. rewrite !app_nil_r. reflexivity.
Qed.

Lemma combine_map {A B D : Type} (f : A -> B) (g : A -> D) (l : list A) :
  combine (map f l) (map g l) = map (fun a => (f a, g a)) l.
Proof. induction l as [| a l IH]; simpl; [reflexivity | now rewrite IH]. Qed.

Lemma last_map_some {A B : Type} (f : A -> B) (a : A) (l : list A) :
  last (map Some (map f (a :: l))) None = Some (f (last l a)).
Proof.
  revert a. induction l as [| b l IH]; intros a; [reflexivity |].
  change (last (map Some (map f (a :: b :: l))) None)
    with (last (map Some (map f (b :: l))) None).
  rewrite IH, last_cons_default. reflexivity.
Qed.

(** The checkpoint step when the table has the correlation column: one
    record for each folder, in the order of the folders. *)
Lemma restore_checkpoints_column (fs : FileSystem) (fs_path : string)
    (df : DataFrame) (i : nat) (d : string) (dirs : list string) :
  column_index (columns df) CHECKPOINT_DIR_NAME = Some i ->
  restore_checkpoints fs fs_path df (d :: dirs)
  = (warnings_for i df (d :: dirs),
     Returns (Some (map (fun x => (checkpoint_at fs fs_path x, snapshot_of i df x))
                        (d :: dirs)),
              Some (checkpoint_at fs fs_path (last dirs d)))).
Proof.
  intros Hi. unfold restore_checkpoints.
  rewrite (for_each_metrics df i (d :: dirs) Hi), bind_returns.
  cbv beta. unfold ret. cbn [fst snd]. rewrite app_nil_r.
  rewrite combine_map.
  rewrite (last_map_some (fun x => {| ckpt_path := path_join fs_path x;
                                      ckpt_filesystem := fs |}) d dirs).
  reflexivity.
Qed.

(** The checkpoint step when the table lacks the column: the lookup of the
    column raises at the first folder. *)
Lemma restore_checkpoints_no_column (fs : FileSystem) (fs_path : string)
    (df : DataFrame) (d : string) (dirs : list string) :
  column_index (columns df) CHECKPOINT_DIR_NAME = None ->
  restore_checkpoints fs fs_path df (d :: dirs)
  = ([], Raises (KeyError CHECKPOINT_DIR_NAME)).
Proof.
  intros Hi. unfold restore_checkpoints. simpl for_each.
  rewrite (metrics_of_checkpoint_no_column df d Hi). reflexivity.
Qed.

Lemma restore_checkpoints_events (fs : FileSystem) (fs_path : string)
    (df : DataFrame) (dirs : list string) :
  (forall p, ~ In (EvOpen p) (trace_of (restore_checkpoints fs fs_path df dirs)))
  /\ forall msg, outcome_of (restore_checkpoints fs fs_path df dirs)
                 <> Raises (RuntimeError msg).
Proof.
  destruct dirs as [| d dirs]; [split; [intros p [] | discriminate] |].
  destruct (column_index (columns df) CHECKPOINT_DIR_NAME) as [i |] eqn:Hi.
  - rewrite (restore_checkpoints_column fs fs_path df i d dirs Hi).
    split; [| discriminate]. intros p Hin. unfold trace_of in Hin. cbn [fst] in Hin.
    unfold warnings_for in Hin. apply in_flat_map in Hin.
    destruct Hin as (x & _ & Hx).
    destruct (rows_of_checkpoint i df x); [destruct Hx as [Hx | []]; discriminate | contradiction].
  - rewrite (restore_checkpoints_no_column fs fs_path df d dirs Hi).
    split; [intros p [] | discriminate].
Qed.

Lemma restore_error_events (fs : FileSystem) (fs_path : string) :
  (forall p, In (EvOpen p) (trace_of (restore_error fs fs_path)) ->
             p = error_file_path fs_path)
  /\ forall msg, outcome_of (restore_error fs fs_path) <> Raises (RuntimeError msg).
Proof.
  unfold restore_error, _exists_at_fs_path, read_all.
  fold (error_file_path fs_path). rewrite bind_returns.
  destruct (exists_at fs (error_file_path fs_path)); simpl.
  - destruct (open_input_stream fs (error_file_path fs_path)) as [what | content]; simpl.
    + split; [| discriminate]. intros p [H | [H | []]]; congruence.
    + destruct (cloudpickle_load content); simpl;
        (split; [| discriminate]); intros p [H | [H | []]]; congruence.
  - split; [| discriminate]. intros p [H | []]; discriminate.
Qed.
End Correlation.

(** ** [from_path] as the sequence of its steps *)

Section Pipeline.
Context {C : Collaborators}.
Variables (path : string) (storage_filesystem : option FileSystem).
Variables (fs : FileSystem) (fs_path : string).
Hypothesis resolved : get_fs_and_path path storage_filesystem = inr (fs, fs_path).

Lemma from_path_missing_folder :
  exists_at fs fs_path = false ->
  from_path path storage_filesystem
  = ([EvExists fs_path], Raises (RuntimeError (trial_folder_msg fs_path))).
Proof.
  intros Hroot. unfold from_path. rewrite resolved. simpl external.
  rewrite bind_ret. unfold _validate_trial_dir, _exists_at_fs_path.
  rewrite bind_returns, Hroot. reflexivity.
Qed.

Lemma bind_pure {A B : Type} (a : A) (k : A -> M B) :
  bind ([], Returns a) k = k a.
Proof. exact (bind_ret a k). Qed.

Lemma list_dir_cases (p : string) :
  list_dir fs p =
  match get_file_info fs p with
  | inl what => ([EvList p], Raises (ExternalError what))
  | inr items => ([EvList p], Returns items)
  end.
Proof.
  unfold list_dir. rewrite bind_returns. destruct (get_file_info fs p); reflexivity.
Qed.

Lemma trace_of_event_bind {A B : Type} (ev : event) (a : A) (k : A -> M B) :
  trace_of (bind ([ev], Returns a) k) = ev :: trace_of (k a).
Proof. rewrite bind_returns. reflexivity. Qed.

Lemma outcome_of_event_bind {A B : Type} (ev : event) (a : A) (k : A -> M B) :
  outcome_of (bind ([ev], Returns a) k) = outcome_of (k a).
Proof. rewrite bind_returns. reflexivity. Qed.

Hypothesis folder_exists : exists_at fs fs_path = true.

Lemma from_path_outcome :
  outcome_of (from_path path storage_filesystem) =
  match outcome_of (restore_metrics fs fs_path) with
  | Raises e => Raises e
  | Returns metrics_df =>
      match get_file_info fs fs_path with
      | inl what => Raises (ExternalError what)
      | inr items =>
          match outcome_of (restore_checkpoints fs fs_path metrics_df
                                                (scan_checkpoint_dirs items)) with
          | Raises e => Raises e
          | Returns (best, latest) =>
              match outcome_of (restore_error fs fs_path) with
              | Raises e => Raises e
              | Returns err =>
                  Returns (assembled path fs fs_path metrics_df best latest err)
              end
          end
      end
  end.
Proof.
  unfold from_path. rewrite resolved. simpl external. rewrite bind_ret.
  unfold _validate_trial_dir, _exists_at_fs_path.
  rewrite bind_returns, folder_exists. simpl negb. cbv iota.
  cbn [fst snd ret app]. rewrite outcome_of_event_bind, outcome_of_bind.
  destruct (outcome_of (restore_metrics fs fs_path)) as [df | e]; [| reflexivity].
  rewrite latest_row_total, bind_pure, list_dir_cases.
  destruct (get_file_info fs fs_path) as [what | items]; [reflexivity |].
  rewrite outcome_of_event_bind, outcome_of_bind.
  destruct (outcome_of (restore_checkpoints fs fs_path df (scan_checkpoint_dirs items)))
    as [[best latest] | e]; [| reflexivity].
  rewrite outcome_of_bind.
  destruct (outcome_of (restore_error fs fs_path)) as [err | e]; reflexivity.
Qed.

(** After the folder was validated, a [RuntimeError] can only come from the
    log step. *)
Lemma from_path_runtime_error (msg : string) :
  outcome_of (from_path path storage_filesystem) = Raises (RuntimeError msg) ->
  outcome_of (restore_metrics fs fs_path) = Raises (RuntimeError msg).
Proof.
  rewrite from_path_outcome.
  destruct (outcome_of (restore_metrics fs fs_path)) as [df | e];
    [| intros H; injection H as H; now subst e].
  destruct (get_file_info fs fs_path) as [what | items]; [discriminate |].
  destruct (restore_checkpoints_events fs fs_path df (scan_checkpoint_dirs items))
    as [_ Hck].
  destruct (outcome_of (restore_checkpoints fs fs_path df (scan_checkpoint_dirs items)))
    as [[best latest] | e].
  - destruct (restore_error_events fs fs_path) as [_ Herr].
    destruct (outcome_of (restore_error fs fs_path)) as [err | e]; [discriminate |].
    intros H. injection H as H. subst e. destruct (Herr msg eq_refl).
  - intros H. injection H as H. subst e. destruct (Hck msg eq_refl).
Qed.

Lemma from_path_trace :
  exists rest,
    trace_of (from_path path storage_filesystem)
    = EvExists fs_path :: trace_of (restore_metrics fs fs_path) ++ rest
    /\ forall p, In (EvOpen p) rest -> p = error_file_path fs_path.
Proof.
  unfold from_path. rewrite resolved. simpl external. rewrite bind_ret.
  unfold _validate_trial_dir, _exists_at_fs_path.
  rewrite bind_returns, folder_exists. simpl negb. cbv iota.
  cbn [fst snd ret app]. rewrite trace_of_event_bind, trace_of_bind.
  destruct (outcome_of (restore_metrics fs fs_path)) as [df | e].
  2:{ exists []. rewrite app_nil_r. split; [reflexivity | intros p []]. }
  rewrite latest_row_total, bind_pure, list_dir_cases.
  destruct (get_file_info fs fs_path) as [what | items].
  { exists [EvList fs_path]. split; [reflexivity |].
    intros p [H | []]; discriminate. }
  rewrite trace_of_event_bind, trace_of_bind.
  destruct (restore_checkpoints_events fs fs_path df (scan_checkpoint_dirs items))
    as [Hck _].
  destruct (restore_error_events fs fs_path) as [Herr _].
  destruct (outcome_of (restore_checkpoints fs fs_path df (scan_checkpoint_dirs items)))
    as [[best latest] | e].
  - rewrite trace_of_bind.
    destruct (outcome_of (restore_error fs fs_path)) as [err | e]; eexists;
      (split; [reflexivity |]); intros p Hin; simpl in Hin;
      destruct Hin as [Hin | Hin]; try discriminate;
      repeat (apply in_app_or in Hin; destruct Hin as [Hin | Hin]);
      try (exfalso; exact (Hck p Hin)); try (apply Herr; exact Hin);
      try contradiction.
  - eexists. split; [reflexivity |]. intros p Hin. simpl in Hin.
    destruct Hin as [Hin | Hin]; [discriminate |]. exfalso. exact (Hck p Hin).
Qed.
End Pipeline.

(** ** The scan of the checkpoint folders *)

Lemma insert_sorted_perm (x : string) (l : list string) :
  Permutation (insert_sorted x l) (x :: l).
Proof.
  induction l as [| y l IH]; simpl; [reflexivity |].
  destruct (String.leb x y); [reflexivity |].
  rewrite IH. apply perm_swap.
Qed.

Lemma sorted_perm (names : list string) : Permutation (sorted names) names.
Proof.
  induction names as [| x names IH]; simpl; [reflexivity |].
  rewrite insert_sorted_perm. now constructor.
Qed.

Lemma insert_sorted_strongly (x : string) (l : list string) :
  StronglySorted lex_le l -> StronglySorted lex_le (insert_sorted x l).
Proof.
  induction 1 as [| y l Hsorted IH Hall]; simpl; [repeat constructor |].
  destruct (String.leb x y) eqn:Hxy.
  - constructor; [constructor; assumption |].
    constructor; [exact Hxy |].
    eapply Forall_impl; [| exact Hall].
    intros z Hz. unfold lex_le in *. eapply string_leb_trans; eassumption.
  - constructor; [exact IH |].
    apply (Permutation_Forall (Permutation_sym (insert_sorted_perm x l))).
    constructor; [| exact Hall].
    unfold lex_le. destruct (String.leb_total x y) as [H | H]; congruence.
Qed.

Lemma sorted_strongly (names : list string) : StronglySorted lex_le (sorted names).
Proof.
  induction names as [| x names IH]; simpl; [constructor |].
  apply insert_sorted_strongly, IH.
Qed.

Section Scan.
Context {C : Collaborators}.

Lemma is_checkpoint_dir_spec (item : FileInfo) :
  is_checkpoint_dir item = true
  <-> type item = Directory
      /\ String.prefix checkpoint_prefix (base_name item) = true.
Proof.
  unfold is_checkpoint_dir. rewrite andb_true_iff.
  destruct (type item); simpl; intuition discriminate.
Qed.

Lemma scan_checkpoint_dirs_sorted (items : list FileInfo) :
  StronglySorted lex_le (scan_checkpoint_dirs items).
Proof. apply sorted_strongly. Qed.

(** C3, as the code has it: the scan keeps exactly the entries of the
    listing that are folders and whose name starts with [checkpoint_],
    each once per entry, and returns their names in ascending order of
    [str]; what follows the prefix is not looked at. *)
Theorem scan_checkpoint_dirs_prefix_C3 (items : list FileInfo) :
  (forall name,
      In name (scan_checkpoint_dirs items)
      <-> exists item, In item items
                       /\ type item = Directory
                       /\ String.prefix checkpoint_prefix (base_name item) = true
                       /\ base_name item = name)
  /\ Permutation (scan_checkpoint_dirs items)
                 (map base_name (filter is_checkpoint_dir items))
  /\ StronglySorted lex_le (scan_checkpoint_dirs items).
Proof.
  unfold scan_checkpoint_dirs. split; [| split].
  - intros name. split.
    + intros Hin.
      apply (Permutation_in _ (sorted_perm _)) in Hin.
      apply in_map_iff in Hin. destruct Hin as (item & Hname & Hitem).
      apply filter_In in Hitem. destruct Hitem as [Hitem Hdir].
      apply is_checkpoint_dir_spec in Hdir.
      exists item. tauto.
    + intros (item & Hitem & Htype & Hprefix & Hname).
      apply (Permutation_in _ (Permutation_sym (sorted_perm _))).
      apply in_map_iff. exists item. split; [exact Hname |].
      apply filter_In. split; [exact Hitem |].
      apply is_checkpoint_dir_spec. auto.
  - apply sorted_perm.
  - apply scan_checkpoint_dirs_sorted.
Qed.

Lemma scan_checkpoint_dirs_length (items : list FileInfo) :
  List.length (scan_checkpoint_dirs items)
  = List.length (filter is_checkpoint_dir items).
Proof.
  unfold scan_checkpoint_dirs.
  rewrite (Permutation_length (sorted_perm _)). apply length_map.
Qed.
End Scan.

(** ** Names of one width: the order of [str] is the order of the index *)

Lemma substring_all (s : string) : substring 0 (String.length s) s = s.
Proof. induction s as [| c s IH]; simpl; [reflexivity | now rewrite IH]. Qed.

Lemma substring_split (s : string) : forall n,
  s = (substring 0 n s ++ substring n (String.length s - n) s)%string.
Proof.
  induction s as [| c s IH]; intros [| n]; simpl; try reflexivity.
  - now rewrite substring_all.
  - now rewrite <- IH.
Qed.

Lemma prefix_index_text (name : string) :
  String.prefix checkpoint_prefix name = true ->
  name = (checkpoint_prefix ++ index_text name)%string.
Proof.
  intros Hp. apply String.prefix_correct in Hp. unfold index_text.
  etransitivity; [apply (substring_split name (String.length checkpoint_prefix)) |].
  rewrite Hp. reflexivity.
Qed.

Lemma compare_app_same (p s t : string) :
  String.compare (p ++ s) (p ++ t) = String.compare s t.
Proof.
  induction p as [| c p IH]; simpl; [reflexivity |].
  unfold Ascii.compare. now rewrite N.compare_refl.
Qed.

Lemma decimal_acc (s : string) : forall acc,
  decimal acc s = (acc * 10 ^ N.of_nat (String.length s) + decimal 0 s)%N.
Proof.
  induction s as [| c s IH]; intros acc.
  - simpl. lia.
  - change (decimal acc (String c s)) with (decimal (10 * acc + digit_value c) s).
    change (decimal 0 (String c s)) with (decimal (10 * 0 + digit_value c) s).
    rewrite (IH (10 * acc + digit_value c)%N), (IH (10 * 0 + digit_value c)%N).
    change (String.length (String c s)) with (S (String.length s)).
    rewrite Nnat.Nat2N.inj_succ, N.pow_succ_r'. lia.
Qed.

Lemma digit_value_bound (c : ascii) :
  is_digit c = true -> (N_of_ascii c = 48 + digit_value c /\ digit_value c <= 9)%N.
Proof.
  unfold is_digit, digit_value. rewrite andb_true_iff, !N.leb_le. lia.
Qed.

Lemma decimal_bound (s : string) :
  all_digits s = true -> (decimal 0 s < 10 ^ N.of_nat (String.length s))%N.
Proof.
  induction s as [| c s IH].
  - intros _. simpl. lia.
  - change (all_digits (String c s)) with (is_digit c && all_digits s).
    rewrite andb_true_iff. intros [Hc Hs].
    change (decimal 0 (String c s)) with (decimal (10 * 0 + digit_value c) s).
    change (String.length (String c s)) with (S (String.length s)).
    rewrite decimal_acc, Nnat.Nat2N.inj_succ, N.pow_succ_r'.
    specialize (IH Hs). apply digit_value_bound in Hc. nia.
Qed.

Lemma compare_digits (s : string) : forall t,
  String.length s = String.length t ->
  all_digits s = true -> all_digits t = true ->
  String.compare s t = N.compare (decimal 0 s) (decimal 0 t).
Proof.
  induction s as [| c s IH]; intros [| d t] Hlen Hs Ht; try discriminate;
    [reflexivity |].
  simpl in Hlen. injection Hlen as Hlen.
  change (is_digit c && all_digits s = true) in Hs.
  change (is_digit d && all_digits t = true) in Ht.
  apply andb_true_iff in Hs. destruct Hs as [Hc Hs].
  apply andb_true_iff in Ht. destruct Ht as [Hd Ht].
  simpl String.compare.
  change (decimal 0 (String c s)) with (decimal (10 * 0 + digit_value c) s).
  change (decimal 0 (String d t)) with (decimal (10 * 0 + digit_value d) t).
  rewrite (decimal_acc s), (decimal_acc t), <- Hlen.
  pose proof (decimal_bound s Hs) as Bs.
  pose proof (decimal_bound t Ht) as Bt. rewrite <- Hlen in Bt.
  destruct (digit_value_bound c Hc) as [Ec _].
  destruct (digit_value_bound d Hd) as [Ed _].
  unfold Ascii.compare.
  destruct (N.compare (N_of_ascii c) (N_of_ascii d)) eqn:Hcd.
  - apply N.compare_eq_iff in Hcd.
    assert (Heq : digit_value c = digit_value d) by lia. rewrite Heq.
    rewrite (IH t Hlen Hs Ht). symmetry.
    destruct (N.compare (decimal 0 s) (decimal 0 t)) eqn:Hst.
    + apply N.compare_eq_iff in Hst. apply N.compare_eq_iff. now rewrite Hst.
    + apply N.compare_lt_iff in Hst. apply N.compare_lt_iff.
      now apply N.add_lt_mono_l.
    + apply N.compare_gt_iff in Hst. apply N.compare_gt_iff.
      now apply N.add_lt_mono_l.
  - rewrite N.compare_lt_iff in Hcd. symmetry. apply N.compare_lt_iff.
    assert (H : ((digit_value c + 1) * 10 ^ N.of_nat (String.length s)
                 <= digit_value d * 10 ^ N.of_nat (String.length s))%N)
      by (apply N.mul_le_mono_r; lia).
    rewrite N.mul_add_distr_r in H. rewrite !N.mul_0_r, !N.add_0_l. lia.
  - rewrite N.compare_gt_iff in Hcd. symmetry. apply N.compare_gt_iff.
    assert (H : ((digit_value d + 1) * 10 ^ N.of_nat (String.length s)
                 <= digit_value c * 10 ^ N.of_nat (String.length s))%N)
      by (apply N.mul_le_mono_r; lia).
    rewrite N.mul_add_distr_r in H. rewrite !N.mul_0_r, !N.add_0_l. lia.
Qed.

Lemma fixed_width_order (width : nat) (a b : string) :
  matches_convention width a = true ->
  matches_convention width b = true ->
  lex_le a b -> index_le a b.
Proof.
  unfold matches_convention, lex_le, index_le, checkpoint_index, String.leb.
  rewrite !andb_true_iff, !Nat.eqb_eq.
  intros [[Hpa Hla] Hda] [[Hpb Hlb] Hdb] Hle.
  rewrite (prefix_index_text a Hpa), (prefix_index_text b Hpb) in Hle.
  rewrite compare_app_same in Hle.
  rewrite (compare_digits _ _ (eq_trans Hla (eq_sym Hlb)) Hda Hdb) in Hle.
  apply N.compare_le_iff. intros Hgt. rewrite Hgt in Hle. discriminate.
Qed.

Lemma fixed_width_sorted (width : nat) (names : list string) :
  Forall (fun name => matches_convention width name = true) names ->
  StronglySorted lex_le names -> StronglySorted index_le names.
Proof.
  intros Hall Hsorted. induction Hsorted as [| a l Hsorted IH Ha]; [constructor |].
  inversion Hall as [| ? ? Hma Hml]; subst.
  constructor; [apply IH, Hml |].
  rewrite Forall_forall in *. intros b Hb.
  eapply fixed_width_order; eauto.
Qed.

(** ** Restoration as a whole *)

Section Restore.
Context {C : Collaborators}.

Lemma from_path_unresolved (path : string) (storage_filesystem : option FileSystem)
    (what : string) :
  get_fs_and_path path storage_filesystem = inl what ->
  from_path path storage_filesystem = ([], Raises (ExternalError what)).
Proof. intros H. unfold from_path. rewrite H. reflexivity. Qed.

Lemma restore_metrics_read_fails (fs : FileSystem) (fs_path what : string) :
  open_input_stream fs (consulted_log fs fs_path) = inl what ->
  exists e, outcome_of (restore_metrics fs fs_path) = Raises e.
Proof.
  unfold consulted_log, restore_metrics, _exists_at_fs_path, read_all.
  fold (result_json_file fs_path). fold (progress_csv_file fs_path).
  rewrite bind_returns.
  destruct (exists_at fs (result_json_file fs_path)); intros Hopen.
  - rewrite bind_returns, Hopen. simpl. eauto.
  - rewrite bind_returns.
    destruct (exists_at fs (progress_csv_file fs_path)).
    + rewrite bind_returns, Hopen. simpl. eauto.
    + simpl. eauto.
Qed.

Lemma restore_error_read_fails (fs : FileSystem) (fs_path what : string) :
  exists_at fs (error_file_path fs_path) = true ->
  open_input_stream fs (error_file_path fs_path) = inl what ->
  outcome_of (restore_error fs fs_path) = Raises (ExternalError what).
Proof.
  intros Hexists Hopen. unfold restore_error, _exists_at_fs_path, read_all.
  fold (error_file_path fs_path).
  rewrite bind_returns, Hexists, bind_returns, Hopen. reflexivity.
Qed.

Lemma from_path_returns_iff (path : string) (storage_filesystem : option FileSystem)
    (r : Result) :
  outcome_of (from_path path storage_filesystem) = Returns r
  <-> exists fs fs_path metrics_df items best latest err,
        steps_succeed path storage_filesystem fs fs_path metrics_df items
                      best latest err
        /\ r = assembled path fs fs_path metrics_df best latest err.
Proof.
  split.
  - intros Hret.
    destruct (get_fs_and_path path storage_filesystem) as [what | [fs fs_path]] eqn:Hres.
    { rewrite (from_path_unresolved _ _ _ Hres) in Hret. discriminate. }
    destruct (exists_at fs fs_path) eqn:Hroot.
    2:{ rewrite (from_path_missing_folder _ _ _ _ Hres Hroot) in Hret. discriminate. }
    rewrite (from_path_outcome _ _ _ _ Hres Hroot) in Hret.
    destruct (outcome_of (restore_metrics fs fs_path)) as [df | e] eqn:Hdf;
      [| discriminate].
    destruct (get_file_info fs fs_path) as [what | items] eqn:Hitems; [discriminate |].
    destruct (outcome_of (restore_checkpoints fs fs_path df (scan_checkpoint_dirs items)))
      as [[best latest] | e] eqn:Hck; [| discriminate].
    destruct (outcome_of (restore_error fs fs_path)) as [err | e] eqn:Herr;
      [| discriminate].
    injection Hret as Hr. exists fs, fs_path, df, items, best, latest, err.
    unfold steps_succeed. rewrite Hitems. auto 10.
  - intros (fs & fs_path & df & items & best & latest & err & Hsteps & Hr).
    destruct Hsteps as (Hres & Hroot & Hdf & Hitems & Hck & Herr).
    rewrite (from_path_outcome _ _ _ _ Hres Hroot), Hdf, Hitems, Hck, Herr.
    congruence.
Qed.

(** The latest metrics of a restored result are read off the decoded table
    alone, whichever of the two logs the table came from. *)
Lemma from_path_latest_metrics (path : string) (storage_filesystem : option FileSystem)
    (r : Result) :
  outcome_of (from_path path storage_filesystem) = Returns r ->
  exists metrics_df,
    metrics_dataframe r = Some metrics_df
    /\ metrics r = Some (latest_metrics_of metrics_df).
Proof.
  intros Hret. apply from_path_returns_iff in Hret.
  destruct Hret as (fs & fs_path & df & items & best & latest & err & _ & Hr).
  subst r. exists df. split; reflexivity.
Qed.

(** C9: restoration is all or nothing.  A folder that does not exist gives
    the [RuntimeError] for a missing trial folder, with nothing read but the
    existence of the folder; under every fatal
    condition (missing folder, no log, a failing read of the log, of the
    listing or of the error file) the call raises; and a call returns a
    result only when every step has completed, and then the result is the
    complete record built from what the steps produced. *)
Theorem from_path_all_or_nothing_C9 (path : string)
    (storage_filesystem : option FileSystem) :
  (forall fs fs_path,
      get_fs_and_path path storage_filesystem = inr (fs, fs_path) ->
      exists_at fs fs_path = false ->
      from_path path storage_filesystem
      = ([EvExists fs_path], Raises (RuntimeError (trial_folder_msg fs_path))))
  /\ (forall fs fs_path,
        get_fs_and_path path storage_filesystem = inr (fs, fs_path) ->
        fatal fs fs_path ->
        exists e, outcome_of (from_path path storage_filesystem) = Raises e)
  /\ (forall r,
        outcome_of (from_path path storage_filesystem) = Returns r
        <-> exists fs fs_path metrics_df items best latest err,
              steps_succeed path storage_filesystem fs fs_path metrics_df items
                            best latest err
              /\ r = assembled path fs fs_path metrics_df best latest err).
Proof.
  split; [| split].
  - intros fs fs_path Hres Hroot.
    apply (from_path_missing_folder _ _ _ _ Hres Hroot).
  - intros fs fs_path Hres Hfatal.
    destruct (exists_at fs fs_path) eqn:Hroot.
    2:{ rewrite (from_path_missing_folder _ _ _ _ Hres Hroot). simpl. eauto. }
    rewrite (from_path_outcome _ _ _ _ Hres Hroot).
    destruct Hfatal as [H | [[Hjson Hcsv] | [[what Hopen] | [[what Hlist] | [Herr [what Hopen]]]]]].
    + congruence.
    + rewrite (restore_metrics_missing fs fs_path Hjson Hcsv). simpl. eauto.
    + destruct (restore_metrics_read_fails fs fs_path what Hopen) as [e He].
      rewrite He. eauto.
    + destruct (outcome_of (restore_metrics fs fs_path)); [| eauto].
      rewrite Hlist. eauto.
    + destruct (outcome_of (restore_metrics fs fs_path)); [| eauto].
      destruct (get_file_info fs fs_path); [eauto |].
      destruct (outcome_of (restore_checkpoints _ _ _ _)) as [[best latest] | e];
        [| eauto].
      rewrite (restore_error_read_fails fs fs_path what Herr Hopen). eauto.
  - apply from_path_returns_iff.
Qed.

(** C6: in an existing folder, a call opens [result.json] when that file
    exists and does not open [progress.csv]; it opens [progress.csv] when
    only that file exists and does not open [result.json]; and it raises
    the [RuntimeError] for a missing log exactly when neither exists. *)
Theorem from_path_consults_one_log_C6 (path : string)
    (storage_filesystem : option FileSystem) (fs : FileSystem) (fs_path : string) :
  get_fs_and_path path storage_filesystem = inr (fs, fs_path) ->
  exists_at fs fs_path = true ->
  result_json_file fs_path <> progress_csv_file fs_path ->
  error_file_path fs_path <> result_json_file fs_path ->
  error_file_path fs_path <> progress_csv_file fs_path ->
  (exists_at fs (result_json_file fs_path) = true ->
     In (EvOpen (result_json_file fs_path))
        (trace_of (from_path path storage_filesystem))
     /\ ~ In (EvOpen (progress_csv_file fs_path))
             (trace_of (from_path path storage_filesystem)))
  /\ (exists_at fs (result_json_file fs_path) = false ->
      exists_at fs (progress_csv_file fs_path) = true ->
        In (EvOpen (progress_csv_file fs_path))
           (trace_of (from_path path storage_filesystem))
        /\ ~ In (EvOpen (result_json_file fs_path))
                (trace_of (from_path path storage_filesystem)))
  /\ (outcome_of (from_path path storage_filesystem)
      = Raises (RuntimeError missing_log_msg)
      <-> exists_at fs (result_json_file fs_path) = false
          /\ exists_at fs (progress_csv_file fs_path) = false).
Proof.
  intros Hres Hroot Hlogs Herr1 Herr2.
  destruct (from_path_trace path storage_filesystem fs fs_path Hres Hroot)
    as (rest & Htrace & Hrest).
  rewrite Htrace. split; [| split].
  - intros Hjson.
    destruct (restore_metrics_primary fs fs_path Hjson) as [Ht _]. rewrite Ht.
    split; [simpl; auto |].
    intros [H | [H | [H | H]]]; try discriminate.
    + injection H as H. congruence.
    + apply Hrest in H. congruence.
  - intros Hjson Hcsv.
    destruct (restore_metrics_fallback fs fs_path Hjson Hcsv) as [Ht _]. rewrite Ht.
    split; [simpl; auto |].
    intros [H | [H | [H | [H | H]]]]; try discriminate.
    + injection H as H. congruence.
    + apply Hrest in H. congruence.
  - split.
    + intros Hraise.
      apply (from_path_runtime_error _ _ _ _ Hres Hroot) in Hraise.
      destruct (exists_at fs (result_json_file fs_path)) eqn:Hjson.
      { destruct (restore_metrics_primary fs fs_path Hjson) as [_ Ho].
        destruct (Ho _ Hraise). }
      destruct (exists_at fs (progress_csv_file fs_path)) eqn:Hcsv; [| auto].
      destruct (restore_metrics_fallback fs fs_path Hjson Hcsv) as [_ Ho].
      destruct (Ho _ Hraise).
    + intros [Hjson Hcsv].
      rewrite (from_path_outcome _ _ _ _ Hres Hroot).
      rewrite (restore_metrics_missing fs fs_path Hjson Hcsv). reflexivity.
Qed.
End Restore.

(** ** The dictionary of a row *)

Lemma dict_contains_set (d : dict) (key k : string) (v : value) :
  dict_contains k (dict_set d key v) = (String.eqb key k || dict_contains k d)%bool.
Proof.
  unfold dict_contains. induction d as [| [k' w] d IH]; simpl.
  - reflexivity.
  - destruct (String.eqb k' key) eqn:Hk; simpl.
    + apply String.eqb_eq in Hk. subst k'.
      destruct (String.eqb key k); reflexivity.
    + rewrite IH. destruct (String.eqb k' k), (String.eqb key k); reflexivity.
Qed.

Lemma dict_get_set_same (d : dict) (key : string) (v : value) :
  dict_getitem (dict_set d key v) key = Returns v.
Proof.
  induction d as [| [k' w] d IH]; simpl.
  - rewrite String.eqb_refl. reflexivity.
  - destruct (String.eqb k' key) eqn:Hk; simpl; rewrite Hk; [reflexivity | exact IH].
Qed.

Lemma dict_get_set_other (d : dict) (key k : string) (v : value) :
  key <> k -> dict_getitem (dict_set d key v) k = dict_getitem d k.
Proof.
  intros Hne. induction d as [| [k' w] d IH]; simpl.
  - apply String.eqb_neq in Hne. rewrite Hne. reflexivity.
  - destruct (String.eqb k' key) eqn:Hk; simpl.
    + apply String.eqb_eq in Hk. subst k'.
      apply String.eqb_neq in Hne. rewrite Hne. reflexivity.
    + rewrite IH. reflexivity.
Qed.

Lemma fold_set_contains (items : list (string * value)) : forall (d : dict) (k : string),
  dict_contains k (fold_left (fun d kv => dict_set d (fst kv) (snd kv)) items d) = true
  <-> In k (map fst items) \/ dict_contains k d = true.
Proof.
  induction items as [| [key v] items IH]; intros d k; simpl.
  - tauto.
  - rewrite IH, dict_contains_set, orb_true_iff, String.eqb_eq. tauto.
Qed.

Lemma fold_set_get_other (items : list (string * value)) : forall (d : dict) (k : string),
  ~ In k (map fst items) ->
  dict_getitem (fold_left (fun d kv => dict_set d (fst kv) (snd kv)) items d) k
  = dict_getitem d k.
Proof.
  induction items as [| [key v] items IH]; intros d k Hnot; simpl; [reflexivity |].
  rewrite IH by (intros H; apply Hnot; right; exact H).
  apply dict_get_set_other. intros ->. apply Hnot. left. reflexivity.
Qed.

Lemma row_items_keys (cols : list string) : forall row,
  map fst (row_items cols row) = cols.
Proof.
  induction cols as [| c cs IH]; intros row; simpl; [reflexivity |].
  rewrite IH. reflexivity.
Qed.

(** The dictionary of a row has exactly the columns as its keys. *)
Lemma to_dict_contains (cols : list string) (row : list value) (k : string) :
  dict_contains k (to_dict cols row) = true <-> In k cols.
Proof.
  unfold to_dict. rewrite fold_set_contains, row_items_keys. simpl.
  split; [intros [H | H]; [exact H | discriminate] | auto].
Qed.

Lemma cell_tl (i : nat) (row : list value) : cell i (tl row) = cell (S i) row.
Proof. unfold cell. destruct row; [destruct i |]; reflexivity. Qed.

Lemma fold_set_get_unique (cols : list string) : forall (row : list value) (d : dict)
    (k : string) (i : nat),
  NoDup cols ->
  column_index cols k = Some i ->
  dict_getitem (fold_left (fun d kv => dict_set d (fst kv) (snd kv))
                          (row_items cols row) d) k
  = Returns (cell i row).
Proof.
  induction cols as [| c cs IH]; intros row d k i Hnodup Hi; simpl in *; [discriminate |].
  inversion Hnodup as [| ? ? Hnotin Hnodup']; subst.
  destruct (String.eqb c k) eqn:Hck.
  - injection Hi as <-. apply String.eqb_eq in Hck. subst c.
    rewrite fold_set_get_other by (rewrite row_items_keys; exact Hnotin).
    rewrite dict_get_set_same. unfold cell. destruct row; reflexivity.
  - destruct (column_index cs k) as [j |] eqn:Hj; [| discriminate].
    injection Hi as <-. rewrite (IH (tl row) _ k j Hnodup' Hj). now rewrite cell_tl.
Qed.

(** With columns of distinct names, the dictionary of a row gives the cell
    of each column. *)
Lemma to_dict_getitem (cols : list string) (row : list value) (k : string) (i : nat) :
  NoDup cols ->
  column_index cols k = Some i ->
  dict_getitem (to_dict cols row) k = Returns (cell i row).
Proof. intros. now apply fold_set_get_unique. Qed.

Lemma column_index_in (cols : list string) (name : string) (i : nat) :
  column_index cols name = Some i -> In name cols.
Proof.
  revert i. induction cols as [| c cs IH]; intros i; simpl; [discriminate |].
  destruct (String.eqb c name) eqn:Hc.
  - apply String.eqb_eq in Hc. auto.
  - destruct (column_index cs name) as [j |]; [| discriminate]. intros _. right.
    now apply (IH j).
Qed.

Lemma last_snoc {A : Type} (l : list A) (x d : A) : last (l ++ [x]) d = x.
Proof. apply last_last. Qed.

Lemma nonempty_snoc {A : Type} (x : A) (l : list A) :
  exists front, x :: l = front ++ [last l x].
Proof.
  exists (removelast (x :: l)).
  rewrite <- (last_cons_default x l x).
  apply app_removelast_last. discriminate.
Qed.

Lemma find_common_type_object (types : list dtype) :
  In object_ types -> find_common_type types = object_.
Proof.
  destruct types as [| t ts]; [contradiction |]. intros Hin. unfold find_common_type.
  destruct (forallb (dtype_eqb t) ts) eqn:Hsame.
  - destruct Hin as [-> | Hin]; [reflexivity |].
    rewrite forallb_forall in Hsame. specialize (Hsame _ Hin).
    destruct t; try discriminate. reflexivity.
  - destruct (forallb is_numeric (t :: ts)) eqn:Hnum; [| reflexivity].
    rewrite forallb_forall in Hnum. specialize (Hnum _ Hin). discriminate.
Qed.

Lemma find_common_type_float (types : list dtype) :
  Forall (fun t => t = int64 \/ t = float64) types ->
  In float64 types ->
  find_common_type types = float64.
Proof.
  destruct types as [| t ts]; [contradiction |]. intros Hall Hin.
  unfold find_common_type.
  destruct (forallb (dtype_eqb t) ts) eqn:Hsame.
  - destruct Hin as [-> | Hin]; [reflexivity |].
    rewrite forallb_forall in Hsame. specialize (Hsame _ Hin).
    destruct t; try discriminate. reflexivity.
  - replace (forallb is_numeric (t :: ts)) with true; [reflexivity |].
    symmetry. apply forallb_forall. intros x Hx.
    rewrite Forall_forall in Hall. destruct (Hall x Hx) as [-> | ->]; reflexivity.
Qed.

Lemma find_common_type_bool (types : list dtype) :
  In bool_ types -> find_common_type types <> float64.
Proof.
  destruct types as [| t ts]; [contradiction |]. intros Hin. unfold find_common_type.
  destruct (forallb (dtype_eqb t) ts) eqn:Hsame.
  - destruct Hin as [-> | Hin]; [discriminate |].
    rewrite forallb_forall in Hsame. specialize (Hsame _ Hin).
    destruct t; discriminate.
  - destruct (forallb is_numeric (t :: ts)) eqn:Hnum; [| discriminate].
    rewrite forallb_forall in Hnum. specialize (Hnum _ Hin). discriminate.
Qed.

Lemma find_common_type_int (types : list dtype) :
  types <> [] -> Forall (fun t => t = int64) types -> find_common_type types = int64.
Proof.
  destruct types as [| t ts]; [contradiction |]. intros _ Hall.
  inversion Hall as [| ? ? Ht Hts]; subst. unfold find_common_type.
  replace (forallb (dtype_eqb int64) ts) with true; [reflexivity |].
  symmetry. apply forallb_forall. intros x Hx.
  rewrite Forall_forall in Hts. now rewrite (Hts x Hx).
Qed.

Lemma astype_not_float (t : dtype) (v : value) : t <> float64 -> astype t v = v.
Proof. intros Ht. destruct t, v; try reflexivity. contradiction. Qed.

Lemma astype_not_int (t : dtype) (v : value) :
  (forall z, v <> VInt z) -> astype t v = v.
Proof. intros Hv. destruct t, v; try reflexivity. destruct (Hv z eq_refl). Qed.

Lemma astype_object (v : value) : astype object_ v = v.
Proof. destruct v; reflexivity. Qed.

(** The cell of a column in the series of a row. *)
Lemma cell_row_series (df : DataFrame) (row : list value) (j : nat) :
  cell j (row_series df row) = astype (find_common_type (dtypes df)) (cell j row).
Proof.
  unfold cell, row_series.
  rewrite <- (map_nth (astype (find_common_type (dtypes df))) row VNaN j).
  assert (Hnan : astype (find_common_type (dtypes df)) VNaN = VNaN)
    by (destruct (find_common_type (dtypes df)); reflexivity).
  rewrite Hnan. reflexivity.
Qed.

(** The last row that names a folder is the last of the rows the mask
    selects. *)
Lemma last_matching_selected (i : nat) (df : DataFrame) (d : string)
    (row r : list value) (rs : list (list value)) :
  last_matching i df d row ->
  rows_of_checkpoint i df d = r :: rs ->
  last rs r = row.
Proof.
  intros (earlier & later & Hsplit & Hrow & Hlater) Hmatch.
  unfold rows_of_checkpoint in Hmatch. rewrite Hsplit, filter_app in Hmatch.
  cbn [filter] in Hmatch. rewrite Hrow in Hmatch.
  assert (Hnone : filter (fun row => py_eq_str (cell i row) d) later = []).
  { clear - Hlater. induction Hlater as [| x l Hx _ IH]; [reflexivity |].
    simpl. rewrite Hx. exact IH. }
  rewrite Hnone in Hmatch.
  rewrite <- (last_cons_default r rs r), <- Hmatch. apply last_last.
Qed.

(** ** Checkpoints and their metrics *)

Section Records.
Context {C : Collaborators}.
Variables (path : string) (storage_filesystem : option FileSystem).
Variables (fs : FileSystem) (fs_path : string).
Variables (metrics_df : DataFrame) (items : list FileInfo) (err : option exn).

Hypothesis resolved : get_fs_and_path path storage_filesystem = inr (fs, fs_path).
Hypothesis folder_exists : exists_at fs fs_path = true.
Hypothesis log_read : outcome_of (restore_metrics fs fs_path) = Returns metrics_df.
Hypothesis listed : get_file_info fs fs_path = inr items.

Lemma scan_nonempty :
  filter is_checkpoint_dir items <> [] ->
  exists d dirs, scan_checkpoint_dirs items = d :: dirs.
Proof.
  intros Hne. pose proof (scan_checkpoint_dirs_length items) as Hlen.
  destruct (scan_checkpoint_dirs items) as [| d dirs]; [| eauto].
  destruct (filter is_checkpoint_dir items); [contradiction | discriminate].
Qed.

(** C5 fails on the code in this case: with at least one checkpoint folder
    and a table that has no correlation column, the lookup of the column
    raises [KeyError] and the restoration yields no result. *)
Theorem from_path_missing_correlation_column_C5 :
  filter is_checkpoint_dir items <> [] ->
  column_index (columns metrics_df) CHECKPOINT_DIR_NAME = None ->
  outcome_of (from_path path storage_filesystem)
  = Raises (KeyError CHECKPOINT_DIR_NAME).
Proof.
  intros Hne Hcol.
  destruct (scan_nonempty Hne) as (d & dirs & Hscan).
  rewrite (from_path_outcome _ _ _ _ resolved folder_exists), log_read, listed, Hscan.
  rewrite (restore_checkpoints_no_column fs fs_path metrics_df d dirs Hcol).
  reflexivity.
Qed.

Hypothesis error_read : outcome_of (restore_error fs fs_path) = Returns err.

Lemma from_path_without_checkpoints :
  filter is_checkpoint_dir items = [] ->
  outcome_of (from_path path storage_filesystem)
  = Returns (assembled path fs fs_path metrics_df None None err).
Proof.
  intros Hnone.
  rewrite (from_path_outcome _ _ _ _ resolved folder_exists), log_read, listed.
  unfold scan_checkpoint_dirs. rewrite Hnone. simpl. rewrite error_read. reflexivity.
Qed.

Lemma from_path_with_checkpoints (i : nat) (d : string) (dirs : list string) :
  column_index (columns metrics_df) CHECKPOINT_DIR_NAME = Some i ->
  scan_checkpoint_dirs items = d :: dirs ->
  outcome_of (from_path path storage_filesystem)
  = Returns (assembled path fs fs_path metrics_df
               (Some (map (fun x => (checkpoint_at fs fs_path x,
                                     snapshot_of i metrics_df x)) (d :: dirs)))
               (Some (checkpoint_at fs fs_path (last dirs d))) err).
Proof.
  intros Hcol Hscan.
  rewrite (from_path_outcome _ _ _ _ resolved folder_exists), log_read, listed, Hscan.
  rewrite (restore_checkpoints_column fs fs_path metrics_df i d dirs Hcol).
  cbn [outcome_of snd]. rewrite error_read. reflexivity.
Qed.

(** C2, as the code has it.  With a log that was read and an error file
    that is absent or was read: when no folder of the listing is a
    checkpoint folder, the result has no list of checkpoints and no
    checkpoint; when there are N >= 1 of them and the table has the
    correlation column, the result has exactly N records, one for each
    folder in ascending order of the names (which is ascending order of
    the index when all names have one width), and a folder that no row
    names has a record with an empty dictionary. *)
Theorem from_path_checkpoint_records_C2 :
  (filter is_checkpoint_dir items = [] ->
     exists r, outcome_of (from_path path storage_filesystem) = Returns r
               /\ best_checkpoints r = None /\ checkpoint r = None)
  /\ (filter is_checkpoint_dir items <> [] ->
      forall i, column_index (columns metrics_df) CHECKPOINT_DIR_NAME = Some i ->
      exists r records,
        outcome_of (from_path path storage_filesystem) = Returns r
        /\ best_checkpoints r = Some records
        /\ List.length records = List.length (filter is_checkpoint_dir items)
        /\ map fst records
           = map (checkpoint_at fs fs_path) (scan_checkpoint_dirs items)
        /\ StronglySorted lex_le (scan_checkpoint_dirs items)
        /\ (forall width,
               Forall (fun name => matches_convention width name = true)
                      (scan_checkpoint_dirs items) ->
               StronglySorted index_le (scan_checkpoint_dirs items))
        /\ (forall k d,
               nth_error (scan_checkpoint_dirs items) k = Some d ->
               rows_of_checkpoint i metrics_df d = [] ->
               nth_error records k = Some (checkpoint_at fs fs_path d, []))).
Proof.
  split.
  - intros Hnone. eexists. split; [apply (from_path_without_checkpoints Hnone) |].
    split; reflexivity.
  - intros Hne i Hcol.
    destruct (scan_nonempty Hne) as (d & dirs & Hscan).
    eexists. eexists.
    split; [apply (from_path_with_checkpoints i d dirs Hcol Hscan) |].
    split; [reflexivity |].
    rewrite <- Hscan.
    split; [rewrite length_map; apply scan_checkpoint_dirs_length |].
    split; [rewrite map_map; reflexivity |].
    split; [apply (scan_checkpoint_dirs_sorted items) |].
    split; [intros width Hall; apply (fixed_width_sorted width _ Hall);
            apply (scan_checkpoint_dirs_sorted items) |].
    intros k x Hk Hrows. rewrite nth_error_map, Hk. simpl.
    unfold snapshot_of. rewrite Hrows. reflexivity.
Qed.

(** C4: when one or more rows of the table name a checkpoint folder of the
    listing in the correlation column, the restoration returns, and the
    record of that folder, at the folder's position, carries the snapshot
    of the last such row: the keys of the snapshot are the columns of the
    table and, the columns having distinct names, it holds the name of the
    folder under the correlation key and, under every column, the cell of
    the last row that names the folder (as it is when the cell is not an
    integer, when the table has a column of objects or of booleans, or
    when all its columns are of integers; an integer of a table of
    integers and floats is held as the nearest float). *)
Theorem from_path_last_matching_snapshot_C4 (i : nat) (d : string) :
  column_index (columns metrics_df) CHECKPOINT_DIR_NAME = Some i ->
  In d (scan_checkpoint_dirs items) ->
  rows_of_checkpoint i metrics_df d <> [] ->
  exists r records snapshot,
    outcome_of (from_path path storage_filesystem) = Returns r
    /\ best_checkpoints r = Some records
    /\ In (checkpoint_at fs fs_path d, snapshot) records
    /\ (forall k, nth_error (scan_checkpoint_dirs items) k = Some d ->
           nth_error records k = Some (checkpoint_at fs fs_path d, snapshot))
    /\ (exists row, last_matching i metrics_df d row)
    /\ (forall key, dict_contains key snapshot = true <-> In key (columns metrics_df))
    /\ forall row,
         last_matching i metrics_df d row ->
         NoDup (columns metrics_df) ->
         dict_getitem snapshot CHECKPOINT_DIR_NAME = Returns (VStr d)
         /\ forall key j,
              column_index (columns metrics_df) key = Some j ->
              ((forall z, cell j row <> VInt z)
               \/ In object_ (dtypes metrics_df) \/ In bool_ (dtypes metrics_df)
               \/ (dtypes metrics_df <> []
                   /\ Forall (fun t => t = int64) (dtypes metrics_df)) ->
               dict_getitem snapshot key = Returns (cell j row))
              /\ (Forall (fun t => t = int64 \/ t = float64) (dtypes metrics_df) ->
                  In float64 (dtypes metrics_df) ->
                  forall z, cell j row = VInt z ->
                            dict_getitem snapshot key
                            = Returns (VFloat (float64_of_int z))).
Proof.
  intros Hcol Hin Hrows.
  destruct (scan_checkpoint_dirs items) as [| d0 dirs] eqn:Hscan; [contradiction |].
  destruct (rows_of_checkpoint i metrics_df d) as [| row0 more] eqn:Hmatch;
    [contradiction |].
  destruct (filter_last_matching _ _ _ _ Hmatch)
    as (earlier & later & Hsplit & Hlast & Hlater).
  assert (Hsnap : snapshot_of i metrics_df d
                  = to_dict (columns metrics_df)
                            (row_series metrics_df (last more row0)))
    by (unfold snapshot_of; rewrite Hmatch; reflexivity).
  eexists. eexists. exists (snapshot_of i metrics_df d).
  split; [apply (from_path_with_checkpoints i d0 dirs Hcol Hscan) |].
  split; [reflexivity |].
  split; [apply in_map_iff; exists d; split; [reflexivity | exact Hin] |].
  split; [intros k Hk; rewrite nth_error_map, Hk; reflexivity |].
  split; [exists (last more row0), earlier, later; auto |].
  split; [intros key; rewrite Hsnap; apply to_dict_contains |].
  intros row Hrow Hnodup.
  rewrite (last_matching_selected i metrics_df d row row0 more Hrow Hmatch) in Hsnap.
  assert (Hvalue : forall key j,
             column_index (columns metrics_df) key = Some j ->
             dict_getitem (snapshot_of i metrics_df d) key
             = Returns (astype (find_common_type (dtypes metrics_df)) (cell j row))).
  { intros key j Hj. rewrite Hsnap, (to_dict_getitem _ _ key j Hnodup Hj).
    now rewrite cell_row_series. }
  assert (Hname : cell i row = VStr d).
  { destruct Hrow as (_ & _ & _ & Hnamed & _). unfold py_eq_str in Hnamed.
    destruct (cell i row); try discriminate.
    apply String.eqb_eq in Hnamed. now subst. }
  split.
  - rewrite (Hvalue _ i Hcol), Hname. f_equal. apply astype_not_int. discriminate.
  - intros key j Hj. rewrite (Hvalue key j Hj). split.
    + intros [Hnot | [Hobject | [Hbool | [Hsome Hints]]]]; f_equal.
      * now apply astype_not_int.
      * rewrite (find_common_type_object _ Hobject). apply astype_object.
      * apply astype_not_float, find_common_type_bool, Hbool.
      * rewrite (find_common_type_int _ Hsome Hints). now destruct (cell j row).
    + intros Hnumeric Hfloat z Hz.
      rewrite (find_common_type_float _ Hnumeric Hfloat), Hz. reflexivity.
Qed.
End Records.

(** ** The statements on the concrete trial *)

Section OnTheDemoTrial.
Import Demo.

(** The scenario of the test: five reports, checkpoints for the last three.
    The best checkpoint for [metric_a] is the last one, for [metric_b] the
    first one. *)
Example restore_then_select :
  outcome_of (restore "/trial" (Some trial)) = Returns (restored trial history)
  /\ best (restored trial history) "metric_a" "max"
     = Returns (checkpoint_at trial "/trial" "checkpoint_000004")
  /\ best (restored trial history) "metric_b" "max"
     = Returns (checkpoint_at trial "/trial" "checkpoint_000002").
Proof. repeat split; vm_compute; reflexivity. Qed.

(** Without [result.json] the same checkpoints are found from
    [progress.csv]. *)
Example restore_from_fallback :
  outcome_of (restore "/trial" (Some trial_csv_only))
  = Returns (restored trial_csv_only progress)
  /\ best (restored trial_csv_only progress) "metric_a" "max"
     = Returns (checkpoint_at trial_csv_only "/trial" "checkpoint_000004")
  /\ best (restored trial_csv_only progress) "metric_b" "max"
     = Returns (checkpoint_at trial_csv_only "/trial" "checkpoint_000002").
Proof. repeat split; vm_compute; reflexivity. Qed.

(** An empty log decodes to a table without columns, and the lookup of the
    correlation column raises as soon as there is a checkpoint folder. *)
Example restore_with_empty_log :
  outcome_of (restore "/trial" (Some trial_with_empty_log))
  = Raises (KeyError "checkpoint_dir_name").
Proof. vm_compute. reflexivity. Qed.

(** The order of the records is the order of the names: an index that is
    not padded to the width of the others is out of place. *)
Example scan_orders_by_name :
  scan_checkpoint_dirs [dir "checkpoint_9"; dir "checkpoint_10"]
  = ["checkpoint_10"; "checkpoint_9"]
  /\ checkpoint_index "checkpoint_10" = 10%N
  /\ checkpoint_index "checkpoint_9" = 9%N.
Proof. repeat split; vm_compute; reflexivity. Qed.

(** Of two checkpoints with the same best value, the earlier one is
    returned. *)
Example ties_go_to_the_first :
  best tied "m" "max" = Returns (ckpt "c1")
  /\ best tied "m" "min" = Returns (ckpt "c0").
Proof. split; vm_compute; reflexivity. Qed.

(** A NaN under the metric is a candidate like any other, and since no
    number compares greater than NaN the first record keeps its place. *)
Example nan_is_kept :
  best with_nan "m" "max" = Returns (ckpt "c0")
  /\ best with_nan "m" "min" = Returns (ckpt "c0").
Proof. split; vm_compute; reflexivity. Qed.

(** The floats of integers: exact up to 53 bits, rounded to the even
    mantissa beyond. *)
Example floats_of_integers :
  float64_of_int 2 = (2 # 1)%Q
  /\ float64_of_int (-3) = (-3 # 1)%Q
  /\ float64_of_int 0 = (0 # 1)%Q
  /\ float64_of_int (2 ^ 53 + 1) = inject_Z (2 ^ 53)
  /\ float64_of_int (2 ^ 53 + 3) = inject_Z (2 ^ 53 + 4)
  /\ float64_of_int (- (2 ^ 63)) = inject_Z (- (2 ^ 63)).
Proof. repeat split; vm_compute; reflexivity. Qed.

(** *** Selection *)

Lemma get_best_checkpoint_first_extremal_C1_witness :
  selects_first_extremal (C := collaborators) tied "m" "max".
Proof.
  apply get_best_checkpoint_first_extremal_C1.
  - left. reflexivity.
  - vm_compute. discriminate.
  - left. vm_compute. repeat constructor.
Defined.

(** C1 as stated fails: with a text and a number under the metric the
    comparison of the two values raises, and no checkpoint is returned. *)
Lemma get_best_checkpoint_mixed_values_C1 :
  candidates mixed "m" <> []
  /\ best mixed "m" "max" = Raises TypeError
  /\ ~ selects_first_extremal (C := collaborators) mixed "m" "max".
Proof.
  assert (E : best mixed "m" "max" = Raises TypeError) by (vm_compute; reflexivity).
  split; [vm_compute; discriminate |]. split; [exact E |].
  intros (before & record & after & _ & H & _).
  unfold best in E. rewrite E in H. discriminate.
Qed.

Lemma get_best_checkpoint_unknown_metric_C8_witness :
  best tied "loss" "min"
  = Raises (RuntimeError
              (invalid_metric_msg "loss" (repr_dict_keys (C := collaborators)
                                                         ["metric_a"]))).
Proof.
  refine (proj1 (get_best_checkpoint_unknown_metric_C8 (C := collaborators)
                   tied "loss" "min" _ [("metric_a", VInt 4)]
                   eq_refl _ _ _ eq_refl)).
  - discriminate.
  - right. reflexivity.
  - vm_compute. repeat constructor.
Defined.

(** *** The scan *)

(** C3 as stated fails: a folder whose name has the prefix and then no
    digits is kept by the scan, whatever the width of the convention. *)
Lemma scan_keeps_unindexed_folder_C3 :
  In "checkpoint_tmp" (scan_checkpoint_dirs [dir "checkpoint_tmp"])
  /\ forall width, matches_convention width "checkpoint_tmp" = false.
Proof.
  split; [left; reflexivity |].
  intros width. unfold matches_convention.
  replace (all_digits (index_text "checkpoint_tmp")) with false
    by (vm_compute; reflexivity).
  apply andb_false_r.
Qed.

(** *** Restoration *)

Lemma from_path_checkpoint_records_C2_witness :
  exists r records,
    outcome_of (restore "/trial" (Some trial)) = Returns r
    /\ best_checkpoints r = Some records
    /\ List.length records = 3%nat.
Proof.
  destruct (from_path_checkpoint_records_C2 (C := collaborators)
              "/trial" (Some trial) trial "/trial" history checkpoint_items
              (Some (RuntimeError "")))
    as [_ H]; try (vm_compute; reflexivity).
  destruct (H ltac:(vm_compute; discriminate) 3%nat ltac:(vm_compute; reflexivity))
    as (r & records & Hr & Hrecords & Hlen & _).
  exists r, records. auto.
Defined.

(** C2 as stated fails.  For N = 0, a trial without checkpoint folders is
    restored to a result that has no list of checkpoints at all.  And the
    records follow the order of the names, not of the indices: past a
    million checkpoints the folder with the larger index comes first. *)
Lemma from_path_no_list_and_name_order_C2 :
  (filter is_checkpoint_dir [file "result.json"] = []
   /\ outcome_of (restore "/trial" (Some trial_without_checkpoints))
      = Returns (assembled "/trial" trial_without_checkpoints "/trial" history
                           None None None)
   /\ ~ exists r records,
         outcome_of (restore "/trial" (Some trial_without_checkpoints)) = Returns r
         /\ best_checkpoints r = Some records
         /\ List.length records = 0%nat)
  /\ (outcome_of (restore "/trial" (Some trial_past_a_million))
      = Returns (assembled "/trial" trial_past_a_million "/trial" history
                   (Some [(checkpoint_at trial_past_a_million "/trial"
                                         "checkpoint_1000000", []);
                          (checkpoint_at trial_past_a_million "/trial"
                                         "checkpoint_999999", [])])
                   (Some (checkpoint_at trial_past_a_million "/trial"
                                        "checkpoint_999999"))
                   None)
      /\ checkpoint_index "checkpoint_1000000" = 1000000%N
      /\ checkpoint_index "checkpoint_999999" = 999999%N).
Proof.
  assert (E : outcome_of (restore "/trial" (Some trial_without_checkpoints))
              = Returns (assembled "/trial" trial_without_checkpoints "/trial"
                                   history None None None))
    by (vm_compute; reflexivity).
  split.
  - split; [reflexivity |]. split; [exact E |].
    intros (r & records & Hr & Hrecords & _).
    rewrite E in Hr. injection Hr as Hr. subst r. discriminate.
  - repeat split; vm_compute; reflexivity.
Qed.

Lemma from_path_last_matching_snapshot_C4_witness :
  exists r records snapshot,
    outcome_of (restore "/trial" (Some trial_reported_twice)) = Returns r
    /\ best_checkpoints r = Some records
    /\ nth_error records 1
       = Some (checkpoint_at trial_reported_twice "/trial" "checkpoint_000003",
               snapshot)
    /\ dict_getitem snapshot "checkpoint_dir_name"
       = Returns (VStr "checkpoint_000003")
    /\ dict_getitem snapshot "training_iteration" = Returns (VInt 5)
    /\ dict_getitem snapshot "metric_a" = Returns (VInt 30)
    /\ dict_getitem snapshot "metric_b" = Returns (VInt (-30)).
Proof.
  destruct (from_path_last_matching_snapshot_C4 (C := collaborators)
              "/trial" (Some trial_reported_twice) trial_reported_twice "/trial"
              history_twice checkpoint_items None
              ltac:(vm_compute; reflexivity) ltac:(vm_compute; reflexivity)
              ltac:(vm_compute; reflexivity) ltac:(vm_compute; reflexivity)
              ltac:(vm_compute; reflexivity)
              3%nat "checkpoint_000003"
              ltac:(vm_compute; reflexivity)
              ltac:(vm_compute; auto)
              ltac:(vm_compute; discriminate))
    as (r & records & snapshot & Hr & Hrecords & _ & Hnth & _ & _ & Hrow).
  destruct (Hrow [VInt 5; VInt 30; VInt (-30); VStr "checkpoint_000003"])
    as [Hname Hcells].
  { exists (firstn 4 (rows history_twice)), (skipn 5 (rows history_twice)).
    split; [vm_compute; reflexivity |]. split; [reflexivity |].
    vm_compute. repeat constructor. }
  { vm_compute. repeat constructor; simpl; intuition discriminate. }
  assert (Hobject : In object_ (dtypes history_twice)) by (vm_compute; auto).
  exists r, records, snapshot. split; [exact Hr |]. split; [exact Hrecords |].
  split; [apply Hnth; vm_compute; reflexivity |].
  split; [exact Hname |].
  split; [exact (proj1 (Hcells "training_iteration" 0%nat eq_refl)
                       (or_intror (or_introl Hobject))) |].
  split; [exact (proj1 (Hcells "metric_a" 1%nat eq_refl)
                       (or_intror (or_introl Hobject))) |].
  exact (proj1 (Hcells "metric_b" 2%nat eq_refl) (or_intror (or_introl Hobject))).
Defined.

Lemma from_path_missing_correlation_column_C5_witness :
  outcome_of (restore "/trial" (Some trial_without_correlation))
  = Raises (KeyError "checkpoint_dir_name").
Proof.
  apply (from_path_missing_correlation_column_C5 (C := collaborators)
           "/trial" (Some trial_without_correlation) trial_without_correlation
           "/trial" losses [file "result.json"; dir "checkpoint_000000"]);
    try (vm_compute; reflexivity).
  vm_compute. discriminate.
Defined.

Lemma from_path_consults_one_log_C6_witness :
  In (EvOpen "/trial/result.json") (trace_of (restore "/trial" (Some trial)))
  /\ ~ In (EvOpen "/trial/progress.csv") (trace_of (restore "/trial" (Some trial))).
Proof.
  refine (proj1 (from_path_consults_one_log_C6 (C := collaborators)
                   "/trial" (Some trial) trial "/trial" eq_refl eq_refl _ _ _)
                eq_refl);
    vm_compute; discriminate.
Defined.

Lemma from_path_all_or_nothing_C9_witness :
  restore "/nowhere" (Some trial)
  = ([EvExists "/nowhere"], Raises (RuntimeError "Trial folder /nowhere doesn't exist!"))
  /\ exists e, outcome_of (restore "/trial" (Some trial_without_log)) = Raises e.
Proof.
  split.
  - exact (proj1 (from_path_all_or_nothing_C9 (C := collaborators)
                    "/nowhere" (Some trial)) trial "/nowhere" eq_refl eq_refl).
  - refine (proj1 (proj2 (from_path_all_or_nothing_C9 (C := collaborators)
                            "/trial" (Some trial_without_log)))
                  trial_without_log "/trial" eq_refl _).
    right. left. split; reflexivity.
Defined.
End OnTheDemoTrial.

(** * Further properties of the module *)

(** ** What [max] and [min] can return and raise *)

Lemma min_max_loop_returns {A : Type} (better : value -> value -> outcome bool)
    (key : A -> outcome value) (rest : list A) : forall best bestval x,
  min_max_loop better key best bestval rest = Returns x -> x = best \/ In x rest.
Proof.
  induction rest as [| item rest IH]; intros best bestval x H; simpl in H.
  - injection H as H. auto.
  - destruct (key item) as [val | e]; simpl in H; [| discriminate].
    destruct (better val bestval) as [[|] | e]; simpl in H; [| | discriminate];
      apply IH in H; simpl; destruct H as [H | H]; subst; auto.
Qed.

Lemma min_max_returns {A : Type} (better : value -> value -> outcome bool)
    (key : A -> outcome value) (items : list A) (x : A) :
  min_max better key items = Returns x -> In x items.
Proof.
  destruct items as [| item rest]; simpl; [discriminate |].
  destruct (key item) as [val | e]; simpl; [| discriminate].
  intros H. apply min_max_loop_returns in H. simpl.
  destruct H as [H | H]; subst; auto.
Qed.

Lemma min_max_loop_raises {A : Type} (better : value -> value -> outcome bool)
    (key : A -> outcome value) (rest : list A) : forall best bestval e,
  min_max_loop better key best bestval rest = Raises e ->
  (exists x, In x rest /\ key x = Raises e)
  \/ (exists v w, better v w = Raises e).
Proof.
  induction rest as [| item rest IH]; intros best bestval e H; simpl in H;
    [discriminate |].
  destruct (key item) as [val | e'] eqn:Hkey; simpl in H.
  - destruct (better val bestval) as [[|] | e'] eqn:Hb; simpl in H.
    + apply IH in H. destruct H as [(x & Hx & Hk) | H]; [left | right; exact H].
      exists x. simpl. auto.
    + apply IH in H. destruct H as [(x & Hx & Hk) | H]; [left | right; exact H].
      exists x. simpl. auto.
    + injection H as H. subst e'. right. eauto.
  - injection H as H. subst e'. left. exists item. simpl. auto.
Qed.

Lemma min_max_raises {A : Type} (better : value -> value -> outcome bool)
    (key : A -> outcome value) (items : list A) (e : exn) :
  items <> [] ->
  min_max better key items = Raises e ->
  (exists x, In x items /\ key x = Raises e)
  \/ (exists v w, better v w = Raises e).
Proof.
  destruct items as [| item rest]; [contradiction |]. intros _. simpl.
  destruct (key item) as [val | e'] eqn:Hkey; simpl.
  - intros H. apply min_max_loop_raises in H.
    destruct H as [(x & Hx & Hk) | H]; [left | right; exact H].
    exists x. simpl. auto.
  - intros H. injection H as H. subst e'. left. exists item. simpl. auto.
Qed.

Lemma py_lt_raises (a b : value) (e : exn) : py_lt a b = Raises e -> e = TypeError.
Proof.
  unfold py_lt. destruct a, b; simpl; try discriminate;
    try (intros H; injection H as H; auto).
Qed.

Section SelectionOutcomes.
Context {C : Collaborators}.

(** Among candidates, the choice can only fail in a comparison. *)
Lemma selector_raises (self : Result) (metric mode : string) (e : exn) :
  candidates self metric <> [] ->
  selector mode (fun x => dict_getitem (snd x) metric) (candidates self metric)
  = Raises e ->
  e = TypeError.
Proof.
  intros Hne H. unfold selector in H.
  assert (Hkey : forall x, In x (candidates self metric) ->
                   dict_getitem (snd x) metric <> Raises e).
  { intros x Hx. rewrite (dict_getitem_contains _ _ (candidates_contain self _ _ Hx)).
    discriminate. }
  destruct (String.eqb mode "max");
    apply (min_max_raises _ _ _ _ Hne) in H;
    destruct H as [(x & Hx & Hk) | (v & w & Hb)];
    try (exfalso; exact (Hkey x Hx Hk));
    unfold py_gt in *; eapply py_lt_raises; eassumption.
Qed.

Lemma selector_returns (self : Result) (metric mode : string) (x : Checkpoint * dict) :
  selector mode (fun x => dict_getitem (snd x) metric) (candidates self metric)
  = Returns x ->
  In x (candidates self metric).
Proof.
  unfold selector. destruct (String.eqb mode "max"); apply min_max_returns.
Qed.

Lemma mode_checked (mode : string) :
  existsb (String.eqb mode) ["max"; "min"] = true <-> mode = "max" \/ mode = "min".
Proof.
  simpl. rewrite !orb_true_iff, !String.eqb_eq. intuition discriminate.
Qed.

(** The three stages of a call: the checkpoints, the mode, the candidates. *)
Lemma get_best_checkpoint_stages (self : Result) (metric mode : string) :
  get_best_checkpoint self metric mode =
  if negb (truthy (best_checkpoints self)) then Raises (RuntimeError no_checkpoint_msg)
  else if negb (existsb (String.eqb mode) ["max"; "min"])
       then Raises (ValueError (unsupported_mode_msg mode))
  else match candidates self metric with
       | [] =>
           match metrics self with
           | None => Raises AttributeError
           | Some latest =>
               Raises (RuntimeError
                         (invalid_metric_msg metric (repr_dict_keys (dict_keys latest))))
           end
       | _ :: _ =>
           match selector mode (fun x => dict_getitem (snd x) metric)
                          (candidates self metric) with
           | Returns best => Returns (fst best)
           | Raises e => Raises e
           end
       end.
Proof.
  unfold get_best_checkpoint, candidates, selector, metrics_method.
  destruct (negb (truthy (best_checkpoints self))); [reflexivity |].
  destruct (negb (existsb (String.eqb mode) ["max"; "min"])); [reflexivity |].
  destruct (filter _ _); [| reflexivity].
  destruct (metrics self); reflexivity.
Qed.
End SelectionOutcomes.

(** ** [get_best_checkpoint]: what it returns, what it raises *)

Section SelectionFurther.
Context {C : Collaborators}.

(** X1: a call that returns was given the mode [max] or [min], and the
    checkpoint it returns belongs to a record of the result whose dictionary
    contains the metric. *)
Theorem get_best_checkpoint_returns_candidate_X1
    (self : Result) (metric mode : string) (c : Checkpoint) :
  get_best_checkpoint self metric mode = Returns c ->
  (mode = "max" \/ mode = "min")
  /\ exists records d,
       best_checkpoints self = Some records
       /\ In (c, d) records
       /\ dict_contains metric d = true.
Proof.
  rewrite get_best_checkpoint_stages.
  destruct (truthy (best_checkpoints self)) eqn:Htruthy;
    cbn [negb]; cbv iota; [| discriminate].
  destruct (existsb (String.eqb mode) ["max"; "min"]) eqn:Hmode;
    cbn [negb]; cbv iota; [| discriminate].
  apply mode_checked in Hmode. intros H. split; [exact Hmode |].
  destruct (candidates self metric) as [| r l] eqn:Hcand.
  { destruct (metrics self); discriminate. }
  rewrite <- Hcand in H.
  destruct (selector mode _ (candidates self metric)) as [[c' d] | e] eqn:Hsel;
    [| discriminate].
  injection H as H. simpl in H. subst c'.
  apply selector_returns in Hsel. unfold candidates in Hsel.
  apply filter_In in Hsel. destruct Hsel as [Hin Hcontains].
  destruct (best_checkpoints self) as [records |]; [| contradiction].
  exists records, d. auto.
Qed.

(** X2: the exceptions of a call.  It raises the [RuntimeError] for a result
    without checkpoints, the [ValueError] for the mode, the [RuntimeError]
    that lists the keys of the metrics, an [AttributeError] (only when the
    metrics are [None]) or a [TypeError] of a comparison; the look-up of the
    metric in a dictionary never raises [KeyError]. *)
Theorem get_best_checkpoint_exceptions_X2
    (self : Result) (metric mode : string) (e : exn) :
  get_best_checkpoint self metric mode = Raises e ->
  e = RuntimeError no_checkpoint_msg
  \/ e = ValueError (unsupported_mode_msg mode)
  \/ (exists latest,
         metrics self = Some latest
         /\ e = RuntimeError (invalid_metric_msg metric
                                (repr_dict_keys (dict_keys latest))))
  \/ (e = AttributeError /\ metrics self = None)
  \/ e = TypeError.
Proof.
  rewrite get_best_checkpoint_stages.
  destruct (negb (truthy (best_checkpoints self)));
    [intros H; injection H as H; auto |].
  destruct (negb (existsb (String.eqb mode) ["max"; "min"]));
    [intros H; injection H as H; auto |].
  destruct (candidates self metric) as [| r l] eqn:Hcand.
  - destruct (metrics self) as [latest |]; intros H; injection H as H; subst e.
    + right. right. left. eauto.
    + right. right. right. left. auto.
  - rewrite <- Hcand.
    destruct (selector mode _ (candidates self metric)) as [best | e'] eqn:Hsel;
      [discriminate |].
    intros H. injection H as H. subst e'.
    apply selector_raises in Hsel; [auto 6 | rewrite Hcand; discriminate].
Qed.

Lemma messages_differ (metric keys : string) :
  invalid_metric_msg metric keys <> no_checkpoint_msg.
Proof. unfold invalid_metric_msg, no_checkpoint_msg. simpl. discriminate. Qed.

(** The error for missing checkpoints is raised at the first stage only. *)
Lemma no_checkpoint_error_stage (self : Result) (metric mode : string) :
  get_best_checkpoint self metric mode = Raises (RuntimeError no_checkpoint_msg) ->
  best_checkpoints self = None \/ best_checkpoints self = Some [].
Proof.
  rewrite get_best_checkpoint_stages.
  destruct (best_checkpoints self) as [[| r l] |] eqn:Hrecords; auto.
  cbn [truthy negb]. cbv iota.
  destruct (negb (existsb (String.eqb mode) ["max"; "min"]));
    [discriminate |].
  destruct (candidates self metric) as [| r' l'] eqn:Hcand.
  - destruct (metrics self); [| discriminate].
    intros H. exfalso.
    apply (messages_differ metric (repr_dict_keys (dict_keys d))).
    exact (f_equal (fun o : outcome Checkpoint =>
                      match o with
                      | Raises (RuntimeError msg) => msg
                      | _ => ""
                      end) H).
  - rewrite <- Hcand.
    destruct (selector mode _ (candidates self metric)) as [best | e] eqn:Hsel;
      [discriminate |].
    apply selector_raises in Hsel; [| rewrite Hcand; discriminate].
    subst e. discriminate.
Qed.

(** X3: a call raises the [RuntimeError] for missing checkpoints exactly when
    the list of checkpoints is [None] or empty, whatever the metric and the
    mode, an unsupported mode included. *)
Theorem get_best_checkpoint_no_checkpoints_X3
    (self : Result) (metric mode : string) :
  get_best_checkpoint self metric mode = Raises (RuntimeError no_checkpoint_msg)
  <-> (best_checkpoints self = None \/ best_checkpoints self = Some []).
Proof.
  split; [apply no_checkpoint_error_stage |].
  unfold get_best_checkpoint. intros [H | H]; rewrite H; reflexivity.
Qed.

(** X4: a call raises the [ValueError] for the mode exactly when the result
    has a checkpoint and the mode is neither [max] nor [min]; the metric is
    not looked at. *)
Theorem get_best_checkpoint_unsupported_mode_X4
    (self : Result) (metric mode : string) :
  get_best_checkpoint self metric mode = Raises (ValueError (unsupported_mode_msg mode))
  <-> (truthy (best_checkpoints self) = true /\ mode <> "max" /\ mode <> "min").
Proof.
  rewrite get_best_checkpoint_stages. split.
  - destruct (truthy (best_checkpoints self)); cbn [negb]; cbv iota; [| discriminate].
    destruct (existsb (String.eqb mode) ["max"; "min"]) eqn:Hmode; cbn [negb]; cbv iota.
    + destruct (candidates self metric) as [| r' l'] eqn:Hcand.
      * destruct (metrics self); discriminate.
      * rewrite <- Hcand.
        destruct (selector mode _ (candidates self metric)) as [best | e] eqn:Hsel;
          [discriminate |].
        apply selector_raises in Hsel; [| rewrite Hcand; discriminate].
        subst e. discriminate.
    + intros _. split; [reflexivity |].
      split; intros ->; discriminate.
  - intros (Htruthy & Hmax & Hmin). rewrite Htruthy. simpl.
    apply String.eqb_neq in Hmax, Hmin. rewrite Hmax, Hmin. reflexivity.
Qed.

(** X5: when exactly one record contains the metric, its checkpoint is
    returned for both modes, whatever the value under the metric is: nothing
    is compared. *)
Theorem get_best_checkpoint_single_candidate_X5
    (self : Result) (metric mode : string) (r : Checkpoint * dict) :
  mode = "max" \/ mode = "min" ->
  candidates self metric = [r] ->
  get_best_checkpoint self metric mode = Returns (fst r).
Proof.
  intros Hmode Hcand.
  rewrite (get_best_checkpoint_candidates self metric mode Hmode)
    by (rewrite Hcand; discriminate).
  assert (Hkey : dict_getitem (snd r) metric = Returns (dict_get (snd r) metric)).
  { apply dict_getitem_contains, (candidates_contain self). rewrite Hcand. left.
    reflexivity. }
  rewrite Hcand. destruct (String.eqb mode "max"); simpl; rewrite Hkey; reflexivity.
Qed.

Lemma min_max_loop_nan {A : Type} (better : value -> value -> outcome bool)
    (key : A -> outcome value) (val : A -> value) (best : A) (rest : list A) :
  (forall v, is_number v = true \/ v = VNaN -> better v VNaN = Returns false) ->
  Forall (fun x => key x = Returns (val x)
                   /\ (is_number (val x) = true \/ val x = VNaN)) rest ->
  min_max_loop better key best VNaN rest = Returns best.
Proof.
  intros Hbetter Hrest. induction Hrest as [| x rest [Hkey Hval] _ IH]; [reflexivity |].
  simpl. rewrite Hkey. simpl. rewrite (Hbetter _ Hval). simpl. exact IH.
Qed.

Lemma nothing_beats_nan (v : value) :
  is_number v = true \/ v = VNaN ->
  py_gt v VNaN = Returns false /\ py_lt v VNaN = Returns false.
Proof.
  unfold py_gt, is_number.
  intros [H | ->]; [destruct v; simpl in *; try discriminate |]; split; reflexivity.
Qed.

(** X6: when the first record that contains the metric holds NaN under it
    and the other ones hold numbers or NaN, both modes return the checkpoint
    of that first record: no number compares greater or smaller than NaN. *)
Theorem get_best_checkpoint_nan_first_X6
    (self : Result) (metric mode : string)
    (first : Checkpoint * dict) (others : list (Checkpoint * dict)) :
  mode = "max" \/ mode = "min" ->
  candidates self metric = first :: others ->
  dict_get (snd first) metric = VNaN ->
  Forall (fun r => is_number (dict_get (snd r) metric) = true
                   \/ dict_get (snd r) metric = VNaN) others ->
  get_best_checkpoint self metric mode = Returns (fst first).
Proof.
  intros Hmode Hcand Hnan Hothers.
  rewrite (get_best_checkpoint_candidates self metric mode Hmode)
    by (rewrite Hcand; discriminate).
  assert (Hkey : forall x, In x (candidates self metric) ->
                   dict_getitem (snd x) metric = Returns (dict_get (snd x) metric)).
  { intros x Hx. apply dict_getitem_contains, (candidates_contain self), Hx. }
  assert (Hrest : Forall (fun x => dict_getitem (snd x) metric
                                   = Returns (dict_get (snd x) metric)
                                   /\ (is_number (dict_get (snd x) metric) = true
                                       \/ dict_get (snd x) metric = VNaN)) others).
  { rewrite Forall_forall in *. intros x Hx. split; [| apply Hothers, Hx].
    apply Hkey. rewrite Hcand. right. exact Hx. }
  rewrite Hcand in *.
  destruct (String.eqb mode "max"); unfold py_max, py_min; simpl;
    rewrite (Hkey first (or_introl eq_refl)), Hnan; simpl;
    rewrite (min_max_loop_nan _ _ (fun x => dict_get (snd x) metric) first others);
    try reflexivity; try exact Hrest;
    intros v Hv; apply nothing_beats_nan; exact Hv.
Qed.
End SelectionFurther.

(** ** The steps of [from_path], case by case *)

Section StepCases.
Context {C : Collaborators}.

Lemma restore_error_cases (fs : FileSystem) (fs_path : string) :
  restore_error fs fs_path =
  if exists_at fs (error_file_path fs_path) then
    ([EvExists (error_file_path fs_path); EvOpen (error_file_path fs_path)],
     match open_input_stream fs (error_file_path fs_path) with
     | inl what => Raises (ExternalError what)
     | inr content =>
         match cloudpickle_load content with
         | inl what => Raises (ExternalError what)
         | inr e => Returns (Some e)
         end
     end)
  else ([EvExists (error_file_path fs_path)], Returns None).
Proof.
  unfold restore_error, _exists_at_fs_path, read_all.
  fold (error_file_path fs_path). rewrite bind_returns.
  destruct (exists_at fs (error_file_path fs_path)); [| reflexivity].
  rewrite bind_returns.
  destruct (open_input_stream fs (error_file_path fs_path)) as [what | content];
    [reflexivity |].
  simpl. destruct (cloudpickle_load content); reflexivity.
Qed.

Lemma restore_metrics_trace (fs : FileSystem) (fs_path : string) :
  trace_of (restore_metrics fs fs_path)
  = [EvExists (result_json_file fs_path); EvOpen (result_json_file fs_path)]
  \/ trace_of (restore_metrics fs fs_path)
     = [EvExists (result_json_file fs_path); EvExists (progress_csv_file fs_path);
        EvOpen (progress_csv_file fs_path)]
  \/ trace_of (restore_metrics fs fs_path)
     = [EvExists (result_json_file fs_path); EvExists (progress_csv_file fs_path)].
Proof.
  destruct (exists_at fs (result_json_file fs_path)) eqn:Hjson.
  - left. apply (restore_metrics_primary fs fs_path Hjson).
  - destruct (exists_at fs (progress_csv_file fs_path)) eqn:Hcsv.
    + right. left. apply (restore_metrics_fallback fs fs_path Hjson Hcsv).
    + right. right. rewrite (restore_metrics_missing fs fs_path Hjson Hcsv). reflexivity.
Qed.

Lemma warnings_for_are_warnings (i : nat) (df : DataFrame) (dirs : list string) :
  Forall (fun ev => is_warning ev = true) (warnings_for i df dirs).
Proof.
  apply Forall_forall. intros ev Hin. unfold warnings_for in Hin.
  apply in_flat_map in Hin. destruct Hin as (d & _ & Hd).
  destruct (rows_of_checkpoint i df d); [| contradiction].
  destruct Hd as [<- | []]. reflexivity.
Qed.

Lemma restore_checkpoints_cases (fs : FileSystem) (fs_path : string)
    (df : DataFrame) (dirs : list string) :
  (dirs = [] /\ restore_checkpoints fs fs_path df dirs = ([], Returns (None, None)))
  \/ (exists d ds, dirs = d :: ds
        /\ column_index (columns df) CHECKPOINT_DIR_NAME = None
        /\ restore_checkpoints fs fs_path df dirs
           = ([], Raises (KeyError CHECKPOINT_DIR_NAME)))
  \/ (exists i d ds, dirs = d :: ds
        /\ column_index (columns df) CHECKPOINT_DIR_NAME = Some i
        /\ restore_checkpoints fs fs_path df dirs
           = (warnings_for i df dirs,
              Returns (Some (map (fun x => (checkpoint_at fs fs_path x,
                                            snapshot_of i df x)) dirs),
                       Some (checkpoint_at fs fs_path (last ds d))))).
Proof.
  destruct dirs as [| d ds]; [left; split; reflexivity |]. right.
  destruct (column_index (columns df) CHECKPOINT_DIR_NAME) as [i |] eqn:Hi.
  - right. exists i, d, ds. split; [reflexivity |]. split; [reflexivity |].
    apply (restore_checkpoints_column fs fs_path df i d ds Hi).
  - left. exists d, ds. split; [reflexivity |]. split; [reflexivity |].
    apply (restore_checkpoints_no_column fs fs_path df d ds Hi).
Qed.

(** A result that was returned, by the two shapes it can have. *)
Lemma from_path_restored (uri : string) (storage_filesystem : option FileSystem)
    (r : Result) :
  outcome_of (from_path uri storage_filesystem) = Returns r ->
  exists fs fs_path df items err,
    get_fs_and_path uri storage_filesystem = inr (fs, fs_path)
    /\ exists_at fs fs_path = true
    /\ outcome_of (restore_metrics fs fs_path) = Returns df
    /\ get_file_info fs fs_path = inr items
    /\ outcome_of (restore_error fs fs_path) = Returns err
    /\ ((scan_checkpoint_dirs items = []
         /\ r = assembled uri fs fs_path df None None err)
        \/ (exists i d ds,
               scan_checkpoint_dirs items = d :: ds
               /\ column_index (columns df) CHECKPOINT_DIR_NAME = Some i
               /\ r = assembled uri fs fs_path df
                        (Some (map (fun x => (checkpoint_at fs fs_path x,
                                              snapshot_of i df x)) (d :: ds)))
                        (Some (checkpoint_at fs fs_path (last ds d))) err)).
Proof.
  intros Hret. apply from_path_returns_iff in Hret.
  destruct Hret as (fs & fs_path & df & items & best & latest & err & Hsteps & Hr).
  destruct Hsteps as (Hres & Hroot & Hdf & Hitems & Hck & Herr).
  exists fs, fs_path, df, items, err. repeat (split; [assumption |]).
  destruct (restore_checkpoints_cases fs fs_path df (scan_checkpoint_dirs items))
    as [[Hnil E] | [(d & ds & Hd & _ & E) | (i & d & ds & Hd & Hi & E)]];
    rewrite E in Hck; cbn [outcome_of snd] in Hck.
  - injection Hck as <- <-. left. auto.
  - discriminate.
  - injection Hck as <- <-. right. exists i, d, ds. rewrite <- Hd. auto.
Qed.
End StepCases.

(** ** The trace of a restoration, step by step *)

Section TraceShape.
Context {C : Collaborators}.
Variables (uri : string) (storage_filesystem : option FileSystem).
Variables (fs : FileSystem) (fs_path : string).
Hypothesis resolved : get_fs_and_path uri storage_filesystem = inr (fs, fs_path).
Hypothesis folder_exists : exists_at fs fs_path = true.

Lemma from_path_trace_steps :
  trace_of (from_path uri storage_filesystem)
  = EvExists fs_path :: trace_of (restore_metrics fs fs_path) ++
    match outcome_of (restore_metrics fs fs_path) with
    | Raises _ => []
    | Returns metrics_df =>
        EvList fs_path ::
        match get_file_info fs fs_path with
        | inl _ => []
        | inr items =>
            trace_of (restore_checkpoints fs fs_path metrics_df
                                          (scan_checkpoint_dirs items)) ++
            match outcome_of (restore_checkpoints fs fs_path metrics_df
                                                  (scan_checkpoint_dirs items)) with
            | Raises _ => []
            | Returns _ => trace_of (restore_error fs fs_path)
            end
        end
    end.
Proof.
  unfold from_path. rewrite resolved. simpl external. rewrite bind_ret.
  unfold _validate_trial_dir, _exists_at_fs_path.
  rewrite bind_returns, folder_exists. simpl negb. cbv iota.
  cbn [fst snd ret app]. rewrite trace_of_event_bind, trace_of_bind.
  destruct (outcome_of (restore_metrics fs fs_path)) as [df | e];
    [| now rewrite app_nil_r].
  rewrite latest_row_total, bind_pure, (list_dir_cases fs).
  destruct (get_file_info fs fs_path) as [what | items]; [reflexivity |].
  rewrite trace_of_event_bind, trace_of_bind.
  destruct (outcome_of (restore_checkpoints fs fs_path df (scan_checkpoint_dirs items)))
    as [[best latest] | e]; [| now rewrite app_nil_r].
  rewrite trace_of_bind.
  destruct (outcome_of (restore_error fs fs_path)) as [err | e];
    cbn [trace_of fst ret]; rewrite ?app_nil_r; reflexivity.
Qed.
End TraceShape.

Lemma warnings_only (P : event -> Prop) (f : event -> bool) (ws : list event) :
  (forall msg, P (EvWarning msg)) ->
  (forall msg, f (EvWarning msg) = false) ->
  Forall (fun ev => is_warning ev = true) ws ->
  Forall P ws /\ filter f ws = [].
Proof.
  intros HP Hf Hws. induction Hws as [| ev ws Hev _ [IH1 IH2]]; [split; constructor |].
  destruct ev; try discriminate. split; [constructor; auto |].
  simpl. rewrite Hf. exact IH2.
Qed.

Lemma filter_warnings_for (i : nat) (df : DataFrame) (dirs : list string) :
  filter is_warning (warnings_for i df dirs)
  = map (fun d => EvWarning (no_metrics_msg d))
        (filter (fun d => match rows_of_checkpoint i df d with
                          | [] => true
                          | _ :: _ => false
                          end) dirs).
Proof.
  unfold warnings_for. induction dirs as [| d dirs IH]; [reflexivity |].
  simpl. rewrite filter_app, IH.
  destruct (rows_of_checkpoint i df d); reflexivity.
Qed.

(** ** The restored result *)

Section RestoredFurther.
Context {C : Collaborators}.

(** X7: a restored result either has no list of checkpoints and no
    checkpoint, or a list with at least one record whose last record holds
    the checkpoint of the result; the list is never empty. *)
Theorem from_path_latest_checkpoint_X7
    (uri : string) (storage_filesystem : option FileSystem) (r : Result) :
  outcome_of (from_path uri storage_filesystem) = Returns r ->
  (best_checkpoints r = None /\ checkpoint r = None)
  \/ (exists earlier c d,
         best_checkpoints r = Some (earlier ++ [(c, d)]) /\ checkpoint r = Some c).
Proof.
  intros Hret. apply from_path_restored in Hret.
  destruct Hret as (fs & fs_path & df & items & err & _ & _ & _ & _ & _ & Hr).
  destruct Hr as [[_ ->] | (i & d & ds & _ & _ & ->)]; [left; split; reflexivity |].
  right. cbn [best_checkpoints checkpoint assembled].
  destruct (nonempty_snoc d ds) as (front & Hfront). rewrite Hfront, map_app.
  exists (map (fun x => (checkpoint_at fs fs_path x, snapshot_of i df x)) front),
    (checkpoint_at fs fs_path (last ds d)), (snapshot_of i df (last ds d)).
  split; reflexivity.
Qed.

(** X8: the error of a restored result is [None] exactly when the folder
    has no error file; otherwise it is the exception the error file
    unpickles to ([cloudpickle_load] gives an exception or fails). *)
Theorem from_path_error_field_X8
    (uri : string) (storage_filesystem : option FileSystem)
    (fs : FileSystem) (fs_path : string) (r : Result) :
  get_fs_and_path uri storage_filesystem = inr (fs, fs_path) ->
  outcome_of (from_path uri storage_filesystem) = Returns r ->
  (error r = None <-> exists_at fs (error_file_path fs_path) = false)
  /\ forall e, error r = Some e ->
       exists content,
         open_input_stream fs (error_file_path fs_path) = inr content
         /\ cloudpickle_load content = inr e.
Proof.
  intros Hres Hret. apply from_path_restored in Hret.
  destruct Hret as (fs' & fs_path' & df & items & err & Hres' & _ & _ & _ & Herr & Hr).
  rewrite Hres in Hres'. injection Hres' as <- <-.
  assert (Hfield : error r = err).
  { destruct Hr as [[_ ->] | (i & d & ds & _ & _ & ->)]; reflexivity. }
  rewrite Hfield. clear Hr Hfield. rewrite restore_error_cases in Herr.
  destruct (exists_at fs (error_file_path fs_path)); cbn [outcome_of snd] in Herr.
  - destruct (open_input_stream fs (error_file_path fs_path)) as [what | content];
      [discriminate |].
    destruct (cloudpickle_load content) as [what | e0] eqn:Hload; [discriminate |].
    injection Herr as <-. split; [split; discriminate |].
    intros e He. injection He as <-. exists content. split; [reflexivity | exact Hload].
  - injection Herr as <-. split; [split; reflexivity | discriminate].
Qed.

Lemma restore_metrics_part (fs : FileSystem) (fs_path : string) :
  Forall (within_trial fs_path) (trace_of (restore_metrics fs fs_path))
  /\ List.length (filter is_open (trace_of (restore_metrics fs fs_path))) <= 1
  /\ filter is_list (trace_of (restore_metrics fs fs_path)) = []
  /\ filter is_warning (trace_of (restore_metrics fs fs_path)) = [].
Proof.
  destruct (restore_metrics_trace fs fs_path) as [H | [H | H]]; rewrite H;
    (split; [repeat constructor; simpl; auto |]); simpl; repeat split; lia.
Qed.

Lemma restore_error_part (fs : FileSystem) (fs_path : string) :
  Forall (within_trial fs_path) (trace_of (restore_error fs fs_path))
  /\ List.length (filter is_open (trace_of (restore_error fs fs_path))) <= 1
  /\ filter is_list (trace_of (restore_error fs fs_path)) = []
  /\ filter is_warning (trace_of (restore_error fs fs_path)) = [].
Proof.
  rewrite restore_error_cases.
  destruct (exists_at fs (error_file_path fs_path)); cbn [trace_of fst];
    (split; [repeat constructor; simpl; auto |]); simpl; repeat split; lia.
Qed.

Lemma restore_checkpoints_part (fs : FileSystem) (fs_path : string)
    (df : DataFrame) (dirs : list string) :
  Forall (fun ev => is_warning ev = true)
         (trace_of (restore_checkpoints fs fs_path df dirs)).
Proof.
  destruct (restore_checkpoints_cases fs fs_path df dirs)
    as [[_ E] | [(d & ds & _ & _ & E) | (i & d & ds & _ & _ & E)]];
    rewrite E; cbn [trace_of fst]; [constructor | constructor |].
  apply warnings_for_are_warnings.
Qed.

(** X9: whatever the outcome, a restoration only checks and opens the
    folder's two logs and its error file, only lists the folder itself, and
    opens at most two files and lists at most once. *)
Theorem from_path_stays_within_trial_X9
    (uri : string) (storage_filesystem : option FileSystem)
    (fs : FileSystem) (fs_path : string) :
  get_fs_and_path uri storage_filesystem = inr (fs, fs_path) ->
  Forall (within_trial fs_path) (trace_of (from_path uri storage_filesystem))
  /\ List.length (filter is_open (trace_of (from_path uri storage_filesystem))) <= 2
  /\ List.length (filter is_list (trace_of (from_path uri storage_filesystem))) <= 1.
Proof.
  intros Hres. destruct (exists_at fs fs_path) eqn:Hroot.
  2:{ rewrite (from_path_missing_folder uri storage_filesystem fs fs_path Hres Hroot).
      cbn [trace_of fst]. split; [repeat constructor; simpl; auto |].
      simpl. lia. }
  rewrite (from_path_trace_steps uri storage_filesystem fs fs_path Hres Hroot).
  destruct (restore_metrics_part fs fs_path) as (Hm1 & Hm2 & Hm3 & _).
  destruct (restore_error_part fs fs_path) as (He1 & He2 & He3 & _).
  assert (Hhere : within_trial fs_path (EvExists fs_path)) by (simpl; auto).
  assert (Hlist : within_trial fs_path (EvList fs_path)) by reflexivity.
  cbn [filter is_open is_list]. rewrite !filter_app, !length_app, Hm3.
  destruct (outcome_of (restore_metrics fs fs_path)) as [df | e].
  2:{ rewrite app_nil_r. cbn [filter List.length app]. rewrite Nat.add_0_r.
      split; [constructor; assumption | lia]. }
  cbn [filter is_open is_list app].
  destruct (get_file_info fs fs_path) as [what | items].
  { cbn [filter List.length app]. split; [| lia].
    constructor; [assumption |]. apply Forall_app. split; [assumption |].
    repeat constructor. }
  pose proof (restore_checkpoints_part fs fs_path df (scan_checkpoint_dirs items))
    as Hws.
  destruct (warnings_only (within_trial fs_path) is_open _
              (fun _ => I) (fun _ => eq_refl) Hws) as [Hc1 Hc2].
  destruct (warnings_only (within_trial fs_path) is_list _
              (fun _ => I) (fun _ => eq_refl) Hws) as [_ Hc3].
  rewrite !filter_app, Hc2, Hc3. cbn [app List.length].
  destruct (outcome_of (restore_checkpoints fs fs_path df (scan_checkpoint_dirs items)))
    as [pair | e].
  - rewrite He3. cbn [List.length]. split; [| lia].
    constructor; [assumption |]. apply Forall_app. split; [assumption |].
    constructor; [assumption |]. apply Forall_app. split; assumption.
  - rewrite app_nil_r. cbn [filter List.length]. split; [| lia].
    constructor; [assumption |]. apply Forall_app. split; [assumption |].
    constructor; assumption.
Qed.

(** X10: the warnings of a restoration that returns are, in the order of
    the checkpoint folders, one for each folder that no row of the table
    names in the correlation column, and no other. *)
Theorem from_path_warnings_X10
    (uri : string) (storage_filesystem : option FileSystem)
    (fs : FileSystem) (fs_path : string) (items : list FileInfo)
    (df : DataFrame) (i : nat) (r : Result) :
  get_fs_and_path uri storage_filesystem = inr (fs, fs_path) ->
  get_file_info fs fs_path = inr items ->
  outcome_of (from_path uri storage_filesystem) = Returns r ->
  metrics_dataframe r = Some df ->
  column_index (columns df) CHECKPOINT_DIR_NAME = Some i ->
  filter is_warning (trace_of (from_path uri storage_filesystem))
  = map (fun d => EvWarning (no_metrics_msg d))
        (filter (fun d => match rows_of_checkpoint i df d with
                          | [] => true
                          | _ :: _ => false
                          end) (scan_checkpoint_dirs items)).
Proof.
  intros Hres Hitems Hret Hdf Hi. apply from_path_restored in Hret.
  destruct Hret as (fs' & fs_path' & df' & items' & err
                    & Hres' & Hroot & Hlog & Hitems' & Herr & Hr).
  rewrite Hres in Hres'. injection Hres' as <- <-.
  rewrite Hitems in Hitems'. injection Hitems' as <-.
  assert (df' = df) as ->.
  { destruct Hr as [[_ ->] | (j & d & ds & _ & _ & ->)];
      cbn [metrics_dataframe assembled] in Hdf; congruence. }
  rewrite (from_path_trace_steps uri storage_filesystem fs fs_path Hres Hroot).
  rewrite Hlog, Hitems.
  destruct (restore_metrics_part fs fs_path) as (_ & _ & _ & Hm).
  destruct (restore_error_part fs fs_path) as (_ & _ & _ & He).
  cbn [filter is_warning]. rewrite filter_app, Hm. cbn [filter is_warning app].
  destruct (restore_checkpoints_cases fs fs_path df (scan_checkpoint_dirs items))
    as [[Hnil E] | [(d & ds & Hd & Hnone & E) | (j & d & ds & Hd & Hj & E)]].
  - rewrite E, Hnil. cbn [trace_of outcome_of fst snd app]. rewrite He. reflexivity.
  - congruence.
  - rewrite E. cbn [trace_of outcome_of fst snd]. rewrite filter_app, He, app_nil_r.
    assert (j = i) as -> by congruence. apply filter_warnings_for.
Qed.

(** X11: the metrics of a restored result are never [None]: they are the
    empty dictionary when the table of the log is empty, and otherwise a
    dictionary whose keys are exactly the columns of the table. *)
Theorem from_path_latest_metrics_keys_X11
    (uri : string) (storage_filesystem : option FileSystem) (r : Result) :
  outcome_of (from_path uri storage_filesystem) = Returns r ->
  exists df latest,
    metrics_dataframe r = Some df
    /\ metrics r = Some latest
    /\ (df_empty df = true -> latest = [])
    /\ (df_empty df = false ->
        forall k, dict_contains k latest = true <-> In k (columns df)).
Proof.
  intros Hret. apply from_path_restored in Hret.
  destruct Hret as (fs & fs_path & df & items & err & _ & _ & _ & _ & _ & Hr).
  exists df, (latest_metrics_of df).
  assert (Hfields : metrics_dataframe r = Some df
                    /\ metrics r = Some (latest_metrics_of df)).
  { destruct Hr as [[_ ->] | (i & d & ds & _ & _ & ->)]; split; reflexivity. }
  destruct Hfields as [-> ->]. split; [reflexivity |]. split; [reflexivity |].
  unfold latest_metrics_of. split; intros Hempty; rewrite Hempty; [reflexivity |].
  intros k. apply to_dict_contains.
Qed.

(** X12: when the columns of the log's table have distinct names, the
    metrics of a restored result give, for every column, the cell of the
    last row of the table: as it is when the cell is not an integer, when
    the table has a column of objects or of booleans, or when all its
    columns are of integers; as the nearest float when the cell is an
    integer and the table has columns of integers and floats only, one of
    floats at least. *)
Theorem from_path_latest_metrics_values_X12
    (uri : string) (storage_filesystem : option FileSystem) (r : Result)
    (df : DataFrame) (earlier : list (list value)) (row : list value)
    (latest : dict) (k : string) (i : nat) :
  outcome_of (from_path uri storage_filesystem) = Returns r ->
  metrics_dataframe r = Some df ->
  metrics r = Some latest ->
  NoDup (columns df) ->
  rows df = earlier ++ [row] ->
  column_index (columns df) k = Some i ->
  ((forall z, cell i row <> VInt z)
   \/ In object_ (dtypes df) \/ In bool_ (dtypes df)
   \/ (dtypes df <> [] /\ Forall (fun t => t = int64) (dtypes df)) ->
   dict_getitem latest k = Returns (cell i row))
  /\ (Forall (fun t => t = int64 \/ t = float64) (dtypes df) ->
      In float64 (dtypes df) ->
      forall z, cell i row = VInt z ->
                dict_getitem latest k = Returns (VFloat (float64_of_int z))).
Proof.
  intros Hret Hdf Hlatest Hnodup Hrows Hi. apply from_path_restored in Hret.
  destruct Hret as (fs & fs_path & df' & items & err & _ & _ & _ & _ & _ & Hr).
  assert (Hfields : metrics_dataframe r = Some df'
                    /\ metrics r = Some (latest_metrics_of df')).
  { destruct Hr as [[_ ->] | (j & d & ds & _ & _ & ->)]; split; reflexivity. }
  destruct Hfields as [Hdf' Hlatest'].
  assert (df' = df) as -> by congruence.
  assert (latest = latest_metrics_of df) as -> by congruence.
  assert (Hvalue : dict_getitem (latest_metrics_of df) k
                   = Returns (astype (find_common_type (dtypes df)) (cell i row))).
  { unfold latest_metrics_of, df_empty. rewrite Hrows.
    destruct (columns df) as [| c cs] eqn:Hcols; [discriminate |].
    destruct (earlier ++ [row]) as [| r0 rs] eqn:Hsnoc;
      [destruct earlier; discriminate |].
    rewrite <- Hsnoc, last_snoc, (to_dict_getitem _ _ k i Hnodup Hi).
    now rewrite cell_row_series. }
  rewrite Hvalue. split.
  - intros [Hnot | [Hobject | [Hbool | [Hsome Hints]]]]; f_equal.
    + now apply astype_not_int.
    + rewrite (find_common_type_object _ Hobject). apply astype_object.
    + apply astype_not_float, find_common_type_bool, Hbool.
    + rewrite (find_common_type_int _ Hsome Hints). now destruct (cell i row).
  - intros Hnumeric Hfloat z Hz.
    rewrite (find_common_type_float _ Hnumeric Hfloat), Hz. reflexivity.
Qed.

Lemma scan_empty_iff (items : list FileInfo) :
  scan_checkpoint_dirs items = []
  <-> forall item, In item items -> is_checkpoint_dir item = false.
Proof.
  pose proof (scan_checkpoint_dirs_length items) as Hlen. split.
  - intros Hnil item Hitem. rewrite Hnil in Hlen.
    destruct (is_checkpoint_dir item) eqn:Hdir; [| reflexivity].
    assert (Hin : In item (filter is_checkpoint_dir items))
      by (apply filter_In; auto).
    destruct (filter is_checkpoint_dir items); [contradiction | discriminate].
  - intros Hall. destruct (filter is_checkpoint_dir items) as [| x l] eqn:Hf.
    + destruct (scan_checkpoint_dirs items); [reflexivity | discriminate].
    + assert (Hin : In x (filter is_checkpoint_dir items)) by (rewrite Hf; left; auto).
      apply filter_In in Hin. destruct Hin as [Hin Hdir].
      rewrite (Hall x Hin) in Hdir. discriminate.
Qed.

Lemma scan_member (items : list FileInfo) (name : string) :
  In name (scan_checkpoint_dirs items) ->
  exists item, In item items /\ is_checkpoint_dir item = true /\ base_name item = name.
Proof.
  unfold scan_checkpoint_dirs. intros Hin.
  apply (Permutation_in _ (sorted_perm _)) in Hin.
  apply in_map_iff in Hin. destruct Hin as (item & Hname & Hitem).
  apply filter_In in Hitem. exists item. tauto.
Qed.

Lemma prefix_app (a b : string) : String.prefix a (a ++ b) = true.
Proof.
  induction a as [| c a IH]; simpl; [destruct b; reflexivity |].
  destruct (ascii_dec c c); [exact IH | contradiction].
Qed.

Lemma path_join_under (a b : string) :
  String.prefix "/" b = false -> String.prefix a (path_join a b) = true.
Proof.
  intros Hrel. unfold path_join. rewrite Hrel.
  destruct (String.eqb a "" || endswith_sep a)%bool; apply prefix_app.
Qed.

Lemma checkpoint_name_relative (name : string) :
  String.prefix "checkpoint_" name = true -> String.prefix "/" name = false.
Proof.
  destruct name as [| c name]; [discriminate |].
  destruct (ascii_dec "c" c) as [<- | Hne]; [reflexivity |].
  cbn [String.prefix]. destruct (ascii_dec "c" c); [contradiction | discriminate].
Qed.

(** The records of a restored result that contain a metric. *)
Lemma restored_candidates (fs : FileSystem) (fs_path : string) (df : DataFrame)
    (i : nat) (metric : string) (dirs : list string) :
  filter (fun ckpt_info : Checkpoint * dict => dict_contains metric (snd ckpt_info))
         (map (fun x => (checkpoint_at fs fs_path x, snapshot_of i df x)) dirs) = []
  <-> (~ In metric (columns df)
       \/ forall name, In name dirs -> rows_of_checkpoint i df name = []).
Proof.
  induction dirs as [| d dirs IH]; simpl.
  - split; [intros _; right; intros name [] | reflexivity].
  - unfold snapshot_of at 1.
    destruct (rows_of_checkpoint i df d) as [| row rs] eqn:Hrows; simpl.
    + rewrite IH. split; (intros [H | H]; [left; exact H | right]).
      * intros name [<- | Hin]; [exact Hrows | exact (H name Hin)].
      * intros name Hin. apply H. right. exact Hin.
    + destruct (dict_contains metric
                  (to_dict (columns df) (row_series df (last rs row)))) eqn:Hin.
      * apply to_dict_contains in Hin. split; [discriminate |].
        intros [H | H]; [contradiction |].
        specialize (H d (or_introl eq_refl)). rewrite Hrows in H. discriminate.
      * rewrite IH. split; [intros _ | intros [H | H]; [left; exact H |]].
        -- left. intros Hcol.
           apply (to_dict_contains _ (row_series df (last rs row))) in Hcol.
           rewrite Hcol in Hin. discriminate.
        -- specialize (H d (or_introl eq_refl)). rewrite Hrows in H. discriminate.
Qed.

Section Located.
Context {P : Presentation}.

(** X13: a restored result answers [filesystem] with the filesystem the
    path was resolved to, and [path] with the resolved path, or, when the
    resolved path is the empty string, with the path that was given (on a
    local filesystem) or [None]. *)
Theorem from_path_path_and_filesystem_X13
    (uri : string) (storage_filesystem : option FileSystem)
    (fs : FileSystem) (fs_path : string) (r : Result) :
  get_fs_and_path uri storage_filesystem = inr (fs, fs_path) ->
  outcome_of (from_path uri storage_filesystem) = Returns r ->
  filesystem r = fs
  /\ (fs_path <> "" -> path r = Some fs_path)
  /\ (fs_path = "" -> path r = if is_local fs then Some uri else None).
Proof.
  intros Hres Hret. apply from_path_restored in Hret.
  destruct Hret as (fs' & fs_path' & df & items & err & Hres' & _ & _ & _ & _ & Hr).
  rewrite Hres in Hres'. injection Hres' as <- <-.
  assert (Hfields : _storage_filesystem r = Some fs
                    /\ _remote_path r = Some fs_path
                    /\ _local_path r = if is_local fs then Some uri else None).
  { destruct Hr as [[_ ->] | (i & d & ds & _ & _ & ->)]; repeat split. }
  destruct Hfields as (Hfs & Hremote & Hlocal).
  unfold filesystem, path. rewrite Hfs, Hremote, Hlocal.
  split; [reflexivity |]. split.
  - destruct fs_path; [contradiction | reflexivity].
  - intros ->. reflexivity.
Qed.
End Located.

(** X14: on a restored result, a selection fails for missing checkpoints
    exactly when no entry of the folder's listing is a checkpoint folder,
    and it never fails for missing metrics of the result. *)
Theorem restored_no_checkpoint_error_X14
    (uri : string) (storage_filesystem : option FileSystem)
    (fs : FileSystem) (fs_path : string) (items : list FileInfo) (r : Result)
    (metric mode : string) :
  get_fs_and_path uri storage_filesystem = inr (fs, fs_path) ->
  get_file_info fs fs_path = inr items ->
  outcome_of (from_path uri storage_filesystem) = Returns r ->
  (get_best_checkpoint r metric mode = Raises (RuntimeError no_checkpoint_msg)
   <-> forall item, In item items -> is_checkpoint_dir item = false)
  /\ get_best_checkpoint r metric mode <> Raises AttributeError.
Proof.
  intros Hres Hitems Hret. apply from_path_restored in Hret.
  destruct Hret as (fs' & fs_path' & df & items' & err
                    & Hres' & _ & _ & Hitems' & _ & Hr).
  rewrite Hres in Hres'. injection Hres' as <- <-.
  rewrite Hitems in Hitems'. injection Hitems' as <-.
  rewrite <- scan_empty_iff.
  destruct Hr as [[Hscan ->] | (i & d & ds & Hscan & _ & ->)]; rewrite Hscan.
  - split; [split; reflexivity | discriminate].
  - split.
    + split; [| discriminate]. intros H. apply no_checkpoint_error_stage in H.
      destruct H as [H | H]; discriminate.
    + rewrite get_best_checkpoint_stages.
      cbn [best_checkpoints assembled map truthy negb]. cbv iota.
      destruct (negb (existsb (String.eqb mode) ["max"; "min"])); [discriminate |].
      match goal with |- context [candidates ?s metric] => set (self := s) end.
      destruct (candidates self metric) as [| x l] eqn:Hcand;
        [cbn [metrics self assembled]; discriminate |].
      rewrite <- Hcand.
      destruct (selector mode _ (candidates self metric)) as [best | e] eqn:Hsel;
        [discriminate |].
      apply selector_raises in Hsel; [| rewrite Hcand; discriminate].
      subst e. discriminate.
Qed.

(** X15: on a restored result and with a supported mode, a selection
    fails with a [RuntimeError] exactly when the metric is not a column of
    the log's table or no row of the table names a checkpoint folder; the
    cells under the metric are not looked at, so a column of empty cells
    is a valid metric. *)
Theorem restored_invalid_metric_X15
    (uri : string) (storage_filesystem : option FileSystem)
    (fs : FileSystem) (fs_path : string) (items : list FileInfo)
    (df : DataFrame) (i : nat) (r : Result) (metric mode : string) :
  get_fs_and_path uri storage_filesystem = inr (fs, fs_path) ->
  get_file_info fs fs_path = inr items ->
  outcome_of (from_path uri storage_filesystem) = Returns r ->
  metrics_dataframe r = Some df ->
  column_index (columns df) CHECKPOINT_DIR_NAME = Some i ->
  mode = "max" \/ mode = "min" ->
  (exists msg, get_best_checkpoint r metric mode = Raises (RuntimeError msg))
  <-> (~ In metric (columns df)
       \/ forall name, In name (scan_checkpoint_dirs items) ->
                       rows_of_checkpoint i df name = []).
Proof.
  intros Hres Hitems Hret Hdf Hi Hmode. apply from_path_restored in Hret.
  destruct Hret as (fs' & fs_path' & df' & items' & err
                    & Hres' & _ & _ & Hitems' & _ & Hr).
  rewrite Hres in Hres'. injection Hres' as <- <-.
  rewrite Hitems in Hitems'. injection Hitems' as <-.
  assert (df' = df) as ->.
  { destruct Hr as [[_ ->] | (j & d & ds & _ & _ & ->)];
      cbn [metrics_dataframe assembled] in Hdf; congruence. }
  apply mode_checked in Hmode.
  destruct Hr as [[Hscan ->] | (j & d & ds & Hscan & Hj & ->)]; rewrite Hscan.
  - split; [intros _; right; intros name [] |].
    intros _. exists no_checkpoint_msg. reflexivity.
  - assert (j = i) as -> by congruence.
    rewrite <- (restored_candidates fs fs_path df i metric (d :: ds)).
    match goal with
    | |- context [get_best_checkpoint ?s metric mode] => set (self := s)
    end.
    change (filter _ (map _ (d :: ds))) with (candidates self metric).
    rewrite get_best_checkpoint_stages.
    replace (negb (truthy (best_checkpoints self))) with false by reflexivity.
    rewrite Hmode. cbn [negb]. cbv iota.
    destruct (candidates self metric) as [| x l] eqn:Hcand.
    + split; [reflexivity | intros _; subst self; cbn [metrics assembled]; eauto].
    + split; [| discriminate]. intros [msg H]. exfalso. rewrite <- Hcand in H.
      destruct (selector mode _ (candidates self metric)) as [best | e] eqn:Hsel;
        [discriminate |].
      apply selector_raises in Hsel; [| rewrite Hcand; discriminate].
      subst e. discriminate.
Qed.

(** X16: every checkpoint of a restored result is on the filesystem the
    path was resolved to, at the join of the resolved path and the name of
    a folder of the listing that starts with [checkpoint_], hence at a path
    that starts with the resolved path. *)
Theorem from_path_checkpoint_locations_X16
    (uri : string) (storage_filesystem : option FileSystem)
    (fs : FileSystem) (fs_path : string) (items : list FileInfo) (r : Result)
    (records : list (Checkpoint * dict)) (c : Checkpoint) (d : dict) :
  get_fs_and_path uri storage_filesystem = inr (fs, fs_path) ->
  get_file_info fs fs_path = inr items ->
  outcome_of (from_path uri storage_filesystem) = Returns r ->
  best_checkpoints r = Some records ->
  In (c, d) records ->
  ckpt_filesystem c = fs
  /\ String.prefix fs_path (ckpt_path c) = true
  /\ exists item,
       In item items
       /\ type item = Directory
       /\ String.prefix "checkpoint_" (base_name item) = true
       /\ ckpt_path c = path_join fs_path (base_name item).
Proof.
  intros Hres Hitems Hret Hrecords Hin. apply from_path_restored in Hret.
  destruct Hret as (fs' & fs_path' & df & items' & err
                    & Hres' & _ & _ & Hitems' & _ & Hr).
  rewrite Hres in Hres'. injection Hres' as <- <-.
  rewrite Hitems in Hitems'. injection Hitems' as <-.
  destruct Hr as [[_ ->] | (i & x & xs & Hscan & _ & ->)];
    cbn [best_checkpoints assembled] in Hrecords; [discriminate |].
  assert (Hin' : In (c, d) (map (fun name => (checkpoint_at fs fs_path name,
                                              snapshot_of i df name)) (x :: xs)))
    by (injection Hrecords as <-; exact Hin).
  apply in_map_iff in Hin'.
  destruct Hin' as (name & Hpair & Hname). injection Hpair as <- <-.
  rewrite <- Hscan in Hname. apply scan_member in Hname.
  destruct Hname as (item & Hitem & Hdir & <-).
  apply is_checkpoint_dir_spec in Hdir. destruct Hdir as [Htype Hprefix].
  split; [reflexivity |]. split.
  - apply path_join_under, checkpoint_name_relative. exact Hprefix.
  - exists item. auto.
Qed.
End RestoredFurther.

(** ** The lines of the primary log *)

Lemma split_lines_line (line rest : string) :
  has_newline line = false ->
  split_lines (line ++ String newline rest) = line :: split_lines rest.
Proof.
  induction line as [| c line IH]; intros Hline; simpl in *.
  - reflexivity.
  - apply orb_false_iff in Hline. destruct Hline as [Hc Hline].
    rewrite Hc, (IH Hline). reflexivity.
Qed.

Lemma concat_empty_cons (x : string) (l : list string) :
  String.concat "" (x :: l) = (x ++ String.concat "" l)%string.
Proof. destruct l; simpl; [now rewrite string_app_nil_r | reflexivity]. Qed.

(** Splitting a file whose lines all end in a newline gives the lines back,
    and one empty line after the last newline. *)
Lemma split_file_of_lines (lines : list string) :
  Forall (fun line => has_newline line = false) lines ->
  split_lines (file_of_lines lines) = lines ++ [""].
Proof.
  unfold file_of_lines. induction 1 as [| line lines Hline _ IH]; [reflexivity |].
  cbn [map]. rewrite concat_empty_cons, string_app_assoc.
  change (String newline "" ++ ?s)%string with (String newline s).
  rewrite (split_lines_line _ _ Hline), IH. reflexivity.
Qed.

Section PrimaryLog.
Context {C : Collaborators}.

Lemma for_each_external_all {A B : Type} (f : A -> string + B) (l : list A)
    (bs : list B) :
  Forall2 (fun a b => f a = inr b) l bs ->
  for_each (fun a => external (f a)) l = ([], Returns bs).
Proof.
  induction 1 as [| a b l bs Hab _ IH]; [reflexivity |].
  simpl. rewrite Hab. simpl. rewrite IH. reflexivity.
Qed.

Lemma for_each_external_fails {A B : Type} (f : A -> string + B)
    (good : list A) (bad : A) (rest : list A) (what : string) :
  Forall (fun a => exists b, f a = inr b) good ->
  f bad = inl what ->
  for_each (fun a => external (f a)) (good ++ bad :: rest)
  = ([], Raises (ExternalError what)).
Proof.
  intros Hgood Hbad. induction Hgood as [| a good [b Hab] _ IH]; simpl.
  - rewrite Hbad. reflexivity.
  - rewrite Hab. simpl. rewrite IH. reflexivity.
Qed.

Lemma restore_metrics_json (fs : FileSystem) (fs_path content text : string) :
  exists_at fs (result_json_file fs_path) = true ->
  open_input_stream fs (result_json_file fs_path) = inr content ->
  utf8_decode content = inr text ->
  restore_metrics fs fs_path
  = ([EvExists (result_json_file fs_path); EvOpen (result_json_file fs_path)],
     outcome_of
       (bind (for_each (fun line => external (json_loads line))
                       (filter nonempty (split_lines text)))
             (fun json_list => external (json_normalize json_list)))).
Proof.
  intros Hjson Hopen Htext. unfold restore_metrics, _exists_at_fs_path, read_all.
  fold (result_json_file fs_path). rewrite bind_returns, Hjson.
  rewrite Hopen. simpl. rewrite Htext. simpl.
  destruct (for_each_external json_loads (filter nonempty (split_lines text)))
    as [Ht _].
  destruct (for_each (fun line => external (json_loads line))
                     (filter nonempty (split_lines text))) as [t [objs | e]];
    simpl in *; subst t; [| reflexivity].
  destruct (json_normalize objs); reflexivity.
Qed.

(** X17: when [result.json] is a file of lines that each end in a newline,
    the table of the restored result is the normalisation of the records of
    the non-empty lines, one for each in the order of the file; empty lines
    and the end of the file after the last newline contribute nothing. *)
Theorem from_path_json_lines_X17
    (uri : string) (storage_filesystem : option FileSystem)
    (fs : FileSystem) (fs_path content : string) (lines : list string)
    (json_list : list json) (r : Result) :
  get_fs_and_path uri storage_filesystem = inr (fs, fs_path) ->
  exists_at fs (result_json_file fs_path) = true ->
  open_input_stream fs (result_json_file fs_path) = inr content ->
  utf8_decode content = inr (file_of_lines lines) ->
  Forall (fun line => has_newline line = false) lines ->
  Forall2 (fun line record => json_loads line = inr record)
          (filter nonempty lines) json_list ->
  outcome_of (from_path uri storage_filesystem) = Returns r ->
  exists metrics_df,
    json_normalize json_list = inr metrics_df
    /\ metrics_dataframe r = Some metrics_df.
Proof.
  intros Hres Hjson Hopen Htext Hlines Hrecords Hret.
  apply from_path_restored in Hret.
  destruct Hret as (fs' & fs_path' & df & items & err & Hres' & _ & Hlog & _ & _ & Hr).
  rewrite Hres in Hres'. injection Hres' as <- <-.
  rewrite (restore_metrics_json fs fs_path content _ Hjson Hopen Htext) in Hlog.
  rewrite (split_file_of_lines lines Hlines), filter_app in Hlog.
  cbn [filter nonempty String.eqb negb] in Hlog. rewrite app_nil_r in Hlog.
  rewrite (for_each_external_all json_loads _ _ Hrecords), bind_pure in Hlog.
  cbn [outcome_of snd] in Hlog. exists df. split.
  - destruct (json_normalize json_list) as [what | df']; simpl in Hlog;
      [discriminate | congruence].
  - destruct Hr as [[_ ->] | (i & d & ds & _ & _ & ->)]; reflexivity.
Qed.

(** X18: a non-empty line of [result.json] that does not parse aborts the
    restoration with the failure of the parser, once the lines before it
    have parsed; [progress.csv] is not tried, and nothing is read after
    [result.json]. *)
Theorem from_path_bad_line_X18
    (uri : string) (storage_filesystem : option FileSystem)
    (fs : FileSystem) (fs_path content text : string)
    (good : list string) (bad : string) (rest : list string) (what : string) :
  get_fs_and_path uri storage_filesystem = inr (fs, fs_path) ->
  exists_at fs fs_path = true ->
  exists_at fs (result_json_file fs_path) = true ->
  open_input_stream fs (result_json_file fs_path) = inr content ->
  utf8_decode content = inr text ->
  filter nonempty (split_lines text) = good ++ bad :: rest ->
  Forall (fun line => exists record, json_loads line = inr record) good ->
  json_loads bad = inl what ->
  from_path uri storage_filesystem
  = ([EvExists fs_path; EvExists (result_json_file fs_path);
      EvOpen (result_json_file fs_path)],
     Raises (ExternalError what)).
Proof.
  intros Hres Hroot Hjson Hopen Htext Hsplit Hgood Hbad.
  assert (Hlog : restore_metrics fs fs_path
                 = ([EvExists (result_json_file fs_path);
                     EvOpen (result_json_file fs_path)],
                    Raises (ExternalError what))).
  { rewrite (restore_metrics_json fs fs_path content text Hjson Hopen Htext), Hsplit.
    rewrite (for_each_external_fails json_loads good bad rest what Hgood Hbad).
    reflexivity. }
  rewrite (surjective_pairing (from_path uri storage_filesystem)).
  change (fst (from_path uri storage_filesystem))
    with (trace_of (from_path uri storage_filesystem)).
  change (snd (from_path uri storage_filesystem))
    with (outcome_of (from_path uri storage_filesystem)).
  rewrite (from_path_trace_steps uri storage_filesystem fs fs_path Hres Hroot).
  rewrite (from_path_outcome uri storage_filesystem fs fs_path Hres Hroot).
  rewrite Hlog. reflexivity.
Qed.
End PrimaryLog.

(** ** The two logs *)

Section TwoLogs.
Context {C : Collaborators}.



End TwoLogs.

(** ** The scan does not depend on the order of the listing *)

Lemma string_leb_antisym (s t : string) :
  String.leb s t = true -> String.leb t s = true -> s = t.
Proof.
  unfold String.leb. rewrite (String.compare_antisym t s).
  destruct (String.compare s t) eqn:Hcmp; simpl; try discriminate.
  intros _ _. now apply String.compare_eq_iff.
Qed.

Lemma sorted_unique (l : list string) : forall l',
  StronglySorted lex_le l -> StronglySorted lex_le l' -> Permutation l l' -> l = l'.
Proof.
  induction l as [| x l IH]; intros l' Hl Hl' Hperm.
  - apply Permutation_nil in Hperm. now subst.
  - destruct l' as [| y l'];
      [apply Permutation_sym, Permutation_nil in Hperm; discriminate |].
    inversion Hl as [| ? ? Hsl Hxl]; subst.
    inversion Hl' as [| ? ? Hsl' Hyl']; subst.
    assert (Hxy : x = y).
    { assert (Hx : In x (y :: l')) by (apply (Permutation_in _ Hperm); left; auto).
      assert (Hy : In y (x :: l))
        by (apply (Permutation_in _ (Permutation_sym Hperm)); left; auto).
      destruct Hx as [-> | Hx]; [reflexivity |].
      destruct Hy as [-> | Hy]; [reflexivity |].
      rewrite Forall_forall in Hxl, Hyl'.
      apply string_leb_antisym; [apply (Hxl y Hy) | apply (Hyl' x Hx)]. }
    subst y. f_equal. apply IH; try assumption.
    now apply Permutation_cons_inv in Hperm.
Qed.

Lemma filter_perm {A : Type} (f : A -> bool) (l l' : list A) :
  Permutation l l' -> Permutation (filter f l) (filter f l').
Proof.
  induction 1 as [| x l l' _ IH | x y l | l l' l'' _ IH1 _ IH2]; simpl.
  - constructor.
  - destruct (f x); [now constructor | exact IH].
  - destruct (f x), (f y); try reflexivity. apply perm_swap.
  - now transitivity (filter f l').
Qed.

Section ScanOrder.
Context {C : Collaborators}.

(** X19: the checkpoint folders found do not depend on the order in which
    the filesystem lists the entries of the folder. *)
Theorem scan_checkpoint_dirs_listing_order_X19 (items items' : list FileInfo) :
  Permutation items items' ->
  scan_checkpoint_dirs items = scan_checkpoint_dirs items'.
Proof.
  intros Hperm. apply sorted_unique; try apply scan_checkpoint_dirs_sorted.
  unfold scan_checkpoint_dirs. rewrite !sorted_perm.
  apply Permutation_map, filter_perm, Hperm.
Qed.
End ScanOrder.

(** ** [_repr] and [__repr__] *)

Section Shown.
Context {C : Collaborators} {P : Presentation}.

(** The dictionary [shown_attributes] once lines 96-109 have run. *)
Lemma shown_attributes_normal (self : Result) :
  shown_attributes self
  = Returns
      ((match error self with
        | Some e => [("error", AStr (class_name e))]
        | None => []
        end)
       ++ [("metrics", AMetrics (option_map visible_metrics (metrics self)));
           ("path", APath (path self));
           ("filesystem", AStr (type_name (filesystem self)));
           ("checkpoint", ACheckpoint (checkpoint self))]).
Proof.
  unfold shown_attributes.
  destruct (error self) as [e |] eqn:Herror;
    destruct (metrics self) as [[| kv m] |] eqn:Hmetrics;
    cbn; rewrite ?Herror, ?Hmetrics; reflexivity.
Qed.

Lemma visible_metrics_set (m : dict) (k : string) (v : value) :
  In k (AUTO_RESULT_KEYS ++ BLACKLISTED_KEYS) ->
  visible_metrics (dict_set m k v) = visible_metrics m.
Proof.
  intros Hin. unfold visible_metrics.
  assert (Hk : existsb (String.eqb k) (AUTO_RESULT_KEYS ++ BLACKLISTED_KEYS) = true).
  { apply existsb_exists. exists k. split; [exact Hin | apply String.eqb_refl]. }
  induction m as [| [k' w] m IH]; simpl.
  - rewrite Hk. reflexivity.
  - destruct (String.eqb k' k) eqn:Hk'; simpl.
    + apply String.eqb_eq in Hk'. subst k'. rewrite Hk. reflexivity.
    + rewrite IH. reflexivity.
Qed.

Lemma filter_subsequence {A : Type} (f : A -> bool) (m : list A) :
  Subsequence (filter f m) m.
Proof.
  induction m as [| x m IH]; simpl; [constructor |].
  destruct (f x); constructor; exact IH.
Qed.

Lemma visible_metrics_spec (m : dict) (kv : string * value) :
  In kv (visible_metrics m)
  <-> In kv m /\ ~ In (fst kv) AUTO_RESULT_KEYS /\ ~ In (fst kv) BLACKLISTED_KEYS.
Proof.
  unfold visible_metrics. rewrite filter_In, negb_true_iff.
  assert (Hexcluded : existsb (String.eqb (fst kv))
                              (AUTO_RESULT_KEYS ++ BLACKLISTED_KEYS) = false
                      <-> ~ In (fst kv) AUTO_RESULT_KEYS
                          /\ ~ In (fst kv) BLACKLISTED_KEYS).
  { rewrite <- not_true_iff_false, existsb_exists. split.
    - intros Hnone. split; intros Hin; apply Hnone; exists (fst kv);
        (split; [apply in_or_app; auto | apply String.eqb_refl]).
    - intros [Hauto Hblack] (k & Hk & Heq). apply String.eqb_eq in Heq. subst k.
      apply in_app_or in Hk. tauto. }
  rewrite Hexcluded. reflexivity.
Qed.

(** X20: [_repr] never raises, for any result and any indent: the removal
    of [error] and the lookup of [filesystem] in the attributes find their
    key, and the filesystem has a type name.  The text names, in this
    order, the class of the error (only when there is an error, and nothing
    else of it), the metrics, the path, the type name of the filesystem and
    the checkpoint.  The metrics it shows are [None] when the result has
    none, and otherwise the entries of the metrics whose key is in neither
    [AUTO_RESULT_KEYS] nor [BLACKLISTED_KEYS], all of them and no other, in
    the order of the metrics. *)
Theorem repr_text_X20 (self : Result) (indent : Z) :
  exists shown : option dict,
    (metrics self = None -> shown = None)
    /\ (forall m, metrics self = Some m ->
         exists kept,
           shown = Some kept
           /\ Subsequence kept m
           /\ forall kv, In kv kept
                         <-> In kv m
                             /\ ~ In (fst kv) AUTO_RESULT_KEYS
                             /\ ~ In (fst kv) BLACKLISTED_KEYS)
    /\ _repr self indent
       = Returns
           (spaces indent ++ "Result(" ++ String newline ""
            ++ String.concat ("," ++ String newline "")
                 (map (fun kv => spaces (indent + 2) ++ fst kv ++ "=" ++ snd kv)
                      ((match error self with
                        | Some e => [("error", repr_str (class_name e))]
                        | None => []
                        end)
                       ++ [("metrics", repr_option repr_dict shown);
                           ("path", repr_option repr_str (path self));
                           ("filesystem", repr_str (type_name (filesystem self)));
                           ("checkpoint",
                            repr_option repr_checkpoint (checkpoint self))]))
            ++ String newline "" ++ spaces indent ++ ")")%string.
Proof.
  exists (option_map visible_metrics (metrics self)). split; [| split].
  - intros ->. reflexivity.
  - intros m ->. exists (visible_metrics m). split; [reflexivity |].
    split; [apply filter_subsequence | apply visible_metrics_spec].
  - unfold _repr. rewrite shown_attributes_normal.
    destruct (error self); reflexivity.
Qed.

(** X21: a metric stored under a key of [AUTO_RESULT_KEYS] or
    [BLACKLISTED_KEYS] does not change the text of [_repr], whether it is
    added to the metrics or replaces a value there. *)
Theorem repr_hides_excluded_metrics_X21
    (self : Result) (m : dict) (k : string) (v : value) (indent : Z) :
  In k (AUTO_RESULT_KEYS ++ BLACKLISTED_KEYS) ->
  _repr (with_metrics self (Some (dict_set m k v))) indent
  = _repr (with_metrics self (Some m)) indent.
Proof.
  intros Hin. unfold _repr. rewrite !shown_attributes_normal.
  cbn [with_metrics metrics error checkpoint option_map].
  rewrite (visible_metrics_set m k v Hin). reflexivity.
Qed.
End Shown.

(** ** The further statements on the concrete trial *)

Section FurtherOnTheDemoTrial.
Import Demo.
#[local] Existing Instance collaborators.
#[local] Existing Instance presentation.

(** *** Selection *)

Lemma get_best_checkpoint_returns_candidate_X1_witness :
  ("max" = "max" \/ "max" = "min")
  /\ exists records d,
       best_checkpoints tied = Some records
       /\ In (ckpt "c1", d) records
       /\ dict_contains "m" d = true.
Proof.
  apply (get_best_checkpoint_returns_candidate_X1 tied "m" "max" (ckpt "c1")).
  vm_compute. reflexivity.
Defined.

Lemma get_best_checkpoint_exceptions_X2_witness :
  TypeError = RuntimeError no_checkpoint_msg
  \/ TypeError = ValueError (unsupported_mode_msg "max")
  \/ (exists latest,
         metrics mixed = Some latest
         /\ TypeError = RuntimeError (invalid_metric_msg "m"
                                        (repr_dict_keys (dict_keys latest))))
  \/ (TypeError = AttributeError /\ metrics mixed = None)
  \/ TypeError = TypeError.
Proof.
  apply (get_best_checkpoint_exceptions_X2 mixed "m" "max" TypeError).
  vm_compute. reflexivity.
Defined.

Lemma get_best_checkpoint_single_candidate_X5_witness :
  get_best_checkpoint tied "other" "min"
  = Returns (fst (ckpt "c2", [("other", VInt 9)])).
Proof.
  apply (get_best_checkpoint_single_candidate_X5 tied "other" "min").
  - right. reflexivity.
  - vm_compute. reflexivity.
Defined.

Lemma get_best_checkpoint_nan_first_X6_witness :
  get_best_checkpoint with_nan "m" "max" = Returns (fst (ckpt "c0", [("m", VNaN)])).
Proof.
  apply (get_best_checkpoint_nan_first_X6 with_nan "m" "max"
           (ckpt "c0", [("m", VNaN)])
           [(ckpt "c1", [("m", VInt 1)]); (ckpt "c2", [("m", VInt 2)])]).
  - left. reflexivity.
  - vm_compute. reflexivity.
  - reflexivity.
  - repeat constructor.
Defined.

(** *** Restoration *)

Lemma from_path_latest_checkpoint_X7_witness :
  (best_checkpoints (restored trial history) = None
   /\ checkpoint (restored trial history) = None)
  \/ (exists earlier c d,
         best_checkpoints (restored trial history) = Some (earlier ++ [(c, d)])
         /\ checkpoint (restored trial history) = Some c).
Proof.
  apply (from_path_latest_checkpoint_X7 "/trial" (Some trial)).
  vm_compute. reflexivity.
Defined.

Lemma from_path_error_field_X8_witness :
  (error (restored trial history) = None
   <-> exists_at trial (error_file_path "/trial") = false)
  /\ forall e, error (restored trial history) = Some e ->
       exists content,
         open_input_stream trial (error_file_path "/trial") = inr content
         /\ cloudpickle_load content = inr e.
Proof.
  apply (from_path_error_field_X8 "/trial" (Some trial) trial "/trial").
  - reflexivity.
  - vm_compute. reflexivity.
Defined.

Lemma from_path_stays_within_trial_X9_witness :
  Forall (within_trial "/trial") (trace_of (from_path "/trial" (Some trial)))
  /\ List.length (filter is_open (trace_of (from_path "/trial" (Some trial)))) <= 2
  /\ List.length (filter is_list (trace_of (from_path "/trial" (Some trial)))) <= 1.
Proof.
  apply (from_path_stays_within_trial_X9 "/trial" (Some trial) trial "/trial").
  reflexivity.
Defined.

Lemma from_path_warnings_X10_witness :
  filter is_warning
         (trace_of (from_path "/trial" (Some trial_with_unreported_checkpoint)))
  = map (fun d => EvWarning (no_metrics_msg d))
        (filter (fun d => match rows_of_checkpoint 3 history d with
                          | [] => true
                          | _ :: _ => false
                          end)
                (scan_checkpoint_dirs
                   [dir "checkpoint_000004"; dir "checkpoint_000005";
                    file "result.json"])).
Proof.
  apply (from_path_warnings_X10 "/trial" (Some trial_with_unreported_checkpoint)
           trial_with_unreported_checkpoint "/trial" _ history 3
           restored_with_unreported_checkpoint).
  - reflexivity.
  - reflexivity.
  - vm_compute. reflexivity.
  - reflexivity.
  - vm_compute. reflexivity.
Defined.

Lemma from_path_latest_metrics_keys_X11_witness :
  exists df latest,
    metrics_dataframe (restored trial history) = Some df
    /\ metrics (restored trial history) = Some latest
    /\ (df_empty df = true -> latest = [])
    /\ (df_empty df = false ->
        forall k, dict_contains k latest = true <-> In k (columns df)).
Proof.
  apply (from_path_latest_metrics_keys_X11 "/trial" (Some trial)).
  vm_compute. reflexivity.
Defined.

Lemma from_path_latest_metrics_values_X12_witness :
  dict_getitem (latest_metrics_of numbers) "step" = Returns (VFloat (2 # 1))
  /\ dict_getitem (latest_metrics_of numbers) "loss" = Returns (VFloat (1 # 4))
  /\ dict_getitem (latest_metrics_of history) "metric_b" = Returns (VInt (-4)).
Proof.
  split; [| split].
  - refine (proj2 (from_path_latest_metrics_values_X12 (C := collaborators) "/trial" (Some trial_of_numbers)
                     restored_numbers numbers [[VInt 1; VFloat (1 # 2)]]
                     [VInt 2; VFloat (1 # 4)] (latest_metrics_of numbers) "step" 0%nat
                     ltac:(vm_compute; reflexivity) eq_refl eq_refl
                     ltac:(vm_compute; repeat constructor; simpl; intuition discriminate)
                     ltac:(vm_compute; reflexivity) ltac:(vm_compute; reflexivity))
                  _ _ 2%Z eq_refl).
    + vm_compute. repeat (apply Forall_cons || apply Forall_nil); auto.
    + vm_compute. auto.
  - apply (proj1 (from_path_latest_metrics_values_X12 (C := collaborators) "/trial" (Some trial_of_numbers)
                    restored_numbers numbers [[VInt 1; VFloat (1 # 2)]]
                    [VInt 2; VFloat (1 # 4)] (latest_metrics_of numbers) "loss" 1%nat
                    ltac:(vm_compute; reflexivity) eq_refl eq_refl
                    ltac:(vm_compute; repeat constructor; simpl; intuition discriminate)
                    ltac:(vm_compute; reflexivity) ltac:(vm_compute; reflexivity))).
    left. intros z. discriminate.
  - apply (proj1 (from_path_latest_metrics_values_X12 (C := collaborators) "/trial" (Some trial)
                    (restored trial history) history (removelast (rows history))
                    (last (rows history) []) (latest_metrics_of history)
                    "metric_b" 2%nat
                    ltac:(vm_compute; reflexivity) eq_refl eq_refl
                    ltac:(vm_compute; repeat constructor; simpl; intuition discriminate)
                    ltac:(vm_compute; reflexivity) ltac:(vm_compute; reflexivity))).
    right. left. vm_compute. auto.
Defined.

Lemma from_path_path_and_filesystem_X13_witness :
  filesystem (restored trial history) = trial
  /\ ("/trial" <> "" -> path (restored trial history) = Some "/trial")
  /\ ("/trial" = "" ->
      path (restored trial history) = if is_local trial then Some "/trial" else None).
Proof.
  apply (from_path_path_and_filesystem_X13 "/trial" (Some trial) trial "/trial").
  - reflexivity.
  - vm_compute. reflexivity.
Defined.

Lemma restored_no_checkpoint_error_X14_witness :
  (get_best_checkpoint (restored trial history) "metric_a" "max"
   = Raises (RuntimeError no_checkpoint_msg)
   <-> forall item, In item checkpoint_items -> is_checkpoint_dir item = false)
  /\ get_best_checkpoint (restored trial history) "metric_a" "max"
     <> Raises AttributeError.
Proof.
  apply (restored_no_checkpoint_error_X14 "/trial" (Some trial) trial "/trial").
  - reflexivity.
  - reflexivity.
  - vm_compute. reflexivity.
Defined.

Lemma restored_invalid_metric_X15_witness :
  (exists msg, get_best_checkpoint (restored trial history) "loss" "max"
               = Raises (RuntimeError msg))
  <-> (~ In "loss" (columns history)
       \/ forall name, In name (scan_checkpoint_dirs checkpoint_items) ->
                       rows_of_checkpoint 3 history name = []).
Proof.
  apply (restored_invalid_metric_X15 "/trial" (Some trial) trial "/trial").
  - reflexivity.
  - reflexivity.
  - vm_compute. reflexivity.
  - reflexivity.
  - vm_compute. reflexivity.
  - left. reflexivity.
Defined.

Lemma from_path_checkpoint_locations_X16_witness :
  ckpt_filesystem (checkpoint_at trial "/trial" "checkpoint_000003") = trial
  /\ String.prefix "/trial"
       (ckpt_path (checkpoint_at trial "/trial" "checkpoint_000003")) = true
  /\ exists item,
       In item checkpoint_items
       /\ type item = Directory
       /\ String.prefix "checkpoint_" (base_name item) = true
       /\ ckpt_path (checkpoint_at trial "/trial" "checkpoint_000003")
          = path_join "/trial" (base_name item).
Proof.
  apply (from_path_checkpoint_locations_X16 "/trial" (Some trial) trial "/trial"
           checkpoint_items (restored trial history) (records_of trial history)
           _ (snapshot_of 3 history "checkpoint_000003")).
  - reflexivity.
  - reflexivity.
  - vm_compute. reflexivity.
  - reflexivity.
  - right. left. reflexivity.
Defined.

Lemma from_path_json_lines_X17_witness :
  exists metrics_df,
    json_normalize [report 0 0 0 VNone; report 1 1 (-1) VNone;
                    report 2 2 (-2) (VStr "checkpoint_000002");
                    report 3 3 (-3) (VStr "checkpoint_000003");
                    report 4 4 (-4) (VStr "checkpoint_000004")]
    = inr metrics_df
    /\ metrics_dataframe (restored trial history) = Some metrics_df.
Proof.
  apply (from_path_json_lines_X17 "/trial" (Some trial) trial "/trial" result_json
           ["{iteration 0}"; "{iteration 1}"; "{iteration 2}"; "{iteration 3}";
            "{iteration 4}"]).
  - reflexivity.
  - vm_compute. reflexivity.
  - vm_compute. reflexivity.
  - vm_compute. reflexivity.
  - repeat constructor.
  - repeat constructor.
  - vm_compute. reflexivity.
Defined.

Lemma from_path_bad_line_X18_witness :
  from_path "/trial" (Some trial_with_bad_line)
  = ([EvExists "/trial"; EvExists (result_json_file "/trial");
      EvOpen (result_json_file "/trial")],
     Raises (ExternalError "cannot decode {iterat")).
Proof.
  apply (from_path_bad_line_X18 "/trial" (Some trial_with_bad_line)
           trial_with_bad_line "/trial"
           (lines ["{iteration 0}"; "{iterat"]) (lines ["{iteration 0}"; "{iterat"])
           ["{iteration 0}"] "{iterat" []).
  - reflexivity.
  - vm_compute. reflexivity.
  - vm_compute. reflexivity.
  - vm_compute. reflexivity.
  - reflexivity.
  - vm_compute. reflexivity.
  - repeat constructor. exists (report 0 0 0 VNone). reflexivity.
  - reflexivity.
Defined.

(** *** The scan *)

Lemma scan_checkpoint_dirs_listing_order_X19_witness :
  scan_checkpoint_dirs [dir "checkpoint_000003"; dir "checkpoint_000002"]
  = scan_checkpoint_dirs [dir "checkpoint_000002"; dir "checkpoint_000003"].
Proof.
  apply scan_checkpoint_dirs_listing_order_X19. apply perm_swap.
Defined.

(** *** The representation *)

Lemma repr_hides_excluded_metrics_X21_witness :
  _repr (with_metrics (restored trial history)
                      (Some (dict_set [("metric_a", VInt 4)]
                                      "training_iteration" (VInt 5)))) 0
  = _repr (with_metrics (restored trial history) (Some [("metric_a", VInt 4)])) 0.
Proof.
  apply (repr_hides_excluded_metrics_X21 (restored trial history)
           [("metric_a", VInt 4)] "training_iteration" (VInt 5) 0).
  left. reflexivity.
Defined.
End FurtherOnTheDemoTrial.

(** ** The two logs of one trial *)

Section OnTheTwoLogs.
Import Demo.



(** A report that names no checkpoint: the record holds [None], the empty
    cell of the table is a missing number, and the row of the table is a
    series of floats. *)
Example restore_report_without_checkpoint :
  (exists r, outcome_of (from_path (C := formats) "/trial" (Some plain_trial_in_json))
             = Returns r
             /\ metrics r = Some [("metric_a", VInt 1);
                                  ("checkpoint_dir_name", VNone)])
  /\ (exists r, outcome_of (from_path (C := formats) "/trial" (Some plain_trial_in_csv))
                = Returns r
                /\ metrics r = Some [("metric_a", VFloat (1 # 1));
                                     ("checkpoint_dir_name", VNaN)]).
Proof.
  split.
  - exists (assembled "/trial" plain_trial_in_json "/trial"
              {| columns := ["metric_a"; "checkpoint_dir_name"];
                 dtypes := [int64; object_]; rows := [[VInt 1; VNone]] |}
              None None None).
    split; vm_compute; reflexivity.
  - exists (assembled "/trial" plain_trial_in_csv "/trial"
              {| columns := ["metric_a"; "checkpoint_dir_name"];
                 dtypes := [int64; float64]; rows := [[VInt 1; VNaN]] |}
              None None None).
    split; vm_compute; reflexivity.
Qed.
End OnTheTwoLogs.
